(** * castoredc_api: interpretation of raw Castor EDC field values

    A shallow embedding of
    [castoredc_api/study/castor_objects/castor_data_point.py]:
    the methods of [CastorDataPoint] that turn a raw exported value into an
    analysable one, and the module-level functions of the same names that
    the grid reconstruction applies to every cell.

    Python objects are modelled by the inductive [pyobj]; a call that can
    raise returns a [result]; the interpreter's builtins and the pandas and
    json calls the source relies on are the fields of the class
    [PyRuntime], so that every general theorem holds whatever those
    library functions do.  [RefRuntime] is a concrete instance, used for
    the worked examples. *)

From Stdlib Require Import ZArith String Ascii List Bool Lia SpecFloat.
From stdpp Require Import base gmap strings.

Import ListNotations.
Local Open Scope Z_scope.
Local Open Scope string_scope.
Local Open Scope list_scope.

(** ** Python objects, exceptions and outcomes *)

(** The Python values the module handles: what [json.loads] produces, plus
    floats such as [np.nan].  A [str] is the sequence of its characters,
    each an [ascii]; a [float] is a binary64 number; a [dict] keeps its
    insertion order and has [str] keys. *)
#[local] Set Warnings "-register-all".
Inductive pyobj : Type :=
| PNone
| PBool (b : bool)
| PInt (z : Z)
| PFloat (f : spec_float)
| PStr (s : string)
| PList (l : list pyobj)
| PDict (d : list (string * pyobj)).

(** [np.nan] *)
Definition np_nan : pyobj := PFloat S754_nan.

Inductive exn : Type :=
| ValueError
| TypeError
| KeyError
| IndexError
| AttributeError
| OverflowError
| UnboundLocalError
| JSONDecodeError
| CastorException (msg : string).

(** Outcome of evaluating a Python expression: a value, or a raised
    exception. *)
Inductive result (A : Type) : Type :=
| Ok (a : A)
| Raise (e : exn).
Arguments Ok {A} a.
Arguments Raise {A} e.

Definition bind {A B} (m : result A) (k : A -> result B) : result B :=
  match m with
  | Ok a => k a
  | Raise e => Raise e
  end.

Notation "x <- m ;; k" := (bind m (fun x => k))
  (at level 100, m at next level, right associativity).

(** [if c: a else: b] where evaluating the test [c] may itself raise. *)
Notation "'IF' c 'THEN' a 'ELSE' b" := (bind c (fun t : bool => if t then a else b))
  (at level 10, c at level 200, a at level 200, b at level 200).

(** [[f(x) for x in l]]: the first exception aborts the comprehension. *)
Fixpoint map_result {A B} (f : A -> result B) (l : list A) : result (list B) :=
  match l with
  | [] => Ok []
  | x :: t => y <- f x ;; ys <- map_result f t ;; Ok (y :: ys)
  end.

Definition of_option {A} (e : exn) (o : option A) : result A :=
  match o with
  | Some a => Ok a
  | None => Raise e
  end.

(** ** Strings *)

(** [needle in hay] on two [str]. *)
Fixpoint contains (needle hay : string) : bool :=
  if String.prefix needle hay then true
  else match hay with
       | EmptyString => false
       | String _ t => contains needle t
       end.

(** [s.split(sep)] for a one-character separator. *)
Fixpoint split (sep : ascii) (s : string) : list string :=
  match s with
  | EmptyString => [EmptyString]
  | String c t =>
      if Ascii.eqb c sep then EmptyString :: split sep t
      else match split sep t with
           | tok :: rest => String c tok :: rest
           | [] => [String c EmptyString]
           end
  end.

(** [sep.join(l)] *)
Definition join (sep : string) (l : list string) : string := String.concat sep l.

(** The characters [str.strip()] removes among the first 128 code points. *)
Definition is_space (c : ascii) : bool :=
  let n := nat_of_ascii c in
  ((9 <=? n) && (n <=? 13) || (28 <=? n) && (n <=? 32))%nat.

Fixpoint lstrip (s : string) : string :=
  match s with
  | String c t => if is_space c then lstrip t else s
  | EmptyString => EmptyString
  end.

Fixpoint rstrip (s : string) : string :=
  match s with
  | EmptyString => EmptyString
  | String c t =>
      match rstrip t with
      | EmptyString => if is_space c then EmptyString else String c EmptyString
      | t' => String c t'
      end
  end.

Definition strip (s : string) : string := rstrip (lstrip s).

(** ** Operations of the interpreter on objects *)

(** [v == s] for a [str] literal [s]. *)
Definition py_eq_str (v : pyobj) (s : string) : bool :=
  match v with
  | PStr t => String.eqb t s
  | _ => false
  end.

(** [v in l] for a list [l] of [str] literals. *)
Definition py_in_strs (v : pyobj) (l : list string) : bool :=
  existsb (py_eq_str v) l.

(** [needle in v] for a [str] literal [needle]: substring test on a [str],
    membership on a list, key membership on a [dict]; the other objects
    are not iterable. *)
Definition py_contains (needle : string) (v : pyobj) : result bool :=
  match v with
  | PStr s => Ok (contains needle s)
  | PList l => Ok (existsb (fun x => py_eq_str x needle) l)
  | PDict d => Ok (existsb (fun kv => String.eqb (fst kv) needle) d)
  | _ => Raise TypeError
  end.

(** [v.split(sep)] *)
Definition py_split (v : pyobj) (sep : ascii) : result (list string) :=
  match v with
  | PStr s => Ok (split sep s)
  | _ => Raise AttributeError
  end.

(** ** Dates and times *)

Record datetime : Type := mk_datetime {
  dt_year : Z; dt_month : Z; dt_day : Z;
  dt_hour : Z; dt_minute : Z; dt_second : Z }.

(** [datetime.time] *)
Record dtime : Type := mk_time { t_hour : Z; t_minute : Z; t_second : Z }.

Inductive freq : Type := FreqD | FreqS.

(** [pd.Period]: a time span of frequency [p_freq] starting at [p_start]. *)
Record Period : Type := mk_period { p_freq : freq; p_start : datetime }.

(** [pd.Period(year=y, month=m, day=d, freq=f)] *)
Definition Period_ymd (y m d : Z) (f : freq) : Period :=
  mk_period f (mk_datetime y m d 0 0 0).

(** [pd.Period(dt, freq=f)]: the span of frequency [f] that contains [dt]. *)
Definition Period_of (dt : datetime) (f : freq) : Period :=
  match f with
  | FreqD => mk_period FreqD (mk_datetime (dt_year dt) (dt_month dt) (dt_day dt) 0 0 0)
  | FreqS => mk_period FreqS dt
  end.

(** [dt.time()] *)
Definition time_of (dt : datetime) : dtime :=
  mk_time (dt_hour dt) (dt_minute dt) (dt_second dt).

(** ** The study context *)

(** An option group as the study returns it: the [options] list of
    [{value, name}] items. *)
Record optiongroup : Type := mk_optiongroup { og_options : list (string * string) }.

(** [study.configuration]: the format strings of the study. *)
Record FormatConfig : Type := mk_config {
  cfg_date : string; cfg_time : string; cfg_datetime : string }.

Record CastorStudy : Type := mk_study {
  configuration : FormatConfig;
  get_single_optiongroup : pyobj -> option optiongroup;
  pass_keyerrors : bool }.

Record CastorField : Type := mk_field {
  field_name : string;
  field_type : pyobj;
  field_option_group : pyobj;
  field_summary_template : pyobj }.

(** ** Tables *)

(** A [pd.DataFrame] read positionally: its shape and the object at each
    row and column position. *)
Record frame : Type := mk_frame {
  shape0 : nat;
  shape1 : nat;
  iloc : nat -> nat -> pyobj }.

(** [df.T] *)
Definition T (df : frame) : frame :=
  mk_frame (shape1 df) (shape0 df) (fun i j => iloc df j i).

(** [df[col].tolist()] for the column at position [j]. *)
Definition column (df : frame) (j : nat) : list pyobj :=
  map (fun i => iloc df i j) (seq 0 (shape0 df)).

(** The row at position [i], as a list. *)
Definition row (df : frame) (i : nat) : list pyobj :=
  map (fun j => iloc df i j) (seq 0 (shape1 df)).

(** The labelled table a grid is interpreted into: the column labels, the
    row labels and the cells row by row. *)
Record table : Type := mk_table {
  tbl_columns : list string;
  tbl_index : list string;
  tbl_rows : list (list pyobj) }.

(** An interpreted value: an object, or a table for a grid. *)
Inductive value : Type :=
| VObj (o : pyobj)
| VTable (t : table).

(** ** Library functions the module calls *)

Class PyRuntime : Type := {
  (** [float(s)] on a [str]; [None] is [ValueError] *)
  float_of_str : string -> option spec_float;
  (** [int(s)] on a [str]; [None] is [ValueError] *)
  int_of_str : string -> option Z;
  (** [datetime.strptime(s, fmt)] on a [str]; [None] is [ValueError] *)
  strptime : string -> string -> option datetime;
  (** [t.strftime(fmt)] on a [datetime.time] *)
  time_strftime : dtime -> string -> string;
  (** [p.strftime(fmt)] on a [pd.Period] *)
  period_strftime : Period -> string -> string;
  (** [json.loads(s)] on a [str]; [None] is [json.decoder.JSONDecodeError] *)
  json_loads : string -> option pyobj;
  (** [pd.DataFrame(rows)] on a list *)
  pd_DataFrame : list pyobj -> result frame;
  (** [str(og)] on an option group *)
  str_optiongroup : optiongroup -> string }.

(** ** Conversions *)

(** Python floats are IEEE 754 binary64 numbers. *)
Definition prec : Z := 53.
Definition emax : Z := 1024.

(** [float(n)] on an [int]: the nearest double, or [OverflowError]. *)
Definition float_of_int (n : Z) : result spec_float :=
  match binary_normalize prec emax n 0 false with
  | S754_infinity _ => Raise OverflowError
  | f => Ok f
  end.

(** [int(f)] on a [float]: truncation towards zero. *)
Definition int_of_float (f : spec_float) : result Z :=
  match f with
  | S754_zero _ => Ok 0
  | S754_nan => Raise ValueError
  | S754_infinity _ => Raise OverflowError
  | S754_finite s m e =>
      let a := match e with
               | Zneg p => Z.shiftr (Zpos m) (Zpos p)
               | _ => Z.shiftl (Zpos m) e
               end in
      Ok (if s then - a else a)
  end.

Section Interpretation.
Context {rt : PyRuntime}.

(** [float(v)] *)
Definition py_float (v : pyobj) : result spec_float :=
  match v with
  | PStr s => of_option ValueError (float_of_str s)
  | PFloat f => Ok f
  | PInt n => float_of_int n
  | PBool b => float_of_int (if b then 1 else 0)
  | _ => Raise TypeError
  end.

(** [int(v)] *)
Definition py_int (v : pyobj) : result Z :=
  match v with
  | PStr s => of_option ValueError (int_of_str s)
  | PInt n => Ok n
  | PBool b => Ok (if b then 1 else 0)
  | PFloat f => int_of_float f
  | _ => Raise TypeError
  end.

(** [datetime.strptime(v, fmt)] *)
Definition py_strptime (v : pyobj) (fmt : string) : result datetime :=
  match v with
  | PStr s => of_option ValueError (strptime s fmt)
  | _ => Raise TypeError
  end.

(** [json.loads(v)] *)
Definition py_json_loads (v : pyobj) : result pyobj :=
  match v with
  | PStr s => of_option JSONDecodeError (json_loads s)
  | _ => Raise TypeError
  end.

(** ** The module-level functions *)

Definition interpret_time (time_format : string) (raw_value : pyobj) : result pyobj :=
  if py_eq_str raw_value "" then Ok (PStr "")
  else IF py_contains "Missing" raw_value THEN
    (IF py_contains "measurement failed" raw_value THEN Ok (PStr "-95")
     ELSE IF py_contains "not applicable" raw_value THEN Ok (PStr "-96")
     ELSE IF py_contains "not asked" raw_value THEN Ok (PStr "-97")
     ELSE IF py_contains "asked but unknown" raw_value THEN Ok (PStr "-98")
     ELSE IF py_contains "not done" raw_value THEN Ok (PStr "-99")
     ELSE Ok (PStr "Missing value not recognized"))
  ELSE
    dt <- py_strptime raw_value "%H:%M" ;;
    Ok (PStr (time_strftime (time_of dt) time_format)).

Definition interpret_datetime (datetime_format : string) (raw_value : pyobj) : result pyobj :=
  if py_eq_str raw_value "" then Ok np_nan
  else IF py_contains "Missing" raw_value THEN
    (IF py_contains "measurement failed" raw_value THEN
       Ok (PStr (period_strftime (Period_ymd 2995 1 1 FreqS) datetime_format))
     ELSE IF py_contains "not applicable" raw_value THEN
       Ok (PStr (period_strftime (Period_ymd 2996 1 1 FreqS) datetime_format))
     ELSE IF py_contains "not asked" raw_value THEN
       Ok (PStr (period_strftime (Period_ymd 2997 1 1 FreqS) datetime_format))
     ELSE IF py_contains "asked but unknown" raw_value THEN
       Ok (PStr (period_strftime (Period_ymd 2998 1 1 FreqS) datetime_format))
     ELSE IF py_contains "not done" raw_value THEN
       Ok (PStr (period_strftime (Period_ymd 2999 1 1 FreqS) datetime_format))
     ELSE Ok (PStr "Missing value not recognized"))
  ELSE
    match py_strptime raw_value "%d-%m-%Y;%H:%M" with
    | Ok dt => Ok (PStr (period_strftime (Period_of dt FreqS) datetime_format))
    | Raise ValueError =>
        dt <- py_strptime raw_value "%d-%m-%Y" ;;
        Ok (PStr (period_strftime (Period_of dt FreqS) datetime_format))
    | Raise e => Raise e
    end.

Definition interpret_date (date_format : string) (raw_value : pyobj) : result pyobj :=
  if py_eq_str raw_value "" then Ok np_nan
  else IF py_contains "Missing" raw_value THEN
    (IF py_contains "measurement failed" raw_value THEN
       Ok (PStr (period_strftime (Period_ymd 2995 1 1 FreqD) date_format))
     ELSE IF py_contains "not applicable" raw_value THEN
       Ok (PStr (period_strftime (Period_ymd 2996 1 1 FreqD) date_format))
     ELSE IF py_contains "not asked" raw_value THEN
       Ok (PStr (period_strftime (Period_ymd 2997 1 1 FreqD) date_format))
     ELSE IF py_contains "asked but unknown" raw_value THEN
       Ok (PStr (period_strftime (Period_ymd 2998 1 1 FreqD) date_format))
     ELSE IF py_contains "not done" raw_value THEN
       Ok (PStr (period_strftime (Period_ymd 2999 1 1 FreqD) date_format))
     ELSE Ok (PStr "Missing value not recognized"))
  ELSE
    match py_strptime raw_value "%d-%m-%Y" with
    | Ok dt => Ok (PStr (period_strftime (Period_of dt FreqD) date_format))
    | Raise ValueError =>
        dt <- py_strptime raw_value "%d-%m-%Y;%H:%M" ;;
        Ok (PStr (period_strftime (Period_of dt FreqS) "%d-%m-%Y;%H:%M"))
    | Raise e => Raise e
    end.

(** [{item["value"]: item["name"] for item in options}]: a later item
    replaces an earlier one with the same value. *)
Definition option_link (options : list (string * string)) : gmap string string :=
  fold_left (fun m item => <[fst item := snd item]> m) options ∅.

Definition not_found_msg : string :=
  "Optiongroup not found. Is id correct and are optiongroups loaded?".

(** [{raw_value}] inside the f-string of the message; the message is built
    only after [raw_value.split] succeeded, that is for a [str]. *)
Definition str_raw (v : pyobj) : string :=
  match v with
  | PStr s => s
  | _ => ""
  end.

Definition interpret_optiongroup_helper (study : CastorStudy) (instance_of : CastorField)
    (raw_value : pyobj) : result pyobj :=
  let optiongroup := field_option_group instance_of in
  match get_single_optiongroup study optiongroup with
  | None => Raise (CastorException not_found_msg)
  | Some study_optiongroup =>
      let options := og_options study_optiongroup in
      let link := option_link options in
      value_list <- py_split raw_value ";" ;;
      new_values <-
        (if decide (value_list = [""]) then Ok [""]
         else if pass_keyerrors study then
           Ok (map (fun value => default value (link !! value)) value_list)
         else
           match map_result (fun value => of_option KeyError (link !! value)) value_list with
           | Ok names => Ok names
           | Raise KeyError =>
               Raise (CastorException
                 ("Optional value mapping failed for optiongroup: "
                  +:+ str_optiongroup study_optiongroup
                  +:+ "Key `" +:+ str_raw raw_value
                  +:+ "` not present in the keys of the optiongroup"))
           | Raise e => Raise e
           end) ;;
      Ok (PStr (join "|" new_values))
  end.

Definition interpret_optiongroup (study : CastorStudy) (instance_of : CastorField)
    (raw_value : pyobj) : result pyobj :=
  if py_eq_str raw_value "" then Ok (PStr "")
  else IF py_contains "Missing" raw_value THEN
    (IF py_contains "measurement failed" raw_value THEN Ok (PStr "measurement failed")
     ELSE IF py_contains "not applicable" raw_value THEN Ok (PStr "not applicable")
     ELSE IF py_contains "not asked" raw_value THEN Ok (PStr "not asked")
     ELSE IF py_contains "asked but unknown" raw_value THEN Ok (PStr "asked but unknown")
     ELSE IF py_contains "not done" raw_value THEN Ok (PStr "not done")
     ELSE Ok (PStr "Missing value not recognized"))
  ELSE interpret_optiongroup_helper study instance_of raw_value.

Definition interpret_numeric (raw_value : pyobj) : result pyobj :=
  if py_eq_str raw_value "" then Ok np_nan
  else IF py_contains "Missing" raw_value THEN
    (IF py_contains "measurement failed" raw_value THEN Ok (PInt (-95))
     ELSE IF py_contains "not applicable" raw_value THEN Ok (PInt (-96))
     ELSE IF py_contains "not asked" raw_value THEN Ok (PInt (-97))
     ELSE IF py_contains "asked but unknown" raw_value THEN Ok (PInt (-98))
     ELSE IF py_contains "not done" raw_value THEN Ok (PInt (-99))
     ELSE Ok (PStr "Missing value not recognized"))
  ELSE
    f <- py_float raw_value ;; Ok (PFloat f).

Definition interpret_year (raw_value : pyobj) : result pyobj :=
  if py_eq_str raw_value "" then Ok np_nan
  else IF py_contains "Missing" raw_value THEN
    (IF py_contains "measurement failed" raw_value THEN Ok (PInt (-95))
     ELSE IF py_contains "not applicable" raw_value THEN Ok (PInt (-96))
     ELSE IF py_contains "not asked" raw_value THEN Ok (PInt (-97))
     ELSE IF py_contains "asked but unknown" raw_value THEN Ok (PInt (-98))
     ELSE IF py_contains "not done" raw_value THEN Ok (PInt (-99))
     ELSE Ok (PStr "Missing value not recognized"))
  ELSE
    n <- py_int raw_value ;; Ok (PInt n).

Definition interpret_numberdate (date_format : string) (raw_value : pyobj) : result pyobj :=
  if py_eq_str raw_value "" then Ok (PList [np_nan; np_nan])
  else IF py_contains "Missing" raw_value THEN
    (IF py_contains "measurement failed" raw_value THEN
       Ok (PList [PInt (-95); PStr (period_strftime (Period_ymd 2995 1 1 FreqD) date_format)])
     ELSE IF py_contains "not applicable" raw_value THEN
       Ok (PList [PInt (-96); PStr (period_strftime (Period_ymd 2996 1 1 FreqD) date_format)])
     ELSE IF py_contains "not asked" raw_value THEN
       Ok (PList [PInt (-97); PStr (period_strftime (Period_ymd 2997 1 1 FreqD) date_format)])
     ELSE IF py_contains "asked but unknown" raw_value THEN
       Ok (PList [PInt (-98); PStr (period_strftime (Period_ymd 2998 1 1 FreqD) date_format)])
     ELSE IF py_contains "not done" raw_value THEN
       Ok (PList [PInt (-99); PStr (period_strftime (Period_ymd 2999 1 1 FreqD) date_format)])
     ELSE Ok (PList [PStr "Missing value not recognized"; PStr "Missing value not recognized"]))
  ELSE
    parts <- py_split raw_value ";" ;;
    match parts with
    | [number; date] =>
        let number := if String.eqb number "" then np_nan else PStr number in
        let date := if String.eqb date "" then np_nan else PStr date in
        f <- py_float number ;;
        dt <- py_strptime date "%d-%m-%Y" ;;
        Ok (PList [PFloat f; PStr (period_strftime (Period_of dt FreqD) date_format)])
    | _ => Raise ValueError
    end.

Definition interpret (study : CastorStudy) (instance_of : CastorField) (raw_value : pyobj)
    : result pyobj :=
  if py_in_strs (field_type instance_of) ["checkbox"; "dropdown"; "radio"] then
    interpret_optiongroup study instance_of raw_value
  else if py_in_strs (field_type instance_of) ["numeric"; "slider"; "randomization"] then
    interpret_numeric raw_value
  else if py_in_strs (field_type instance_of) ["year"] then
    interpret_year raw_value
  else if py_in_strs (field_type instance_of) ["string"; "textarea"; "upload"; "calculation"] then
    Ok raw_value
  else if py_in_strs (field_type instance_of) ["datetime"] then
    interpret_datetime (cfg_datetime (configuration study)) raw_value
  else if py_in_strs (field_type instance_of) ["date"] then
    interpret_date (cfg_date (configuration study)) raw_value
  else if py_in_strs (field_type instance_of) ["time"] then
    interpret_time (cfg_time (configuration study)) raw_value
  else if py_in_strs (field_type instance_of) ["numberdate"] then
    interpret_numberdate (cfg_date (configuration study)) raw_value
  else Ok (PStr "Error").

(** ** The methods of [CastorDataPoint] *)

(** The attributes of a data point that interpretation reads. *)
Record CastorDataPoint : Type := mk_data_point {
  field_id : string;
  raw_value : pyobj;
  instance_of : CastorField }.

Definition __interpret_time (self : CastorDataPoint) (time_format : string) : result pyobj :=
  if py_eq_str (raw_value self) "" then Ok (PStr "")
  else IF py_contains "Missing" (raw_value self) THEN
    (IF py_contains "measurement failed" (raw_value self) THEN Ok (PStr "-95")
     ELSE IF py_contains "not applicable" (raw_value self) THEN Ok (PStr "-96")
     ELSE IF py_contains "not asked" (raw_value self) THEN Ok (PStr "-97")
     ELSE IF py_contains "asked but unknown" (raw_value self) THEN Ok (PStr "-98")
     ELSE IF py_contains "not done" (raw_value self) THEN Ok (PStr "-99")
     ELSE Ok (PStr "Missing value not recognized"))
  ELSE
    dt <- py_strptime (raw_value self) "%H:%M" ;;
    Ok (PStr (time_strftime (time_of dt) time_format)).

Definition __interpret_datetime (self : CastorDataPoint) (datetime_format : string)
    : result pyobj :=
  if py_eq_str (raw_value self) "" then Ok np_nan
  else IF py_contains "Missing" (raw_value self) THEN
    (IF py_contains "measurement failed" (raw_value self) THEN
       Ok (PStr (period_strftime (Period_ymd 2995 1 1 FreqS) datetime_format))
     ELSE IF py_contains "not applicable" (raw_value self) THEN
       Ok (PStr (period_strftime (Period_ymd 2996 1 1 FreqS) datetime_format))
     ELSE IF py_contains "not asked" (raw_value self) THEN
       Ok (PStr (period_strftime (Period_ymd 2997 1 1 FreqS) datetime_format))
     ELSE IF py_contains "asked but unknown" (raw_value self) THEN
       Ok (PStr (period_strftime (Period_ymd 2998 1 1 FreqS) datetime_format))
     ELSE IF py_contains "not done" (raw_value self) THEN
       Ok (PStr (period_strftime (Period_ymd 2999 1 1 FreqS) datetime_format))
     ELSE Ok (PStr "Missing value not recognized"))
  ELSE
    match py_strptime (raw_value self) "%d-%m-%Y;%H:%M" with
    | Ok dt => Ok (PStr (period_strftime (Period_of dt FreqS) datetime_format))
    | Raise ValueError =>
        dt <- py_strptime (raw_value self) "%d-%m-%Y" ;;
        Ok (PStr (period_strftime (Period_of dt FreqS) datetime_format))
    | Raise e => Raise e
    end.

Definition __interpret_date (self : CastorDataPoint) (date_format : string) : result pyobj :=
  if py_eq_str (raw_value self) "" then Ok np_nan
  else IF py_contains "Missing" (raw_value self) THEN
    (IF py_contains "measurement failed" (raw_value self) THEN
       Ok (PStr (period_strftime (Period_ymd 2995 1 1 FreqD) date_format))
     ELSE IF py_contains "not applicable" (raw_value self) THEN
       Ok (PStr (period_strftime (Period_ymd 2996 1 1 FreqD) date_format))
     ELSE IF py_contains "not asked" (raw_value self) THEN
       Ok (PStr (period_strftime (Period_ymd 2997 1 1 FreqD) date_format))
     ELSE IF py_contains "asked but unknown" (raw_value self) THEN
       Ok (PStr (period_strftime (Period_ymd 2998 1 1 FreqD) date_format))
     ELSE IF py_contains "not done" (raw_value self) THEN
       Ok (PStr (period_strftime (Period_ymd 2999 1 1 FreqD) date_format))
     ELSE Ok (PStr "Missing value not recognized"))
  ELSE
    match py_strptime (raw_value self) "%d-%m-%Y" with
    | Ok dt => Ok (PStr (period_strftime (Period_of dt FreqD) date_format))
    | Raise ValueError =>
        dt <- py_strptime (raw_value self) "%d-%m-%Y;%H:%M" ;;
        Ok (PStr (period_strftime (Period_of dt FreqS) "%d-%m-%Y;%H:%M"))
    | Raise e => Raise e
    end.

Definition __interpret_optiongroup_helper (self : CastorDataPoint) (study : CastorStudy)
    : result pyobj :=
  let optiongroup := field_option_group (instance_of self) in
  match get_single_optiongroup study optiongroup with
  | None => Raise (CastorException not_found_msg)
  | Some study_optiongroup =>
      let options := og_options study_optiongroup in
      let link := option_link options in
      value_list <- py_split (raw_value self) ";" ;;
      new_values <-
        (if decide (value_list = [""]) then Ok [""]
         else if pass_keyerrors study then
           Ok (map (fun value => default value (link !! value)) value_list)
         else
           match map_result (fun value => of_option KeyError (link !! value)) value_list with
           | Ok names => Ok names
           | Raise KeyError =>
               Raise (CastorException
                 ("Optional value mapping failed for optiongroup: "
                  +:+ str_optiongroup study_optiongroup
                  +:+ "Key `" +:+ str_raw (raw_value self)
                  +:+ "` not present in the keys of the optiongroup"
                  +:+ "of field: " +:+ field_id self
                  +:+ " (" +:+ field_name (instance_of self) +:+ ")"))
           | Raise e => Raise e
           end) ;;
      Ok (PStr (join "|" new_values))
  end.

Definition __interpret_optiongroup (self : CastorDataPoint) (study : CastorStudy)
    : result pyobj :=
  if py_eq_str (raw_value self) "" then Ok (PStr "")
  else IF py_contains "Missing" (raw_value self) THEN
    (IF py_contains "measurement failed" (raw_value self) THEN Ok (PStr "measurement failed")
     ELSE IF py_contains "not applicable" (raw_value self) THEN Ok (PStr "not applicable")
     ELSE IF py_contains "not asked" (raw_value self) THEN Ok (PStr "not asked")
     ELSE IF py_contains "asked but unknown" (raw_value self) THEN Ok (PStr "asked but unknown")
     ELSE IF py_contains "not done" (raw_value self) THEN Ok (PStr "not done")
     ELSE Ok (PStr "Missing value not recognized"))
  ELSE __interpret_optiongroup_helper self study.

Definition __interpret_numeric (self : CastorDataPoint) : result pyobj :=
  if py_eq_str (raw_value self) "" then Ok np_nan
  else IF py_contains "Missing" (raw_value self) THEN
    (IF py_contains "measurement failed" (raw_value self) THEN Ok (PInt (-95))
     ELSE IF py_contains "not applicable" (raw_value self) THEN Ok (PInt (-96))
     ELSE IF py_contains "not asked" (raw_value self) THEN Ok (PInt (-97))
     ELSE IF py_contains "asked but unknown" (raw_value self) THEN Ok (PInt (-98))
     ELSE IF py_contains "not done" (raw_value self) THEN Ok (PInt (-99))
     ELSE Ok (PStr "Missing value not recognized"))
  ELSE
    f <- py_float (raw_value self) ;; Ok (PFloat f).

Definition __interpret_year (self : CastorDataPoint) : result pyobj :=
  if py_eq_str (raw_value self) "" then Ok np_nan
  else IF py_contains "Missing" (raw_value self) THEN
    (IF py_contains "measurement failed" (raw_value self) THEN Ok (PInt (-95))
     ELSE IF py_contains "not applicable" (raw_value self) THEN Ok (PInt (-96))
     ELSE IF py_contains "not asked" (raw_value self) THEN Ok (PInt (-97))
     ELSE IF py_contains "asked but unknown" (raw_value self) THEN Ok (PInt (-98))
     ELSE IF py_contains "not done" (raw_value self) THEN Ok (PInt (-99))
     ELSE Ok (PStr "Missing value not recognized"))
  ELSE
    n <- py_int (raw_value self) ;; Ok (PInt n).

Definition __interpret_numberdate (self : CastorDataPoint) (date_format : string)
    : result pyobj :=
  if py_eq_str (raw_value self) "" then Ok (PList [np_nan; np_nan])
  else IF py_contains "Missing" (raw_value self) THEN
    (IF py_contains "measurement failed" (raw_value self) THEN
       Ok (PList [PInt (-95); PStr (period_strftime (Period_ymd 2995 1 1 FreqD) date_format)])
     ELSE IF py_contains "not applicable" (raw_value self) THEN
       Ok (PList [PInt (-96); PStr (period_strftime (Period_ymd 2996 1 1 FreqD) date_format)])
     ELSE IF py_contains "not asked" (raw_value self) THEN
       Ok (PList [PInt (-97); PStr (period_strftime (Period_ymd 2997 1 1 FreqD) date_format)])
     ELSE IF py_contains "asked but unknown" (raw_value self) THEN
       Ok (PList [PInt (-98); PStr (period_strftime (Period_ymd 2998 1 1 FreqD) date_format)])
     ELSE IF py_contains "not done" (raw_value self) THEN
       Ok (PList [PInt (-99); PStr (period_strftime (Period_ymd 2999 1 1 FreqD) date_format)])
     ELSE Ok (PList [PStr "Missing value not recognized"; PStr "Missing value not recognized"]))
  ELSE
    parts <- py_split (raw_value self) ";" ;;
    match parts with
    | [number; date] =>
        let number := if String.eqb number "" then np_nan else PStr number in
        let date := if String.eqb date "" then np_nan else PStr date in
        f <- py_float number ;;
        dt <- py_strptime date "%d-%m-%Y" ;;
        Ok (PList [PFloat f; PStr (period_strftime (Period_of dt FreqD) date_format)])
    | _ => Raise ValueError
    end.

(** ** Grid reconstruction *)

(** [d[key]] for a [str] key. *)
Definition py_getitem (d : pyobj) (key : string) : result pyobj :=
  match d with
  | PDict kvs =>
      of_option KeyError (snd <$> find (fun kv => String.eqb (fst kv) key) kvs)
  | _ => Raise TypeError
  end.

(** [len(v)] *)
Definition py_len (v : pyobj) : result nat :=
  match v with
  | PList l => Ok (length l)
  | PStr s => Ok (String.length s)
  | PDict kvs => Ok (length kvs)
  | _ => Raise TypeError
  end.

(** [v[i]] for a position [i >= 0]; the keys of a parsed JSON object are
    strings, so no position is one of them. *)
Definition py_index (v : pyobj) (i : nat) : result pyobj :=
  match v with
  | PList l => of_option IndexError (nth_error l i)
  | PStr s => of_option IndexError ((fun c => PStr (String c "")) <$> String.get i s)
  | PDict _ => Raise KeyError
  | _ => Raise TypeError
  end.

(** The objects [for x in v] runs through. *)
Definition py_iter (v : pyobj) : result (list pyobj) :=
  match v with
  | PList l => Ok l
  | PStr s => Ok (map (fun c => PStr (String c "")) (list_ascii_of_string s))
  | PDict kvs => Ok (map (fun kv => PStr (fst kv)) kvs)
  | _ => Raise TypeError
  end.

(** [list(v.values())] *)
Definition py_values (v : pyobj) : result (list pyobj) :=
  match v with
  | PDict kvs => Ok (map snd kvs)
  | _ => Raise AttributeError
  end.

(** [v.strip()] *)
Definition py_strip (v : pyobj) : result string :=
  match v with
  | PStr s => Ok (strip s)
  | _ => Raise AttributeError
  end.

(** [name.split(' ')[0]] *)
Definition first_token (name : pyobj) : result string :=
  toks <- py_split name " " ;;
  of_option IndexError (head toks).

(** [all(x == check[0] for x in check)] *)
Definition all_same (check : list string) : bool :=
  forallb (fun x => match check with
                    | first :: _ => String.eqb x first
                    | [] => false
                    end) check.

(** The table and the row and column names after the orientation step
    (the [if raw_grid_df.shape[0] != raw_grid_df.shape[1]] statement).  A
    name that no branch assigned is [None]. *)
Definition orient (grid_template : pyobj) (raw_grid_df : frame)
    : result (frame * option pyobj * option pyobj) :=
  if negb (shape0 raw_grid_df =? shape1 raw_grid_df)%nat then
    field_types <- py_getitem grid_template "fieldTypes" ;;
    n <- py_len field_types ;;
    if (n =? shape1 raw_grid_df)%nat then
      row_names <- py_getitem grid_template "rowNames" ;;
      col_names <- py_getitem grid_template "columnNames" ;;
      Ok (raw_grid_df, Some row_names, Some col_names)
    else
      row_names <- py_getitem grid_template "columnNames" ;;
      col_names <- py_getitem grid_template "rowNames" ;;
      Ok (T raw_grid_df, Some row_names, Some col_names)
  else
    column_names <- py_getitem grid_template "columnNames" ;;
    column_names <- py_iter column_names ;;
    col_check <- map_result first_token column_names ;;
    row_names <- py_getitem grid_template "rowNames" ;;
    row_names <- py_iter row_names ;;
    row_check <- map_result first_token row_names ;;
    if all_same col_check then
      row_names <- py_getitem grid_template "columnNames" ;;
      col_names <- py_getitem grid_template "rowNames" ;;
      Ok (T raw_grid_df, Some row_names, Some col_names)
    else if all_same row_check then
      row_names <- py_getitem grid_template "rowNames" ;;
      col_names <- py_getitem grid_template "columnNames" ;;
      Ok (raw_grid_df, Some row_names, Some col_names)
    else Ok (raw_grid_df, None, None).

(** Modelled from the spec: the constructor of [CastorField] (the class is
    defined in castor_field.py, which is not among the sources).  The
    descriptor built for a grid column carries the name of the grid field
    suffixed with [" - grid object"], the field type and the option group
    of the column, and [None] for its other attributes. *)
Definition grid_object (name : string) (field_type option_group : pyobj) : CastorField :=
  mk_field (name +:+ " - grid object") field_type option_group PNone.

(** One turn of the loop [for col_num, col in enumerate(raw_grid_df.columns)]:
    the interpreted cells of the column at position [col_num]. *)
Definition interpret_column (self : CastorDataPoint) (study : CastorStudy)
    (grid_template : pyobj) (raw_grid_df : frame) (col_num : nat) : result (list pyobj) :=
  let col_data := column raw_grid_df col_num in
  field_types <- py_getitem grid_template "fieldTypes" ;;
  field_type <- py_index field_types col_num ;;
  option_lists <- py_getitem grid_template "optionLists" ;;
  option_group <- py_index option_lists col_num ;;
  let my_instance_of :=
    grid_object (field_name (instance_of self)) field_type option_group in
  map_result (fun cell => interpret study my_instance_of cell) col_data.

(** [cols_interpreted] when the loop ends. *)
Definition interpret_columns (self : CastorDataPoint) (study : CastorStudy)
    (grid_template : pyobj) (raw_grid_df : frame) : result (list (list pyobj)) :=
  map_result (interpret_column self study grid_template raw_grid_df)
    (seq 0 (shape1 raw_grid_df)).

(** [[name.strip() for name in names]] for a name the orientation bound. *)
Definition stripped_names (names : option pyobj) : result (list string) :=
  names <- of_option UnboundLocalError names ;;
  names <- py_iter names ;;
  map_result py_strip names.

(** The last three statements of the [try] block: the interpreted columns
    become a table, which is then labelled; pandas refuses labels whose
    number differs from the length of the axis. *)
Definition assemble (cols_interpreted : list (list pyobj))
    (row_names col_names : option pyobj) : result table :=
  grid_df <- pd_DataFrame (map PList cols_interpreted) ;;
  let grid_df := T grid_df in
  cols <- stripped_names col_names ;;
  if negb (length cols =? shape1 grid_df)%nat then Raise ValueError
  else
    rows <- stripped_names row_names ;;
    if negb (length rows =? shape0 grid_df)%nat then Raise ValueError
    else Ok (mk_table cols rows (map (row grid_df) (seq 0 (shape0 grid_df)))).

(** [grid_rows] after the inner [try] statement: when [json.loads] raises
    [JSONDecodeError] the handler only prints the raw value, and the name
    is still unbound where the next statement reads it. *)
Definition grid_rows_of (raw_value : pyobj) : result (list pyobj) :=
  match py_json_loads raw_value with
  | Ok parsed => py_values parsed
  | Raise JSONDecodeError => Raise UnboundLocalError
  | Raise e => Raise e
  end.

(** The body of the outer [try] statement of [__interpret_grid]. *)
Definition grid_try (self : CastorDataPoint) (study : CastorStudy) : result table :=
  grid_template <- py_json_loads (field_summary_template (instance_of self)) ;;
  grid_rows <- grid_rows_of (raw_value self) ;;
  raw_grid_df <- pd_DataFrame grid_rows ;;
  oriented <- orient grid_template raw_grid_df ;;
  let '(raw_grid_df, row_names, col_names) := oriented in
  cols_interpreted <- interpret_columns self study grid_template raw_grid_df ;;
  assemble cols_interpreted row_names col_names.

Definition __interpret_grid (self : CastorDataPoint) (study : CastorStudy) : result value :=
  if py_eq_str (raw_value self) ""
     || py_eq_str (field_summary_template (instance_of self)) ""
  then Ok (VObj np_nan)
  else
    match grid_try self study with
    | Ok grid_df => Ok (VTable grid_df)
    | Raise _ => Ok (VObj (PStr "Error"))
    end.

(** A method result that is a plain object. *)
Definition obj (r : result pyobj) : result value := o <- r ;; Ok (VObj o).

Definition __interpret (self : CastorDataPoint) (study : CastorStudy) : result value :=
  if py_in_strs (field_type (instance_of self)) ["checkbox"; "dropdown"; "radio"] then
    obj (__interpret_optiongroup self study)
  else if py_in_strs (field_type (instance_of self)) ["numeric"; "slider"; "randomization"] then
    obj (__interpret_numeric self)
  else if py_in_strs (field_type (instance_of self)) ["year"] then
    obj (__interpret_year self)
  else if py_in_strs (field_type (instance_of self))
            ["string"; "textarea"; "upload"; "calculation"] then
    Ok (VObj (raw_value self))
  else if py_in_strs (field_type (instance_of self)) ["datetime"] then
    obj (__interpret_datetime self (cfg_datetime (configuration study)))
  else if py_in_strs (field_type (instance_of self)) ["date"] then
    obj (__interpret_date self (cfg_date (configuration study)))
  else if py_in_strs (field_type (instance_of self)) ["time"] then
    obj (__interpret_time self (cfg_time (configuration study)))
  else if py_in_strs (field_type (instance_of self)) ["numberdate"] then
    obj (__interpret_numberdate self (cfg_date (configuration study)))
  else if py_in_strs (field_type (instance_of self)) ["grid"] then
    __interpret_grid self study
  else Ok (VObj (PStr "Error")).

End Interpretation.

(** ** The missing-value vocabulary *)

Inductive MissingReason : Type :=
| measurement_failed
| not_applicable
| not_asked
| asked_but_unknown
| not_done.

(** The reasons in the order in which the source tests them. *)
Definition all_reasons : list MissingReason :=
  [measurement_failed; not_applicable; not_asked; asked_but_unknown; not_done].

Definition reason_text (r : MissingReason) : string :=
  match r with
  | measurement_failed => "measurement failed"
  | not_applicable => "not applicable"
  | not_asked => "not asked"
  | asked_but_unknown => "asked but unknown"
  | not_done => "not done"
  end.

Definition reason_code (r : MissingReason) : Z :=
  match r with
  | measurement_failed => -95
  | not_applicable => -96
  | not_asked => -97
  | asked_but_unknown => -98
  | not_done => -99
  end.

Definition reason_code_text (r : MissingReason) : string :=
  match r with
  | measurement_failed => "-95"
  | not_applicable => "-96"
  | not_asked => "-97"
  | asked_but_unknown => "-98"
  | not_done => "-99"
  end.

Definition reason_year (r : MissingReason) : Z := 2900 - reason_code r.

(** The first reason, in the fixed order, whose text occurs in the raw
    value. *)
Definition first_reason (raw : string) : option MissingReason :=
  find (fun r => contains (reason_text r) raw) all_reasons.

Definition unrecognized : string := "Missing value not recognized".

Definition numeric_tags : list string := ["numeric"; "slider"; "randomization"].
Definition optiongroup_tags : list string := ["checkbox"; "dropdown"; "radio"].
Definition text_tags : list string := ["string"; "textarea"; "upload"; "calculation"].

(** The field types that handle user missings. *)
Definition missing_tags : list string :=
  ["numeric"; "slider"; "randomization"; "year"; "checkbox"; "dropdown"; "radio";
   "time"; "date"; "datetime"; "numberdate"].

Definition tag_in (tag : string) (l : list string) : bool := existsb (String.eqb tag) l.

Section Expected.
Context {rt : PyRuntime}.

(** What a field of type [tag] shows for a missing value whose first
    recognised reason is [r]. *)
Definition sentinel (cfg : FormatConfig) (tag : string) (r : MissingReason) : pyobj :=
  if tag_in tag numeric_tags || String.eqb tag "year" then PInt (reason_code r)
  else if tag_in tag optiongroup_tags then PStr (reason_text r)
  else if String.eqb tag "time" then PStr (reason_code_text r)
  else if String.eqb tag "date" then
    PStr (period_strftime (Period_ymd (reason_year r) 1 1 FreqD) (cfg_date cfg))
  else if String.eqb tag "datetime" then
    PStr (period_strftime (Period_ymd (reason_year r) 1 1 FreqS) (cfg_datetime cfg))
  else
    PList [PInt (reason_code r);
           PStr (period_strftime (Period_ymd (reason_year r) 1 1 FreqD) (cfg_date cfg))].

(** What a field of type [tag] shows for a raw value that contains
    ["Missing"], given the first reason found in it, if any. *)
Definition missing_value (cfg : FormatConfig) (tag : string) (r : option MissingReason)
    : pyobj :=
  match r with
  | Some r => sentinel cfg tag r
  | None =>
      if String.eqb tag "numberdate" then PList [PStr unrecognized; PStr unrecognized]
      else PStr unrecognized
  end.

End Expected.

(** The documented representation of the empty raw value. *)
Definition empty_representation (tag : string) : pyobj :=
  if tag_in tag ["numeric"; "slider"; "randomization"; "year"; "date"; "datetime"; "grid"]
  then np_nan
  else if tag_in tag ["time"; "checkbox"; "dropdown"; "radio"] then PStr ""
  else if tag_in tag text_tags then PStr ""
  else if String.eqb tag "numberdate" then PList [np_nan; np_nan]
  else PStr "Error".

Section Parsed.
Context {rt : PyRuntime}.

(** The value of [float(raw)] or [int(raw)] as an interpreted value. *)
Definition parsed_float (raw : string) : result value :=
  match float_of_str raw with
  | Some f => Ok (VObj (PFloat f))
  | None => Raise ValueError
  end.

Definition parsed_int (raw : string) : result value :=
  match int_of_str raw with
  | Some n => Ok (VObj (PInt n))
  | None => Raise ValueError
  end.

End Parsed.

(** ** A reference runtime

    A concrete instance of [PyRuntime] for the worked examples.  It follows
    the Python and pandas functions on the inputs the examples use: plain
    decimal numerals, the three date and time formats of the module, the
    directives [%Y %m %d %H %M %S], JSON texts without [\u] escapes or
    exponents, and tables whose cells are strings.  The general theorems do
    not depend on it. *)

Module RefRuntime.

Definition digit_of (c : ascii) : option Z :=
  let n := nat_of_ascii c in
  if ((48 <=? n) && (n <=? 57))%nat then Some (Z.of_nat (n - 48)) else None.

Definition is_digit (c : ascii) : bool :=
  match digit_of c with Some _ => true | None => false end.

(** The number written by a string of decimal digits. *)
Fixpoint digits_value (s : string) (acc : Z) : option Z :=
  match s with
  | EmptyString => Some acc
  | String c t =>
      match digit_of c with
      | Some d => digits_value t (10 * acc + d)
      | None => None
      end
  end.

(** An optional sign, then the rest. *)
Definition take_sign (s : string) : bool * string :=
  match s with
  | String "-" t => (true, t)
  | String "+" t => (false, t)
  | _ => (false, s)
  end.

(** [int(s)]: surrounding whitespace, a sign, decimal digits. *)
Definition int_of_str (s : string) : option Z :=
  let '(neg, body) := take_sign (strip s) in
  match body with
  | EmptyString => None
  | _ => (fun n => if neg then - n else n) <$> digits_value body 0
  end.

(** [float(s)]: surrounding whitespace, a sign, digits with at most one
    point; the result is the double nearest to the decimal number. *)
Definition float_of_str (s : string) : option spec_float :=
  let '(neg, body) := take_sign (strip s) in
  match split "." body with
  | [whole] =>
      match whole with
      | EmptyString => None
      | _ => (fun m => match m with
                       | Zpos p => binary_normalize prec emax (if neg then Zneg p else Zpos p) 0 neg
                       | _ => S754_zero neg
                       end) <$> digits_value whole 0
      end
  | [whole; frac] =>
      match whole, frac with
      | EmptyString, EmptyString => None
      | _, _ =>
          match digits_value (whole +:+ frac) 0 with
          | Some (Zpos p) =>
              Some (SFdiv prec emax (S754_finite neg p 0)
                      (S754_finite false (Z.to_pos (10 ^ Z.of_nat (String.length frac))) 0))
          | Some _ => Some (S754_zero neg)
          | None => None
          end
      end
  | _ => None
  end.

(** *** strptime *)

Fixpoint take_digits_more (n : nat) (s : string) (acc : Z) : Z * string :=
  match n, s with
  | S n', String c t =>
      match digit_of c with
      | Some d => take_digits_more n' t (10 * acc + d)
      | None => (acc, s)
      end
  | _, _ => (acc, s)
  end.

(** Up to [n] leading digits of [s], at least one: their value and the rest. *)
Definition take_digits (n : nat) (s : string) : option (Z * string) :=
  match n, s with
  | S n', String c t =>
      match digit_of c with
      | Some d => Some (take_digits_more n' t d)
      | None => None
      end
  | _, _ => None
  end.

(** Exactly four digits. *)
Definition take_year (s : string) : option (Z * string) :=
  match s with
  | String a (String b (String c (String d rest))) =>
      match digit_of a, digit_of b, digit_of c, digit_of d with
      | Some a, Some b, Some c, Some d => Some (1000 * a + 100 * b + 10 * c + d, rest)
      | _, _, _, _ => None
      end
  | _ => None
  end.

Definition in_range (lo hi v : Z) : bool := ((lo <=? v) && (v <=? hi))%Z.

Definition is_leap (y : Z) : bool :=
  (((y mod 4 =? 0) && negb (y mod 100 =? 0)) || (y mod 400 =? 0))%Z.

Definition days_in_month (y m : Z) : Z :=
  if (m =? 2)%Z then (if is_leap y then 29 else 28)
  else if ((m =? 4) || (m =? 6) || (m =? 9) || (m =? 11))%Z then 30
  else 31.

Definition valid_date (dt : datetime) : bool :=
  in_range 1 9999 (dt_year dt) && in_range 1 12 (dt_month dt)
  && in_range 1 (days_in_month (dt_year dt) (dt_month dt)) (dt_day dt).

(** Matching of [s] against the format, directive by directive. *)
Fixpoint strptime_from (fmt s : string) (dt : datetime) : option datetime :=
  match fmt with
  | EmptyString =>
      match s with
      | EmptyString => if valid_date dt then Some dt else None
      | _ => None
      end
  | String "%" (String d fmt') =>
      let field (width : nat) (lo hi : Z) (set : Z -> datetime) :=
        match take_digits width s with
        | Some (v, rest) => if in_range lo hi v then strptime_from fmt' rest (set v) else None
        | None => None
        end in
      if Ascii.eqb d "d" then
        field 2%nat 1 31 (fun v => mk_datetime (dt_year dt) (dt_month dt) v
                                     (dt_hour dt) (dt_minute dt) (dt_second dt))
      else if Ascii.eqb d "m" then
        field 2%nat 1 12 (fun v => mk_datetime (dt_year dt) v (dt_day dt)
                                     (dt_hour dt) (dt_minute dt) (dt_second dt))
      else if Ascii.eqb d "H" then
        field 2%nat 0 23 (fun v => mk_datetime (dt_year dt) (dt_month dt) (dt_day dt)
                                     v (dt_minute dt) (dt_second dt))
      else if Ascii.eqb d "M" then
        field 2%nat 0 59 (fun v => mk_datetime (dt_year dt) (dt_month dt) (dt_day dt)
                                     (dt_hour dt) v (dt_second dt))
      else if Ascii.eqb d "Y" then
        match take_year s with
        | Some (v, rest) =>
            strptime_from fmt' rest
              (mk_datetime v (dt_month dt) (dt_day dt)
                 (dt_hour dt) (dt_minute dt) (dt_second dt))
        | None => None
        end
      else None
  | String c fmt' =>
      match s with
      | String c' rest => if Ascii.eqb c c' then strptime_from fmt' rest dt else None
      | EmptyString => None
      end
  end.

(** [datetime.strptime(s, fmt)]; the fields the format leaves out are those
    of 1900-01-01 00:00:00. *)
Definition strptime (s fmt : string) : option datetime :=
  strptime_from fmt s (mk_datetime 1900 1 1 0 0 0).

(** *** strftime *)

Definition digit_char (d : Z) : ascii := ascii_of_nat (48 + Z.to_nat d).

(** [v] in decimal, padded with zeros to [width] digits. *)
Fixpoint padded (width : nat) (v : Z) (acc : string) : string :=
  match width with
  | O => acc
  | S w => padded w (v / 10) (String (digit_char (v mod 10)) acc)
  end.

Fixpoint strftime_from (fmt : string) (dt : datetime) : string :=
  match fmt with
  | EmptyString => EmptyString
  | String "%" (String d fmt') =>
      let rest := strftime_from fmt' dt in
      if Ascii.eqb d "Y" then padded 4 (dt_year dt) rest
      else if Ascii.eqb d "m" then padded 2 (dt_month dt) rest
      else if Ascii.eqb d "d" then padded 2 (dt_day dt) rest
      else if Ascii.eqb d "H" then padded 2 (dt_hour dt) rest
      else if Ascii.eqb d "M" then padded 2 (dt_minute dt) rest
      else if Ascii.eqb d "S" then padded 2 (dt_second dt) rest
      else if Ascii.eqb d "%" then String "%" rest
      else String "%" (String d rest)
  | String c fmt' => String c (strftime_from fmt' dt)
  end.

Definition period_strftime (p : Period) (fmt : string) : string :=
  strftime_from fmt (p_start p).

Definition time_strftime (t : dtime) (fmt : string) : string :=
  strftime_from fmt (mk_datetime 1900 1 1 (t_hour t) (t_minute t) (t_second t)).

(** *** json.loads *)

Definition is_json_ws (c : ascii) : bool :=
  let n := nat_of_ascii c in
  ((n =? 32) || (n =? 9) || (n =? 10) || (n =? 13))%nat.

Fixpoint skip_ws (s : string) : string :=
  match s with
  | String c t => if is_json_ws c then skip_ws t else s
  | EmptyString => EmptyString
  end.

(** The quotation mark. *)
Definition quote : ascii := ascii_of_nat 34.

Definition unescape (e : ascii) : option ascii :=
  if Ascii.eqb e quote then Some quote
  else if Ascii.eqb e "\" then Some "\"%char
  else if Ascii.eqb e "/" then Some "/"%char
  else if Ascii.eqb e "n" then Some (ascii_of_nat 10)
  else if Ascii.eqb e "t" then Some (ascii_of_nat 9)
  else if Ascii.eqb e "r" then Some (ascii_of_nat 13)
  else if Ascii.eqb e "b" then Some (ascii_of_nat 8)
  else if Ascii.eqb e "f" then Some (ascii_of_nat 12)
  else None.

(** The text of a JSON string whose opening quote has been read, and what
    follows its closing quote. *)
Fixpoint json_string (s : string) : option (string * string) :=
  match s with
  | EmptyString => None
  | String "\" (String e t) =>
      match unescape e, json_string t with
      | Some c, Some (text, rest) => Some (String c text, rest)
      | _, _ => None
      end
  | String c t =>
      if Ascii.eqb c quote then Some (EmptyString, t)
      else if (nat_of_ascii c <? 32)%nat then None
      else match json_string t with
           | Some (text, rest) => Some (String c text, rest)
           | None => None
           end
  end.

(** The longest prefix made of the characters of a number. *)
Fixpoint number_text (s : string) : string * string :=
  match s with
  | String c t =>
      if is_digit c || Ascii.eqb c "-" || Ascii.eqb c "."
      then let '(n, rest) := number_text t in (String c n, rest)
      else (EmptyString, s)
  | EmptyString => (EmptyString, EmptyString)
  end.

Definition json_number (s : string) : option (pyobj * string) :=
  let '(text, rest) := number_text s in
  if contains "." text then (fun f => (PFloat f, rest)) <$> float_of_str text
  else (fun n => (PInt n, rest)) <$> int_of_str text.

(** [d[key] = v] on a [dict]. *)
Fixpoint dict_set (key : string) (v : pyobj) (d : list (string * pyobj))
    : list (string * pyobj) :=
  match d with
  | [] => [(key, v)]
  | (k, w) :: d' => if String.eqb k key then (k, v) :: d' else (k, w) :: dict_set key v d'
  end.

Fixpoint json_value (fuel : nat) (s : string) : option (pyobj * string) :=
  match fuel with
  | O => None
  | S fuel' =>
      match skip_ws s with
      | String "{" t =>
          match skip_ws t with
          | String "}" rest => Some (PDict [], rest)
          | _ => json_members fuel' t []
          end
      | String "[" t =>
          match skip_ws t with
          | String "]" rest => Some (PList [], rest)
          | _ => json_elements fuel' t []
          end
      | String "t" (String "r" (String "u" (String "e" rest))) => Some (PBool true, rest)
      | String "f" (String "a" (String "l" (String "s" (String "e" rest)))) =>
          Some (PBool false, rest)
      | String "n" (String "u" (String "l" (String "l" rest))) => Some (PNone, rest)
      | String c t =>
          if Ascii.eqb c quote
          then (fun '(text, rest) => (PStr text, rest)) <$> json_string t
          else json_number (String c t)
      | EmptyString => None
      end
  end
with json_elements (fuel : nat) (s : string) (acc : list pyobj) : option (pyobj * string) :=
  match fuel with
  | O => None
  | S fuel' =>
      match json_value fuel' s with
      | Some (v, rest) =>
          match skip_ws rest with
          | String "," rest' => json_elements fuel' rest' (acc ++ [v])
          | String "]" rest' => Some (PList (acc ++ [v]), rest')
          | _ => None
          end
      | None => None
      end
  end
with json_members (fuel : nat) (s : string) (acc : list (string * pyobj))
    : option (pyobj * string) :=
  match fuel with
  | O => None
  | S fuel' =>
      match skip_ws s with
      | String c t =>
          if negb (Ascii.eqb c quote) then None
          else
            match json_string t with
            | Some (key, rest) =>
                match skip_ws rest with
                | String ":" rest' =>
                    match json_value fuel' rest' with
                    | Some (v, rest'') =>
                        match skip_ws rest'' with
                        | String "," more => json_members fuel' more (dict_set key v acc)
                        | String "}" more => Some (PDict (dict_set key v acc), more)
                        | _ => None
                        end
                    | None => None
                    end
                | _ => None
                end
            | None => None
            end
      | EmptyString => None
      end
  end.

Definition json_loads (s : string) : option pyobj :=
  match json_value (2 * String.length s + 2) s with
  | Some (v, rest) =>
      match skip_ws rest with
      | EmptyString => Some v
      | _ => None
      end
  | None => None
  end.

(** *** pd.DataFrame *)

Definition is_str (v : pyobj) : bool :=
  match v with PStr _ => true | _ => false end.

(** The cells of a row given as a list, or as a [dict] whose keys are
    [keys]. *)
Definition row_cells (keys : option (list string)) (r : pyobj) : option (list pyobj) :=
  match keys, r with
  | None, PList cells => Some cells
  | Some keys, PDict kvs =>
      if decide (map fst kvs = keys) then Some (map snd kvs) else None
  | _, _ => None
  end.

(** [pd.DataFrame(rows)] for rows of equal length, all lists or all dicts
    with the same keys in the same order, whose cells are strings. *)
Definition pd_DataFrame (rows : list pyobj) : result frame :=
  match rows with
  | [] => Ok (mk_frame 0 0 (fun _ _ => PNone))
  | first :: _ =>
      let keys := match first with
                  | PDict kvs => Some (map fst kvs)
                  | _ => None
                  end in
      match mapM (row_cells keys) rows with
      | Some (cells :: more) =>
          if forallb (fun r => (length r =? length cells)%nat && forallb is_str r)
               (cells :: more)
          then Ok (mk_frame (length rows) (length cells)
                     (fun i j => nth j (nth i (cells :: more) []) PNone))
          else Raise ValueError
      | _ => Raise ValueError
      end
  end.

(** *** str of an option group *)

Definition str_item (item : string * string) : string :=
  "{'value': '" +:+ fst item +:+ "', 'name': '" +:+ snd item +:+ "'}".

Definition str_optiongroup (og : optiongroup) : string :=
  "{'options': [" +:+ join ", " (map str_item (og_options og)) +:+ "]}".

End RefRuntime.

#[export] Instance ref_runtime : PyRuntime := {|
  float_of_str := RefRuntime.float_of_str;
  int_of_str := RefRuntime.int_of_str;
  strptime := RefRuntime.strptime;
  time_strftime := RefRuntime.time_strftime;
  period_strftime := RefRuntime.period_strftime;
  json_loads := RefRuntime.json_loads;
  pd_DataFrame := RefRuntime.pd_DataFrame;
  str_optiongroup := RefRuntime.str_optiongroup |}.

(** ** Example data *)

Module Examples.

(** A JSON text written with apostrophes in place of quotation marks. *)
Fixpoint json_text (s : string) : string :=
  match s with
  | EmptyString => EmptyString
  | String c t => String (if Ascii.eqb c "'" then RefRuntime.quote else c) (json_text t)
  end.

Definition cfg : FormatConfig := mk_config "%Y-%m-%d" "%H:%M" "%Y-%m-%d %H:%M:%S".

Definition yes_no : optiongroup := mk_optiongroup [("1", "Yes"); ("2", "No")].

(** A study whose only option group has the id ["og1"]. *)
Definition study (keyerrors : bool) : CastorStudy :=
  mk_study cfg (fun id => if py_eq_str id "og1" then Some yes_no else None) keyerrors.

(** A study without option groups. *)
Definition bare_study : CastorStudy := mk_study cfg (fun _ => None) false.

Definition field (tag : string) (option_group : pyobj) : CastorField :=
  mk_field "answer" (PStr tag) option_group (PStr "").

Definition point (tag raw : string) : CastorDataPoint :=
  mk_data_point "F1" (PStr raw) (field tag (PStr "og1")).

(** A grid whose raw value has one row of two cells while its template
    declares three field types. *)
Definition narrow_template : string :=
  json_text "{'fieldTypes': ['string', 'string', 'string'],
              'optionLists': [null, null, null],
              'rowNames': ['r1'], 'columnNames': ['c1', 'c2']}".

Definition narrow_raw : string := json_text "{'0': ['a', 'b']}".

Definition narrow_grid : CastorDataPoint :=
  mk_data_point "G1" (PStr narrow_raw)
    (mk_field "grid" (PStr "grid") PNone (PStr narrow_template)).

(** A grid of two rows and three columns whose template declares three
    field types for the columns. *)
Definition wide_template : string :=
  json_text "{'fieldTypes': ['string', 'radio', 'string'],
              'optionLists': [null, 'og1', null],
              'rowNames': [' first', 'second '],
              'columnNames': ['note', 'answer', 'remark']}".

Definition wide_raw : string :=
  json_text "{'0': ['a', '1', 'x'], '1': ['b', 'Missing (not asked)', 'y']}".

Definition wide_grid : CastorDataPoint :=
  mk_data_point "G2" (PStr wide_raw)
    (mk_field "grid" (PStr "grid") PNone (PStr wide_template)).

(** The same cells, one row per field type. *)
Definition tall_raw : string :=
  json_text "{'0': ['a', 'b'], '1': ['1', 'Missing (not asked)'], '2': ['x', 'y']}".

Definition tall_template : string :=
  json_text "{'fieldTypes': ['string', 'radio', 'string'],
              'optionLists': [null, 'og1', null],
              'rowNames': ['note', 'answer', 'remark'],
              'columnNames': [' first', 'second ']}".

Definition tall_grid : CastorDataPoint :=
  mk_data_point "G3" (PStr tall_raw)
    (mk_field "grid" (PStr "grid") PNone (PStr tall_template)).

(** A grid with a numeric column one of whose cells is not a number. *)
Definition broken_cell_raw : string :=
  json_text "{'0': ['1.5', 'a'], '1': ['abc', 'b'], '2': ['2', 'c']}".

Definition broken_cell_template : string :=
  json_text "{'fieldTypes': ['numeric', 'string'],
              'optionLists': [null, null],
              'rowNames': ['r1', 'r2', 'r3'],
              'columnNames': ['n', 's']}".

Definition broken_cell_grid : CastorDataPoint :=
  mk_data_point "G4" (PStr broken_cell_raw)
    (mk_field "grid" (PStr "grid") PNone (PStr broken_cell_template)).

(** A grid whose raw value is not JSON. *)
Definition broken_json_grid : CastorDataPoint :=
  mk_data_point "G5" (PStr "{0: [")
    (mk_field "grid" (PStr "grid") PNone (PStr wide_template)).

(** A grid field without template and without raw value. *)
Definition empty_grid : CastorDataPoint :=
  mk_data_point "G0" (PStr "") (mk_field "grid" (PStr "grid") PNone (PStr "")).

(** The parsed text [s], or [None] when it is not JSON. *)
Definition parsed (s : string) : pyobj := default PNone (RefRuntime.json_loads s).

(** The table of the rows of the parsed raw value [s]. *)
Definition frame_of (s : string) : frame :=
  match parsed s with
  | PDict kvs =>
      match RefRuntime.pd_DataFrame (map snd kvs) with
      | Ok df => df
      | Raise _ => mk_frame 0 0 (fun _ _ => PNone)
      end
  | _ => mk_frame 0 0 (fun _ _ => PNone)
  end.

End Examples.

(** ** Notions used in the statements *)

Section Failures.
Context {rt : PyRuntime}.

(** A step of the reconstruction of a grid raises: parsing the template,
    parsing the raw value, building the table, orienting it, interpreting
    the cells of its columns, or assembling and labelling the result. *)
Inductive grid_failure (self : CastorDataPoint) (study : CastorStudy) : Prop :=
| template_fails e :
    py_json_loads (field_summary_template (instance_of self)) = Raise e ->
    grid_failure self study
| raw_value_fails tmpl e :
    py_json_loads (field_summary_template (instance_of self)) = Ok tmpl ->
    grid_rows_of (raw_value self) = Raise e ->
    grid_failure self study
| table_fails tmpl rows e :
    py_json_loads (field_summary_template (instance_of self)) = Ok tmpl ->
    grid_rows_of (raw_value self) = Ok rows ->
    pd_DataFrame rows = Raise e ->
    grid_failure self study
| orientation_fails tmpl rows df e :
    py_json_loads (field_summary_template (instance_of self)) = Ok tmpl ->
    grid_rows_of (raw_value self) = Ok rows ->
    pd_DataFrame rows = Ok df ->
    orient tmpl df = Raise e ->
    grid_failure self study
| cells_fail tmpl rows df df' row_names col_names e :
    py_json_loads (field_summary_template (instance_of self)) = Ok tmpl ->
    grid_rows_of (raw_value self) = Ok rows ->
    pd_DataFrame rows = Ok df ->
    orient tmpl df = Ok (df', row_names, col_names) ->
    interpret_columns self study tmpl df' = Raise e ->
    grid_failure self study
| assembly_fails tmpl rows df df' row_names col_names cols e :
    py_json_loads (field_summary_template (instance_of self)) = Ok tmpl ->
    grid_rows_of (raw_value self) = Ok rows ->
    pd_DataFrame rows = Ok df ->
    orient tmpl df = Ok (df', row_names, col_names) ->
    interpret_columns self study tmpl df' = Ok cols ->
    assemble cols row_names col_names = Raise e ->
    grid_failure self study.

End Failures.

(** The oriented table has as many columns as the template has field
    types. *)
Definition width_matches (n : nat) (oriented : result (frame * option pyobj * option pyobj))
    : Prop :=
  exists df row_names col_names,
    oriented = Ok (df, row_names, col_names) /\ shape1 df = n.

(** The failure of the method and that of the module-level function are the
    same exception, or the function's [CastorException] and the method's,
    whose message goes on to name the field. *)
Definition same_failure (self : CastorDataPoint) (e_method e_function : exn) : Prop :=
  e_method = e_function
  \/ exists msg,
       e_function = CastorException msg
       /\ e_method
          = CastorException
              (msg +:+ "of field: " +:+ field_id self
               +:+ " (" +:+ field_name (instance_of self) +:+ ")").

(** The method returns the object the function returns, or both raise. *)
Definition same_outcome (self : CastorDataPoint) (m : result value) (f : result pyobj)
    : Prop :=
  match m, f with
  | Ok v, Ok o => v = VObj o
  | Raise e_method, Raise e_function => same_failure self e_method e_function
  | _, _ => False
  end.

(** ** Tactics *)

(** Case analysis on which of the five reason texts occur in [raw]. *)
Ltac reason_cases raw :=
  destruct (contains "measurement failed" raw) eqn:?;
  destruct (contains "not applicable" raw) eqn:?;
  destruct (contains "not asked" raw) eqn:?;
  destruct (contains "asked but unknown" raw) eqn:?;
  destruct (contains "not done" raw) eqn:?.

(** Case analysis on a tag taken from a literal list. *)
Ltac tag_cases H :=
  repeat (destruct H as [H | H]; [subst | ]); try contradiction.

(** ** The data point object

    The constructor of [CastorDataPoint] and its standard operators.  The
    classes of the objects a data point is linked to (the form instance, its
    record and its form) are defined outside this module; of them only the
    attributes read here are kept, and their [==] is a parameter. *)

Record CastorRecord : Type := mk_record { record_id : string }.

Record CastorForm : Type := mk_form { form_name : string }.

Record CastorFormInstance : Type := mk_form_instance {
  record : CastorRecord;
  form_instance_of : CastorForm }.

(** The study as the constructor uses it: what interpretation reads, and
    [study.get_single_field]. *)
Record StudyWithFields : Type := mk_study_fields {
  study_of : CastorStudy;
  get_single_field : string -> option CastorField }.

(** The attributes of a constructed data point; [value_of] is the
    attribute [value]. *)
Record DataPointObject : Type := mk_object {
  attrs : CastorDataPoint;
  form_instance : option CastorFormInstance;
  filled_in : option datetime;
  value_of : value }.

(** What [__eq__] returns. *)
Inductive eq_result : Type :=
| EqBool (b : bool)
| NotImplemented.

(** The second operand of [==]: a data point, or any other object. *)
Inductive any : Type :=
| AnyDataPoint (other : DataPointObject)
| AnyOther (other : pyobj).

Definition not_in_study_msg : string :=
  "The field that this is an instance of does not exist in the study!".

Section Object.
Context {rt : PyRuntime}.

(** [find_field]: [self.field_id] looked up in the study. *)
Definition find_field (field_id : string) (study : StudyWithFields) : option CastorField :=
  get_single_field study field_id.

Definition __init__ (field_id : string) (raw_value : pyobj) (study : StudyWithFields)
    (filled_in : pyobj) : result DataPointObject :=
  match find_field field_id study with
  | None => Raise (CastorException not_in_study_msg)
  | Some instance_of =>
      let self := mk_data_point field_id raw_value instance_of in
      filled_in <-
        (if py_eq_str filled_in "" then Ok None
         else dt <- py_strptime filled_in "%Y-%m-%d %H:%M:%S" ;; Ok (Some dt)) ;;
      interpreted <- __interpret self (study_of study) ;;
      Ok (mk_object self None filled_in interpreted)
  end.

(** [==] of the classes of the linked objects: between two form instances,
    between a form instance and [None], and between two records. *)
Variable form_instance_eq : CastorFormInstance -> CastorFormInstance -> bool.
Variable form_instance_eq_none : CastorFormInstance -> bool.
Variable record_eq : CastorRecord -> CastorRecord -> bool.

(** [a == b] for two [form_instance] attributes. *)
Definition form_instances_equal (a b : option CastorFormInstance) : bool :=
  match a, b with
  | None, None => true
  | Some x, Some y => form_instance_eq x y
  | Some x, None | None, Some x => form_instance_eq_none x
  end.

(** [o.form_instance.record] *)
Definition record_of (o : DataPointObject) : result CastorRecord :=
  match form_instance o with
  | Some fi => Ok (record fi)
  | None => Raise AttributeError
  end.

Definition __eq__ (self : DataPointObject) (other : any) : result eq_result :=
  match other with
  | AnyOther _ => Ok NotImplemented
  | AnyDataPoint other =>
      if negb (String.eqb (field_id (attrs self)) (field_id (attrs other)))
      then Ok (EqBool false)
      else if negb (form_instances_equal (form_instance self) (form_instance other))
      then Ok (EqBool false)
      else
        r <- record_of self ;;
        r' <- record_of other ;;
        Ok (EqBool (record_eq r r'))
  end.

Definition __repr__ (self : DataPointObject) : result string :=
  match form_instance self with
  | None => Raise AttributeError
  | Some fi =>
      Ok (record_id (record fi) +:+ " - " +:+ form_name (form_instance_of fi)
          +:+ " - " +:+ field_name (instance_of (attrs self)))
  end.

End Object.

(** The number of occurrences of a character in a string. *)
Fixpoint count_char (c : ascii) (s : string) : nat :=
  match s with
  | EmptyString => 0%nat
  | String d t => ((if Ascii.eqb d c then 1 else 0) + count_char c t)%nat
  end.

(** The field types the dispatch knows. *)
Definition known_tags : list string :=
  ["checkbox"; "dropdown"; "radio"; "numeric"; "slider"; "randomization"; "year";
   "string"; "textarea"; "upload"; "calculation"; "datetime"; "date"; "time";
   "numberdate"; "grid"].

(** An object that is not a [str]. *)
Definition not_str (v : pyobj) : Prop :=
  match v with
  | PStr _ => False
  | _ => True
  end.

(** An object on which [in] raises: neither a [str] nor a container. *)
Definition scalar (v : pyobj) : Prop :=
  match v with
  | PNone | PBool _ | PInt _ | PFloat _ => True
  | _ => False
  end.

(** The display name of a token: that of the last option of the list whose
    value is the token. *)
Definition last_name (options : list (string * string)) (token : string) : option string :=
  snd <$> find (fun item => String.eqb (fst item) token) (rev options).

(** The field types whose missing values do not go through a date format. *)
Definition plain_missing_tags : list string :=
  ["numeric"; "slider"; "randomization"; "year"; "checkbox"; "dropdown"; "radio"; "time"].

Section JsonObjects.
Context {rt : PyRuntime}.

(** The text [s] is that of a JSON object. *)
Definition json_object (s : string) : Prop :=
  exists kvs, json_loads s = Some (PDict kvs).

End JsonObjects.

(** Case analysis along a chain of steps that may raise. *)
Ltac raise_cases :=
  repeat match goal with
         | |- exists e, Raise _ = Raise e => eexists; reflexivity
         | |- exists e, bind ?m _ = Raise e =>
             let H := fresh "Hstep" in
             destruct m eqn:H; cbn [bind]
         | |- exists e, (if ?b then _ else _) = Raise e => destruct b
         end.

(** ** More example data *)

Module MoreExamples.
Import Examples.

(** Two options with the value ["1"]. *)
Definition twice : optiongroup := mk_optiongroup [("1", "Yes"); ("2", "No"); ("1", "Ja")].

Definition twice_study (keyerrors : bool) : CastorStudy :=
  mk_study cfg (fun _ => Some twice) keyerrors.

(** The rows of [wide_raw] under a template with a single field type. *)
Definition short_template : string :=
  json_text "{'fieldTypes': ['string'],
              'optionLists': [null, null, null],
              'rowNames': ['r1', 'r2'],
              'columnNames': ['c1', 'c2', 'c3']}".

Definition short_grid : CastorDataPoint :=
  mk_data_point "G6" (PStr wide_raw)
    (mk_field "grid" (PStr "grid") PNone (PStr short_template)).

(** A template, already parsed, for a table of two columns: a numeric one
    and one of a type the dispatch does not know. *)
Definition mixed_template : pyobj :=
  PDict [("fieldTypes", PList [PStr "numeric"; PStr "grid"]);
         ("optionLists", PList [PNone; PNone]);
         ("rowNames", PList [PStr "r1"; PStr "r2"]);
         ("columnNames", PList [PStr "n"; PStr "g"])].

(** A table of two rows: strings in the second column; in the first, a
    string and, in the second table, a number. *)
Definition text_cells : frame :=
  mk_frame 2 2 (fun i j => nth j (nth i [[PStr "1.5"; PStr "a"];
                                        [PStr "Missing (not done)"; PStr "b"]] []) PNone).

Definition number_cells : frame :=
  mk_frame 2 2 (fun i j => nth j (nth i [[PStr "1.5"; PStr "a"];
                                        [PInt 2; PStr "b"]] []) PNone).

(** A study that knows the field ["F1"], a radio field, and the grid field
    ["G2"] of [wide_grid]. *)
Definition fields (keyerrors : bool) : StudyWithFields :=
  mk_study_fields (study keyerrors)
    (fun id => if String.eqb id "F1" then Some (field "radio" (PStr "og1"))
               else if String.eqb id "G2" then Some (instance_of wide_grid)
               else None).

Definition linked (fid record form : string) : DataPointObject :=
  mk_object (mk_data_point fid (PStr "1") (field "radio" (PStr "og1")))
    (Some (mk_form_instance (mk_record record) (mk_form form))) None (VObj (PStr "Yes")).

(** The radio data point of field [fid] as the constructor leaves it. *)
Definition fresh (fid : string) : DataPointObject :=
  mk_object (mk_data_point fid (PStr "1") (field "radio" (PStr "og1")))
    None None (VObj (PStr "Yes")).

(** A template without row names. *)
Definition nameless_template : string :=
  json_text "{'fieldTypes': ['string', 'string', 'string'],
              'optionLists': [null, null, null],
              'columnNames': ['c1', 'c2', 'c3']}".

(** The table [wide_grid] is interpreted into. *)
Definition wide_table : table :=
  {| tbl_columns := ["note"; "answer"; "remark"];
     tbl_index := ["first"; "second"];
     tbl_rows := [[PStr "a"; PStr "Yes"; PStr "x"];
                  [PStr "b"; PStr "not asked"; PStr "y"]] |}.

End MoreExamples.

(** ** Names with a common first token *)

(** [token] is the text of [name] before its first space character: it
    holds no space, and [name] is [token] alone or [token] followed by a
    space and the rest of the name. *)
Definition text_before_first_space (name token : string) : Prop :=
  ~ In " "%char (list_ascii_of_string token)
  /\ (name = token \/ exists rest, name = token +:+ String " " rest).

(** All the names have the same text before their first space. *)
Definition share_first_token (names : list string) : Prop :=
  exists token, Forall (fun name => text_before_first_space name token) names.

(** The first token of a name as the specification words it, delimited by
    whitespace of any kind ([name.split()[0]]): leading whitespace is
    skipped and the token ends at the next whitespace character. *)
Fixpoint until_whitespace (s : string) : string :=
  match s with
  | EmptyString => EmptyString
  | String c t => if is_space c then EmptyString else String c (until_whitespace t)
  end.

Definition first_whitespace_token (name : string) : string :=
  until_whitespace (lstrip name).

Definition share_first_whitespace_token (names : list string) : Prop :=
  exists token, Forall (fun name => first_whitespace_token name = token) names.

(** The oriented table is the transpose of the parsed one. *)
Definition transposed (df : frame)
    (oriented : result (frame * option pyobj * option pyobj)) : Prop :=
  exists row_names col_names, oriented = Ok (T df, row_names, col_names).

(** *** Square grids *)

Module SquareExamples.
Import Examples.

Definition tab : ascii := ascii_of_nat 9.

(** Two rows of two cells. *)
Definition by_visit_raw : string := json_text "{'0': ['a', 'b'], '1': ['1', '2']}".

Definition by_question_raw : string := json_text "{'0': ['a', '1'], '1': ['b', '2']}".

(** The column names have a common first token, the row names have not. *)
Definition visit_columns_template : string :=
  json_text "{'fieldTypes': ['string', 'radio'],
              'optionLists': [null, 'og1'],
              'rowNames': ['note', 'answer'],
              'columnNames': ['Visit 1', 'Visit 2']}".

Definition visit_columns_grid : CastorDataPoint :=
  mk_data_point "G7" (PStr by_visit_raw)
    (mk_field "grid" (PStr "grid") PNone (PStr visit_columns_template)).

(** The row names have a common first token, the column names have not. *)
Definition visit_rows_template : string :=
  json_text "{'fieldTypes': ['string', 'radio'],
              'optionLists': [null, 'og1'],
              'rowNames': ['Visit 1', 'Visit 2'],
              'columnNames': ['note', 'answer']}".

Definition visit_rows_grid : CastorDataPoint :=
  mk_data_point "G8" (PStr by_question_raw)
    (mk_field "grid" (PStr "grid") PNone (PStr visit_rows_template)).

(** The column names of [visit_columns_template] with a tab in place of
    the space. *)
Definition tabbed_columns_template : string :=
  json_text "{'fieldTypes': ['string', 'radio'],
              'optionLists': [null, 'og1'],
              'rowNames': ['note', 'answer'],
              'columnNames': ['Visit\t1', 'Visit\t2']}".

Definition tabbed_columns_grid : CastorDataPoint :=
  mk_data_point "G9" (PStr by_visit_raw)
    (mk_field "grid" (PStr "grid") PNone (PStr tabbed_columns_template)).

Definition tabbed_names : list string :=
  ["Visit" +:+ String tab "1"; "Visit" +:+ String tab "2"].

End SquareExamples.
(** * Properties *)

(** ** Strings *)

Lemma prefix_app (needle hay : string) :
  String.prefix needle hay = true <-> exists rest, hay = needle +:+ rest.
Proof.
  revert hay. induction needle as [|c needle IH]; intros hay.
  - destruct hay; (split; [eauto | reflexivity]).
  - destruct hay as [|d hay]; simpl.
    + split; [discriminate | intros [rest H]; discriminate H].
    + destruct (Ascii.ascii_dec c d) as [->|Hne].
      * rewrite IH. split; intros [rest H]; exists rest.
        -- now rewrite H.
        -- now injection H.
      * split; [discriminate|]. intros [rest H]. injection H as H _. congruence.
Qed.

(** [contains] is the substring test. *)
Lemma contains_spec (needle hay : string) :
  contains needle hay = true <-> exists before after, hay = before +:+ needle +:+ after.
Proof.
  induction hay as [|c hay IH].
  - cbn [contains]. destruct (String.prefix needle "") eqn:Hp.
    + split; [|reflexivity]. intros _. apply prefix_app in Hp as [rest Hp].
      exists "", rest. exact Hp.
    + split; [discriminate|]. intros [before [after H]].
      destruct before; [|discriminate H]. simpl in H.
      assert (String.prefix needle "" = true) by (apply prefix_app; eauto).
      congruence.
  - cbn [contains]. destruct (String.prefix needle (String c hay)) eqn:Hp.
    + split; [|reflexivity]. intros _. apply prefix_app in Hp as [rest Hp].
      exists "", rest. exact Hp.
    + rewrite IH. split.
      * intros [before [after H]]. exists (String c before), after. simpl. now rewrite H.
      * intros [before [after H]]. destruct before as [|d before].
        -- simpl in H. assert (String.prefix needle (String c hay) = true)
             by (apply prefix_app; eauto).
           congruence.
        -- injection H as _ H. eauto.
Qed.

Lemma split_not_nil sep s : split sep s <> [].
Proof.
  destruct s as [|c s]; simpl; [discriminate|].
  destruct (Ascii.eqb c sep); [discriminate|].
  destruct (split sep s); discriminate.
Qed.

(** Joining the parts of a split with the separator gives the string back. *)
Lemma join_split (sep : ascii) (s : string) :
  join (String sep "") (split sep s) = s.
Proof.
  unfold join. induction s as [|c s IH]; [reflexivity|].
  cbn [split]. pose proof (split_not_nil sep s) as Hnil.
  destruct (split sep s) as [|tok rest]; [contradiction|].
  destruct (Ascii.eqb_spec c sep) as [->|Hne].
  - change (String.concat (String sep "") ("" :: tok :: rest))
      with (String sep (String.concat (String sep "") (tok :: rest))).
    now rewrite IH.
  - replace (String.concat (String sep "") (String c tok :: rest))
      with (String c (String.concat (String sep "") (tok :: rest)))
      by (destruct rest; reflexivity).
    now rewrite IH.
Qed.

Lemma contains_not_empty needle raw :
  needle <> "" -> contains needle raw = true -> String.eqb raw "" = false.
Proof.
  intros Hn H. destruct raw as [|c raw]; [|reflexivity].
  destruct needle; [congruence | discriminate H].
Qed.

Lemma eqb_empty_false raw : raw <> "" -> String.eqb raw "" = false.
Proof. intros H. now apply String.eqb_neq. Qed.

Lemma py_contains_str needle raw : py_contains needle (PStr raw) = Ok (contains needle raw).
Proof. reflexivity. Qed.

Section Missing.
Context {rt : PyRuntime}.

Lemma method_missing (study : CastorStudy) (self : CastorDataPoint) (tag raw : string) :
  In tag missing_tags ->
  field_type (instance_of self) = PStr tag ->
  raw_value self = PStr raw ->
  contains "Missing" raw = true ->
  __interpret self study
  = Ok (VObj (missing_value (configuration study) tag (first_reason raw))).
Proof.
  intros Htag Hft Hraw Hm.
  pose proof (contains_not_empty "Missing" raw ltac:(discriminate) Hm) as Hne.
  unfold missing_tags in Htag. simpl in Htag. tag_cases Htag;
  unfold __interpret; rewrite Hft; cbn -[contains];
  unfold __interpret_numeric, __interpret_year, __interpret_optiongroup,
    __interpret_time, __interpret_date, __interpret_datetime, __interpret_numberdate;
  rewrite Hraw; cbn -[contains]; rewrite Hne, Hm; cbn -[contains];
  unfold first_reason; cbn -[contains];
  reason_cases raw; reflexivity.
Qed.

Lemma function_missing (study : CastorStudy) (fld : CastorField) (tag raw : string) :
  In tag missing_tags ->
  field_type fld = PStr tag ->
  contains "Missing" raw = true ->
  interpret study fld (PStr raw)
  = Ok (missing_value (configuration study) tag (first_reason raw)).
Proof.
  intros Htag Hft Hm.
  pose proof (contains_not_empty "Missing" raw ltac:(discriminate) Hm) as Hne.
  unfold missing_tags in Htag. simpl in Htag. tag_cases Htag;
  unfold interpret; rewrite Hft; cbn -[contains];
  unfold interpret_numeric, interpret_year, interpret_optiongroup,
    interpret_time, interpret_date, interpret_datetime, interpret_numberdate;
  cbn -[contains]; rewrite Hne, Hm; cbn -[contains];
  unfold first_reason; cbn -[contains];
  reason_cases raw; reflexivity.
Qed.

End Missing.

Section Values.
Context {rt : PyRuntime}.

(** C1. For every field type that handles user missings and every raw value
    that contains "Missing", the method dispatch and the module-level
    dispatch both return the value fixed by the first reason text, in the
    order measurement failed, not applicable, not asked, asked but unknown,
    not done, that occurs in the raw value, whatever other reason texts
    occur in it; when none occurs the result is the string "Missing value
    not recognized", and the pair of that string for a numberdate. *)
Theorem missing_first_reason_wins (study : CastorStudy) (self : CastorDataPoint)
    (tag raw : string) :
  In tag missing_tags ->
  field_type (instance_of self) = PStr tag ->
  raw_value self = PStr raw ->
  contains "Missing" raw = true ->
  __interpret self study
  = Ok (VObj (missing_value (configuration study) tag (first_reason raw)))
  /\ interpret study (instance_of self) (raw_value self)
     = Ok (missing_value (configuration study) tag (first_reason raw))
  /\ (first_reason raw = None ->
      __interpret self study
      = Ok (VObj (if String.eqb tag "numberdate"
                  then PList [PStr "Missing value not recognized";
                              PStr "Missing value not recognized"]
                  else PStr "Missing value not recognized"))).
Proof.
  intros Htag Hft Hraw Hm. split; [|split].
  - now apply method_missing.
  - rewrite Hraw. now apply function_missing.
  - intros Hnone. rewrite (method_missing study self tag raw) by assumption.
    now rewrite Hnone.
Qed.

(** C2. Whatever the field type tag, the method dispatch on the empty raw
    value returns the documented empty representation and does not raise:
    NaN for numeric, slider, randomization, year, date, datetime and grid;
    the empty string for time, checkbox, dropdown and radio; the raw value
    itself, that is the empty string, for string, textarea, upload and
    calculation; the pair of two NaN for numberdate; and the string "Error"
    for any other tag. *)
Theorem empty_raw_value (study : CastorStudy) (fid name tag : string)
    (option_group template : pyobj) :
  __interpret (mk_data_point fid (PStr "") (mk_field name (PStr tag) option_group template))
    study
  = Ok (VObj (empty_representation tag)).
Proof.
  unfold __interpret, empty_representation, tag_in, text_tags. cbn.
  repeat match goal with
         | |- context [String.eqb tag ?s] =>
             destruct (String.eqb_spec tag s); [subst; reflexivity |]
         end.
  reflexivity.
Qed.

(** C3. For numeric, slider and randomization fields a nonempty raw value
    without "Missing" is interpreted as float(raw value), and a raw value
    with "Missing" and a recognised reason as the number -95, -96, -97, -98
    or -99 of that reason; year fields use the same numbers and
    int(raw value). *)
Theorem numeric_and_year_values (study : CastorStudy) (self : CastorDataPoint)
    (tag raw : string) :
  field_type (instance_of self) = PStr tag ->
  raw_value self = PStr raw ->
  (In tag numeric_tags ->
     (raw <> "" -> contains "Missing" raw = false ->
        __interpret self study = parsed_float raw)
     /\ (forall r, contains "Missing" raw = true -> first_reason raw = Some r ->
           __interpret self study = Ok (VObj (PInt (reason_code r)))))
  /\ (tag = "year" ->
     (raw <> "" -> contains "Missing" raw = false ->
        __interpret self study = parsed_int raw)
     /\ (forall r, contains "Missing" raw = true -> first_reason raw = Some r ->
           __interpret self study = Ok (VObj (PInt (reason_code r))))).
Proof.
  intros Hft Hraw. split; intros Htag; split.
  - intros Hne Hm. apply eqb_empty_false in Hne.
    unfold numeric_tags in Htag. simpl in Htag. tag_cases Htag;
    unfold __interpret; rewrite Hft; cbn -[contains];
    unfold __interpret_numeric; rewrite Hraw; cbn -[contains];
    rewrite Hne, Hm; cbn; unfold parsed_float;
    destruct (float_of_str raw); reflexivity.
  - intros r Hm Hr.
    rewrite (method_missing study self tag raw); try assumption.
    + rewrite Hr. unfold numeric_tags in Htag. simpl in Htag.
      tag_cases Htag; reflexivity.
    + unfold numeric_tags in Htag. simpl in Htag. tag_cases Htag; simpl; tauto.
  - intros Hne Hm. apply eqb_empty_false in Hne. subst tag.
    unfold __interpret; rewrite Hft; cbn -[contains].
    unfold __interpret_year; rewrite Hraw; cbn -[contains].
    rewrite Hne, Hm; cbn; unfold parsed_int.
    destruct (int_of_str raw); reflexivity.
  - intros r Hm Hr. subst tag.
    rewrite (method_missing study self "year" raw); try assumption.
    + rewrite Hr. reflexivity.
    + simpl; tauto.
Qed.

End Values.

(** ** Option groups *)

Lemma split_single_empty sep s : split sep s = [""] -> s = "".
Proof.
  destruct s as [|c s]; simpl; [reflexivity|].
  destruct (Ascii.eqb c sep).
  - intros H. injection H as H. now apply split_not_nil in H.
  - destruct (split sep s); discriminate.
Qed.

Lemma option_link_snoc options item :
  option_link (options ++ [item]) = <[fst item := snd item]> (option_link options).
Proof. unfold option_link. now rewrite fold_left_app. Qed.

(** The name the dictionary gives a value is the name of the last option
    that carries the value. *)
Lemma option_link_lookup (options : list (string * string)) (key : string) :
  option_link options !! key
  = snd <$> find (fun item => String.eqb (fst item) key) (rev options).
Proof.
  induction options as [|item options IH] using rev_ind.
  - apply lookup_empty.
  - rewrite option_link_snoc, rev_app_distr. simpl.
    destruct (String.eqb_spec (fst item) key) as [->|Hne].
    + now rewrite lookup_insert_eq.
    + now rewrite lookup_insert_ne.
Qed.

Lemma map_result_all {A B} (f : A -> result B) (l : list A) (l' : list B) :
  Forall2 (fun x y => f x = Ok y) l l' -> map_result f l = Ok l'.
Proof.
  induction 1 as [|x y l l' Hxy _ IH]; simpl; [reflexivity|].
  now rewrite Hxy, IH.
Qed.

Lemma map_result_key_error {A B} (f : A -> option B) (l : list A) :
  (exists x, In x l /\ f x = None) ->
  map_result (fun x => of_option KeyError (f x)) l = Raise KeyError.
Proof.
  induction l as [|a l IH]; intros [x [Hin Hx]]; [destruct Hin|].
  simpl. destruct (f a) eqn:Ha; simpl; [|reflexivity].
  destruct Hin as [->|Hin]; [congruence|].
  rewrite IH; [reflexivity | eauto].
Qed.

Section OptionGroups.
Context {rt : PyRuntime}.

(** The dispatch of an option-group field on a nonempty raw value without
    "Missing" is the helper. *)
Lemma method_optiongroup_real (study : CastorStudy) (self : CastorDataPoint)
    (tag raw : string) :
  In tag optiongroup_tags ->
  field_type (instance_of self) = PStr tag ->
  raw_value self = PStr raw ->
  raw <> "" -> contains "Missing" raw = false ->
  __interpret self study = obj (__interpret_optiongroup_helper self study).
Proof.
  intros Htag Hft Hraw Hne Hm. apply eqb_empty_false in Hne.
  unfold optiongroup_tags in Htag. simpl in Htag. tag_cases Htag;
  unfold __interpret; rewrite Hft; cbn -[contains];
  unfold __interpret_optiongroup; rewrite Hraw; cbn -[contains];
  rewrite Hne, Hm; reflexivity.
Qed.

(** C4. For a checkbox, dropdown or radio field and a nonempty raw value
    without "Missing", when the option group resolves and every token of
    the raw value split on ";" is the value of an option, the result is the
    display names of the tokens joined with "|". *)
Theorem optiongroup_display_names (study : CastorStudy) (self : CastorDataPoint)
    (tag raw : string) (og : optiongroup) (names : list string) :
  In tag optiongroup_tags ->
  field_type (instance_of self) = PStr tag ->
  raw_value self = PStr raw ->
  raw <> "" -> contains "Missing" raw = false ->
  get_single_optiongroup study (field_option_group (instance_of self)) = Some og ->
  Forall2 (fun token name => option_link (og_options og) !! token = Some name)
    (split ";" raw) names ->
  __interpret self study = Ok (VObj (PStr (join "|" names))).
Proof.
  intros Htag Hft Hraw Hne Hm Hog Hnames.
  rewrite (method_optiongroup_real study self tag raw) by assumption.
  unfold __interpret_optiongroup_helper. rewrite Hog, Hraw. cbn -[split join].
  destruct (decide (split ";" raw = [""])) as [He|_].
  { now apply split_single_empty in He. }
  destruct (pass_keyerrors study).
  - cbn -[split join].
    assert (Hmap : map (fun value => default value (option_link (og_options og) !! value))
                     (split ";" raw) = names).
    { induction Hnames as [|token name l l' Hx _ IH]; [reflexivity|].
      simpl. now rewrite Hx, IH. }
    now rewrite Hmap.
  - rewrite (map_result_all _ _ names); [reflexivity|].
    eapply Forall2_impl; [exact Hnames|]. intros token name ->. reflexivity.
Qed.

(** C5. For a checkbox, dropdown or radio field and a nonempty raw value
    without "Missing": when the option-group id does not resolve,
    interpretation raises the "Optiongroup not found" failure; when it
    resolves and some token is not the value of an option, interpretation
    raises, if pass_keyerrors is false, a failure that names the option
    group, the raw value and the field; and when pass_keyerrors is true the
    result joins, for each token, its display name or else the token
    itself. *)
Theorem optiongroup_failures (study : CastorStudy) (self : CastorDataPoint)
    (tag raw : string) :
  In tag optiongroup_tags ->
  field_type (instance_of self) = PStr tag ->
  raw_value self = PStr raw ->
  raw <> "" -> contains "Missing" raw = false ->
  (get_single_optiongroup study (field_option_group (instance_of self)) = None ->
   __interpret self study
   = Raise (CastorException
              "Optiongroup not found. Is id correct and are optiongroups loaded?"))
  /\ (forall og,
        get_single_optiongroup study (field_option_group (instance_of self)) = Some og ->
        (exists token, In token (split ";" raw)
                       /\ option_link (og_options og) !! token = None) ->
        pass_keyerrors study = false ->
        __interpret self study
        = Raise (CastorException
                   ("Optional value mapping failed for optiongroup: "
                    +:+ str_optiongroup og
                    +:+ "Key `" +:+ raw
                    +:+ "` not present in the keys of the optiongroup"
                    +:+ "of field: " +:+ field_id self
                    +:+ " (" +:+ field_name (instance_of self) +:+ ")")))
  /\ (forall og,
        get_single_optiongroup study (field_option_group (instance_of self)) = Some og ->
        pass_keyerrors study = true ->
        __interpret self study
        = Ok (VObj (PStr (join "|"
               (map (fun token =>
                       match option_link (og_options og) !! token with
                       | Some name => name
                       | None => token
                       end) (split ";" raw)))))).
Proof.
  intros Htag Hft Hraw Hne Hm.
  rewrite (method_optiongroup_real study self tag raw) by assumption.
  unfold __interpret_optiongroup_helper. rewrite Hraw.
  assert (Hsplit : split ";" raw <> [""]).
  { intros He. now apply split_single_empty in He. }
  split; [|split].
  - intros ->. reflexivity.
  - intros og -> Hbad ->. cbn -[split join].
    destruct (decide (split ";" raw = [""])) as [He|_]; [contradiction|].
    now rewrite map_result_key_error.
  - intros og -> ->. cbn -[split join].
    destruct (decide (split ";" raw = [""])) as [He|_]; [contradiction|].
    reflexivity.
Qed.

(** C10. For a checkbox, dropdown or radio field the empty raw value is
    interpreted as the empty string whatever the study's option-group
    resolver answers, so also when it resolves no id at all. *)
Theorem empty_optiongroup_skips_resolver (study : CastorStudy) (self : CastorDataPoint)
    (tag : string) :
  In tag optiongroup_tags ->
  field_type (instance_of self) = PStr tag ->
  raw_value self = PStr "" ->
  forall resolver : pyobj -> option optiongroup,
    __interpret self (mk_study (configuration study) resolver (pass_keyerrors study))
    = Ok (VObj (PStr ""))
    /\ __interpret self (mk_study (configuration study) (fun _ => None) (pass_keyerrors study))
       = Ok (VObj (PStr "")).
Proof.
  intros Htag Hft Hraw resolver.
  unfold optiongroup_tags in Htag. simpl in Htag.
  split; tag_cases Htag;
  unfold __interpret; rewrite Hft; cbn;
  unfold __interpret_optiongroup; rewrite Hraw; reflexivity.
Qed.

End OptionGroups.

(** ** Grids *)

Lemma bind_ok {A B} (m : result A) (k : A -> result B) (b : B) :
  bind m k = Ok b -> exists a, m = Ok a /\ k a = Ok b.
Proof. destruct m as [a|e]; simpl; [eauto | discriminate]. Qed.

Lemma map_result_ok {A B} (f : A -> result B) (l : list A) (l' : list B) :
  map_result f l = Ok l' -> Forall2 (fun x y => f x = Ok y) l l'.
Proof.
  revert l'. induction l as [|x l IH]; simpl; intros l' H.
  - injection H as <-. constructor.
  - apply bind_ok in H as [y [Hy H]]. apply bind_ok in H as [ys [Hys H]].
    injection H as <-. constructor; auto.
Qed.

Lemma map_result_raises {A B} (f : A -> result B) (l : list A) (x : A) (e : exn) :
  In x l -> f x = Raise e -> exists e', map_result f l = Raise e'.
Proof.
  induction l as [|a l IH]; intros Hin Hx; [destruct Hin|].
  simpl. destruct (f a) as [y|e0] eqn:Ha; simpl; [|eauto].
  destruct Hin as [->|Hin]; [congruence|].
  destruct (IH Hin Hx) as [e' ->]. simpl. eauto.
Qed.

Lemma py_eq_str_true (v : pyobj) (s : string) : py_eq_str v s = true <-> v = PStr s.
Proof.
  destruct v; simpl; try (split; [discriminate | congruence]).
  rewrite String.eqb_eq. split; congruence.
Qed.

Lemma py_eq_str_false (v : pyobj) (s : string) : py_eq_str v s = false <-> v <> PStr s.
Proof.
  rewrite <- py_eq_str_true. destruct (py_eq_str v s); split; congruence.
Qed.

(** *** The first token of a name *)

(** The first part of a split holds no separator, and the string is that
    part alone or that part, a separator and a rest. *)
Lemma split_head (sep : ascii) (s : string) :
  exists tok rest,
    split sep s = tok :: rest
    /\ ~ In sep (list_ascii_of_string tok)
    /\ (s = tok \/ exists r, s = tok +:+ String sep r).
Proof.
  induction s as [|c s (tok & rest & Hs & Hfree & Htail)].
  - exists "", []. simpl. tauto.
  - cbn [split]. destruct (Ascii.eqb_spec c sep) as [->|Hne].
    + exists "", (split sep s). simpl. split; [reflexivity|]. split; [tauto|]. right. eauto.
    + rewrite Hs. exists (String c tok), rest. split; [reflexivity|]. split.
      * simpl. intros [H|H]; [congruence | contradiction].
      * destruct Htail as [->|[r ->]]; [now left | right; exists r; reflexivity].
Qed.

(** Two texts without separator that are followed, in the same string, by
    nothing or by a separator are the same text. *)
Lemma separator_free_prefix (sep : ascii) (t1 t2 u1 u2 : string) :
  ~ In sep (list_ascii_of_string t1) -> ~ In sep (list_ascii_of_string t2) ->
  (u1 = "" \/ exists r, u1 = String sep r) -> (u2 = "" \/ exists r, u2 = String sep r) ->
  t1 +:+ u1 = t2 +:+ u2 -> t1 = t2.
Proof.
  revert t2. induction t1 as [|c t1 IH]; intros [|d t2] H1 H2 Hu1 Hu2 Heq.
  - reflexivity.
  - exfalso. simpl in Heq. destruct Hu1 as [->|[r ->]]; [discriminate|].
    injection Heq as -> _. apply H2. now left.
  - exfalso. simpl in Heq. destruct Hu2 as [->|[r ->]]; [discriminate|].
    injection Heq as <- _. apply H1. now left.
  - injection Heq as -> Heq. f_equal. apply IH; auto.
    + intros H. apply H1. now right.
    + intros H. apply H2. now right.
Qed.

Lemma append_empty_r (s : string) : s +:+ "" = s.
Proof.
  induction s as [|c s IH]; [reflexivity|].
  change (String c (s +:+ "") = String c s). now rewrite IH.
Qed.

Lemma text_before_first_space_unique (name t1 t2 : string) :
  text_before_first_space name t1 -> text_before_first_space name t2 -> t1 = t2.
Proof.
  intros [H1 Hn1] [H2 Hn2].
  assert (E1 : exists u, name = t1 +:+ u /\ (u = "" \/ exists r, u = String " " r)).
  { destruct Hn1 as [->|[r ->]]; [exists ""; rewrite append_empty_r|exists (String " " r)]; eauto. }
  assert (E2 : exists u, name = t2 +:+ u /\ (u = "" \/ exists r, u = String " " r)).
  { destruct Hn2 as [->|[r ->]]; [exists ""; rewrite append_empty_r|exists (String " " r)]; eauto. }
  destruct E1 as (u1 & -> & Hu1), E2 as (u2 & Heq & Hu2).
  exact (separator_free_prefix " " t1 t2 u1 u2 H1 H2 Hu1 Hu2 Heq).
Qed.

(** [name.split(' ')[0]] is the text of the name before its first space,
    and nothing else is. *)
Lemma first_token_spec (name token : string) :
  first_token (PStr name) = Ok token <-> text_before_first_space name token.
Proof.
  unfold first_token. cbn [py_split bind].
  destruct (split_head " " name) as (tok & rest & -> & Hfree & Htail).
  cbn [head of_option].
  assert (Htok : text_before_first_space name tok) by (split; assumption).
  split.
  - intros H. injection H as <-. exact Htok.
  - intros H. f_equal. exact (text_before_first_space_unique name tok token Htok H).
Qed.

(** A name that is no string has no first token. *)
Lemma first_token_str (name : pyobj) (token : string) :
  first_token name = Ok token -> exists s, name = PStr s.
Proof. destruct name; try discriminate. eauto. Qed.

(** [all(x == check[0] for x in check)] holds when all the elements are
    one and the same string. *)
Lemma all_same_spec (check : list string) :
  all_same check = true <-> exists token, Forall (eq token) check.
Proof.
  destruct check as [|first check]; [split; [exists ""; constructor | reflexivity]|].
  unfold all_same. rewrite forallb_forall. split.
  - intros H. exists first. apply List.Forall_forall. intros x Hx.
    symmetry. apply String.eqb_eq. exact (H x Hx).
  - intros [token H] x Hx. apply String.eqb_eq.
    rewrite List.Forall_forall in H.
    rewrite <- (H first (or_introl eq_refl)). symmetry. exact (H x Hx).
Qed.

(** The first tokens of names that are strings. *)
Lemma first_tokens_of_names (names : list string) :
  exists tokens,
    map_result first_token (map PStr names) = Ok tokens
    /\ Forall2 text_before_first_space names tokens.
Proof.
  induction names as [|name names (tokens & Hm & Hall)].
  - exists []. split; [reflexivity | constructor].
  - destruct (split_head " " name) as (tok & rest & Hs & Hfree & Htail).
    assert (Htok : text_before_first_space name tok) by (split; assumption).
    exists (tok :: tokens). split; [|constructor; assumption].
    cbn [map map_result]. rewrite (proj2 (first_token_spec name tok) Htok).
    cbn [bind]. rewrite Hm. reflexivity.
Qed.

(** The test of the code on the first tokens is the common first token of
    the names. *)
Lemma all_same_first_tokens (names tokens : list string) :
  map_result first_token (map PStr names) = Ok tokens ->
  (all_same tokens = true <-> share_first_token names).
Proof.
  intros Hm. destruct (first_tokens_of_names names) as (tokens' & Hm' & Hall).
  rewrite Hm in Hm'. injection Hm' as <-. clear Hm.
  rewrite all_same_spec. unfold share_first_token.
  split; intros [token H]; exists token.
  - induction Hall as [|name tok names tokens Hnt Hall IH]; constructor.
    + apply Forall_inv in H. now subst tok.
    + apply Forall_inv_tail in H. auto.
  - induction Hall as [|name tok names tokens Hnt Hall IH]; constructor.
    + apply Forall_inv in H. symmetry.
      exact (text_before_first_space_unique name tok token Hnt H).
    + apply Forall_inv_tail in H. auto.
Qed.

Section Grid.
Context {rt : PyRuntime}.

Lemma grid_failure_raises (self : CastorDataPoint) (study : CastorStudy) :
  grid_failure self study -> exists e, grid_try self study = Raise e.
Proof.
  unfold grid_try.
  intros [e H | tmpl e H1 H | tmpl rows e H1 H2 H | tmpl rows df e H1 H2 H3 H
         | tmpl rows df df' rn cn e H1 H2 H3 H4 H
         | tmpl rows df df' rn cn cols e H1 H2 H3 H4 H5 H];
    repeat match goal with
           | Heq : ?m = _ |- context [bind ?m _] => rewrite Heq; cbn [bind]
           end; eauto.
Qed.

Lemma grid_raises_failure (self : CastorDataPoint) (study : CastorStudy) (e : exn) :
  grid_try self study = Raise e -> grid_failure self study.
Proof.
  unfold grid_try.
  destruct (py_json_loads (field_summary_template (instance_of self)))
    as [tmpl|e1] eqn:H1; cbn [bind]; [|intros _; eapply template_fails; eauto].
  destruct (grid_rows_of (raw_value self)) as [rows|e2] eqn:H2; cbn [bind];
    [|intros _; eapply raw_value_fails; eauto].
  destruct (pd_DataFrame rows) as [df|e3] eqn:H3; cbn [bind];
    [|intros _; eapply table_fails; eauto].
  destruct (orient tmpl df) as [[[df' rn] cn]|e4] eqn:H4; cbn [bind];
    [|intros _; eapply orientation_fails; eauto].
  destruct (interpret_columns self study tmpl df') as [cols|e5] eqn:H5; cbn [bind];
    [|intros _; eapply cells_fail; eauto].
  intros H. eapply assembly_fails; eauto.
Qed.

Lemma method_grid (self : CastorDataPoint) (study : CastorStudy) :
  field_type (instance_of self) = PStr "grid" ->
  __interpret self study = __interpret_grid self study.
Proof. intros Hft. unfold __interpret. rewrite Hft. reflexivity. Qed.

(** A cell whose interpretation raises makes the loop over the columns
    raise. *)
Lemma failing_cell_fails_columns (self : CastorDataPoint) (study : CastorStudy)
    (tmpl : pyobj) (df : frame) (i j : nat) (field_types option_lists ft og : pyobj)
    (e : exn) :
  (j < shape1 df)%nat -> (i < shape0 df)%nat ->
  py_getitem tmpl "fieldTypes" = Ok field_types -> py_index field_types j = Ok ft ->
  py_getitem tmpl "optionLists" = Ok option_lists -> py_index option_lists j = Ok og ->
  interpret study (grid_object (field_name (instance_of self)) ft og) (iloc df i j)
  = Raise e ->
  exists e', interpret_columns self study tmpl df = Raise e'.
Proof.
  intros Hj Hi Hfts Hft Hols Hog Hcell.
  assert (Hcol : exists e', interpret_column self study tmpl df j = Raise e').
  { unfold interpret_column. rewrite Hfts; cbn [bind]. rewrite Hft; cbn [bind].
    rewrite Hols; cbn [bind]. rewrite Hog; cbn [bind].
    eapply map_result_raises; [|exact Hcell].
    unfold column. apply in_map_iff. exists i. split; [reflexivity|].
    apply in_seq. lia. }
  destruct Hcol as [e' Hcol].
  eapply map_result_raises; [|exact Hcol]. apply in_seq. lia.
Qed.

(** When the orientation bound no names (a square table neither of whose
    axes has names with a common first token) the assembly raises. *)
Lemma unbound_names_fail_assembly (cols : list (list pyobj)) (row_names : option pyobj) :
  exists e, assemble cols row_names None = Raise e.
Proof.
  unfold assemble. destruct (pd_DataFrame (map PList cols)); cbn; eauto.
Qed.

Lemma square_without_common_token (tmpl rn cn : pyobj) (df : frame)
    (col_names row_names : list pyobj) (col_check row_check : list string) :
  shape0 df = shape1 df ->
  py_getitem tmpl "rowNames" = Ok rn -> py_getitem tmpl "columnNames" = Ok cn ->
  py_iter cn = Ok col_names -> map_result first_token col_names = Ok col_check ->
  py_iter rn = Ok row_names -> map_result first_token row_names = Ok row_check ->
  all_same col_check = false -> all_same row_check = false ->
  orient tmpl df = Ok (df, None, None).
Proof.
  intros Heq Hrn Hcn Hci Hcc Hri Hrc Hc Hr. apply Nat.eqb_eq in Heq. unfold orient.
  rewrite Heq, Hcn; cbn [negb bind]. rewrite Hci; cbn [bind]. rewrite Hcc; cbn [bind].
  rewrite Hrn; cbn [bind]. rewrite Hri; cbn [bind]. rewrite Hrc; cbn [bind].
  now rewrite Hc, Hr.
Qed.

(** C7. For a grid field: when the raw value or the summary template is the
    empty string the result is NaN; otherwise, when any step of the
    reconstruction fails (parsing the template or the raw value, building
    or orienting the table, interpreting a cell, assembling the result) the
    result is exactly the string "Error"; a table is returned only when
    every step succeeded, and it is then the complete table; and the
    method never raises. *)
Theorem grid_nan_or_error (self : CastorDataPoint) (study : CastorStudy) :
  field_type (instance_of self) = PStr "grid" ->
  (raw_value self = PStr "" \/ field_summary_template (instance_of self) = PStr "" ->
   __interpret self study = Ok (VObj np_nan))
  /\ (raw_value self <> PStr "" ->
      field_summary_template (instance_of self) <> PStr "" ->
      (grid_failure self study <-> __interpret self study = Ok (VObj (PStr "Error")))
      /\ (forall t, __interpret self study = Ok (VTable t) ->
            grid_try self study = Ok t /\ ~ grid_failure self study))
  /\ (forall e, __interpret self study <> Raise e).
Proof.
  intros Hft. rewrite (method_grid self study Hft). unfold __interpret_grid.
  split; [|split].
  - intros [H | H]; apply py_eq_str_true in H; rewrite H;
      [reflexivity | now rewrite orb_true_r].
  - intros Hraw Htmpl. apply py_eq_str_false in Hraw, Htmpl.
    rewrite Hraw, Htmpl. cbn [orb]. split.
    + split.
      * intros Hfail. destruct (grid_failure_raises self study Hfail) as [e ->].
        reflexivity.
      * destruct (grid_try self study) as [t|e] eqn:Htry; [discriminate|].
        intros _. exact (grid_raises_failure self study e Htry).
    + intros t. destruct (grid_try self study) as [t'|e] eqn:Htry; [|discriminate].
      intros H. injection H as <-. split; [reflexivity|].
      intros Hfail. destruct (grid_failure_raises self study Hfail) as [e He].
      congruence.
  - intros e.
    destruct (py_eq_str (raw_value self) ""
              || py_eq_str (field_summary_template (instance_of self)) "");
      [discriminate|].
    destruct (grid_try self study); discriminate.
Qed.

(** C8, as amended.  With the field types, row names and column names of
    the template at hand.  When the row and column counts differ, the
    orientation whose width is the number of field types is chosen, the
    table being kept if that number is its column count and transposed,
    with the names exchanged, if it is its row count; it is transposed all
    the same when the number is neither count.  When the table is square
    and the names are strings, it is transposed, with the names exchanged,
    if all column names have the same text before their first space
    character, and kept if they have not and all row names have; its width
    is the number of field types if its column count is.  And each output
    column's cells are recursively interpreted, by the module-level
    dispatch, with the field type and the option group found at the
    column's position in the template. *)
Theorem grid_orientation (tmpl field_types rn cn : pyobj) (n : nat) (df : frame) :
  py_getitem tmpl "fieldTypes" = Ok field_types ->
  py_len field_types = Ok n ->
  py_getitem tmpl "rowNames" = Ok rn ->
  py_getitem tmpl "columnNames" = Ok cn ->
  (shape0 df <> shape1 df ->
     (n = shape1 df -> orient tmpl df = Ok (df, Some rn, Some cn))
     /\ (n <> shape1 df -> orient tmpl df = Ok (T df, Some cn, Some rn))
     /\ (n = shape0 df \/ n = shape1 df -> width_matches n (orient tmpl df)))
  /\ (shape0 df = shape1 df ->
      forall column_names row_names : list string,
        py_iter cn = Ok (map PStr column_names) ->
        py_iter rn = Ok (map PStr row_names) ->
        (share_first_token column_names ->
         orient tmpl df = Ok (T df, Some cn, Some rn))
        /\ (~ share_first_token column_names -> share_first_token row_names ->
            orient tmpl df = Ok (df, Some rn, Some cn))
        /\ (n = shape1 df -> width_matches n (orient tmpl df)))
  /\ (forall self study cols,
        interpret_columns self study tmpl df = Ok cols ->
        length cols = shape1 df
        /\ forall j, (j < shape1 df)%nat ->
             exists option_lists ft og col,
               py_index field_types j = Ok ft
               /\ py_getitem tmpl "optionLists" = Ok option_lists
               /\ py_index option_lists j = Ok og
               /\ cols !! j = Some col
               /\ map_result
                    (interpret study (grid_object (field_name (instance_of self)) ft og))
                    (column df j)
                  = Ok col).
Proof.
  intros Hfts Hlen Hrn Hcn. split; [|split].
  - intros Hne. apply Nat.eqb_neq in Hne.
    assert (Hkeep : n = shape1 df -> orient tmpl df = Ok (df, Some rn, Some cn)).
    { intros Hn. apply Nat.eqb_eq in Hn. unfold orient.
      rewrite Hne, Hfts; cbn [negb bind]. rewrite Hlen; cbn [bind].
      rewrite Hn, Hrn, Hcn. reflexivity. }
    assert (Hturn : n <> shape1 df -> orient tmpl df = Ok (T df, Some cn, Some rn)).
    { intros Hn. apply Nat.eqb_neq in Hn. unfold orient.
      rewrite Hne, Hfts; cbn [negb bind]. rewrite Hlen; cbn [bind].
      rewrite Hn, Hrn, Hcn. reflexivity. }
    split; [exact Hkeep | split; [exact Hturn|]].
    intros Hn. destruct (Nat.eq_dec n (shape1 df)) as [He|He].
    + exists df, (Some rn), (Some cn). split; [auto | congruence].
    + exists (T df), (Some cn), (Some rn). split; [auto|].
      simpl. destruct Hn; congruence.
  - intros Heq column_names row_names Hci Hri.
    destruct (first_tokens_of_names column_names) as (col_check & Hcc & _).
    destruct (first_tokens_of_names row_names) as (row_check & Hrc & _).
    pose proof (all_same_first_tokens column_names col_check Hcc) as Hcols.
    pose proof (all_same_first_tokens row_names row_check Hrc) as Hrows.
    assert (Ho : orient tmpl df
                 = if all_same col_check then Ok (T df, Some cn, Some rn)
                   else if all_same row_check then Ok (df, Some rn, Some cn)
                   else Ok (df, None, None)).
    { unfold orient. rewrite (proj2 (Nat.eqb_eq _ _) Heq), Hcn; cbn [negb bind].
      rewrite Hci; cbn [bind]. rewrite Hcc; cbn [bind].
      rewrite Hrn; cbn [bind]. rewrite Hri; cbn [bind]. rewrite Hrc; cbn [bind].
      destruct (all_same col_check); [reflexivity|].
      destruct (all_same row_check); reflexivity. }
    split; [|split].
    + intros Hc. apply Hcols in Hc. now rewrite Ho, Hc.
    + intros Hc Hr. apply Hrows in Hr.
      destruct (all_same col_check); [exfalso; apply Hc, Hcols; reflexivity|].
      now rewrite Ho, Hr.
    + intros Hn. rewrite Ho.
      destruct (all_same col_check); [|destruct (all_same row_check)];
        eexists _, _, _; (split; [reflexivity|]); simpl; congruence.
  - intros self study cols Hcols. unfold interpret_columns in Hcols.
    apply map_result_ok in Hcols.
    split.
    + apply Forall2_length in Hcols. rewrite length_seq in Hcols. congruence.
    + intros j Hj.
      destruct (Forall2_lookup_l _ _ _ j j Hcols) as [col [Hcol Hf]].
      { now apply lookup_seq_lt. }
      unfold interpret_column in Hf. rewrite Hfts in Hf; cbn [bind] in Hf.
      apply bind_ok in Hf as [ft [Hft Hf]].
      apply bind_ok in Hf as [option_lists [Hols Hf]].
      apply bind_ok in Hf as [og [Hog Hf]].
      exists option_lists, ft, og, col. auto.
Qed.

End Grid.

(** ** Methods and module-level functions *)

Lemma append_assoc (a b c : string) : (a +:+ b) +:+ c = a +:+ b +:+ c.
Proof.
  induction a as [|x a IH]; [reflexivity|].
  change (String x ((a +:+ b) +:+ c) = String x (a +:+ b +:+ c)).
  now rewrite IH.
Qed.

Lemma same_outcome_obj (self : CastorDataPoint) (r : result pyobj) :
  same_outcome self (obj r) r.
Proof. destruct r; simpl; [reflexivity | now left]. Qed.

Section Equivalence.
Context {rt : PyRuntime}.

Lemma helper_same_outcome (self : CastorDataPoint) (study : CastorStudy) :
  same_outcome self (obj (__interpret_optiongroup_helper self study))
    (interpret_optiongroup_helper study (instance_of self) (raw_value self)).
Proof.
  unfold __interpret_optiongroup_helper, interpret_optiongroup_helper.
  destruct (get_single_optiongroup study (field_option_group (instance_of self)))
    as [og|]; [|now left].
  destruct (py_split (raw_value self) ";") as [value_list|e]; [|now left].
  cbn [bind]. destruct (decide (value_list = [""])); [reflexivity|].
  destruct (pass_keyerrors study); [reflexivity|].
  destruct (map_result _ value_list) as [names|e]; [reflexivity|].
  destruct e; try (now left).
  right. eexists. split; [reflexivity|].
  cbn [bind obj]. now rewrite !append_assoc.
Qed.

Lemma optiongroup_same_outcome (self : CastorDataPoint) (study : CastorStudy) :
  same_outcome self (obj (__interpret_optiongroup self study))
    (interpret_optiongroup study (instance_of self) (raw_value self)).
Proof.
  unfold __interpret_optiongroup, interpret_optiongroup.
  destruct (py_eq_str (raw_value self) ""); [reflexivity|].
  destruct (py_contains "Missing" (raw_value self)) as [[|]|e]; cbn [bind];
    [| apply helper_same_outcome | now left].
  apply same_outcome_obj.
Qed.

(** C9, as amended.  For every field type other than "grid" and every raw
    value, the method dispatch and the module-level dispatch return the
    same object, or both raise: the same exception, except that the
    message of the failure for a value that is not an option of the group
    names the field only when the method raises it. *)
Theorem method_matches_function (self : CastorDataPoint) (study : CastorStudy) :
  field_type (instance_of self) <> PStr "grid" ->
  same_outcome self (__interpret self study)
    (interpret study (instance_of self) (raw_value self)).
Proof.
  intros Hgrid. unfold __interpret, interpret.
  destruct (py_in_strs (field_type (instance_of self)) ["checkbox"; "dropdown"; "radio"]);
    [apply optiongroup_same_outcome|].
  destruct (py_in_strs (field_type (instance_of self)) ["numeric"; "slider"; "randomization"]);
    [apply same_outcome_obj|].
  destruct (py_in_strs (field_type (instance_of self)) ["year"]); [apply same_outcome_obj|].
  destruct (py_in_strs (field_type (instance_of self))
              ["string"; "textarea"; "upload"; "calculation"]); [reflexivity|].
  destruct (py_in_strs (field_type (instance_of self)) ["datetime"]);
    [apply same_outcome_obj|].
  destruct (py_in_strs (field_type (instance_of self)) ["date"]); [apply same_outcome_obj|].
  destruct (py_in_strs (field_type (instance_of self)) ["time"]); [apply same_outcome_obj|].
  destruct (py_in_strs (field_type (instance_of self)) ["numberdate"]);
    [apply same_outcome_obj|].
  destruct (py_in_strs (field_type (instance_of self)) ["grid"]) eqn:Hg; [|reflexivity].
  exfalso. apply Hgrid. unfold py_in_strs in Hg. simpl in Hg.
  rewrite orb_false_r in Hg. now apply py_eq_str_true.
Qed.

End Equivalence.

(** ** Number-date fields *)

Section NumberDate.
Context {rt : PyRuntime}.

Lemma method_numberdate_real (self : CastorDataPoint) (study : CastorStudy) (raw : string) :
  field_type (instance_of self) = PStr "numberdate" ->
  raw_value self = PStr raw ->
  raw <> "" -> contains "Missing" raw = false ->
  __interpret self study
  = obj (match split ";" raw with
         | [number; date] =>
             let number := if String.eqb number "" then np_nan else PStr number in
             let date := if String.eqb date "" then np_nan else PStr date in
             f <- py_float number ;;
             dt <- py_strptime date "%d-%m-%Y" ;;
             Ok (PList [PFloat f;
                        PStr (period_strftime (Period_of dt FreqD)
                                (cfg_date (configuration study)))])
         | _ => Raise ValueError
         end).
Proof.
  intros Hft Hraw Hne Hm. apply eqb_empty_false in Hne.
  unfold __interpret. rewrite Hft. cbn -[contains split].
  unfold __interpret_numberdate. rewrite Hraw. cbn -[contains split].
  rewrite Hne, Hm. reflexivity.
Qed.

(** What holds of C6: both parts nonempty give the pair of the parsed
    number and the reformatted date, and an empty number part gives NaN in
    the first slot. *)
Lemma numberdate_parts (self : CastorDataPoint) (study : CastorStudy)
    (raw number date : string) (dt : datetime) :
  field_type (instance_of self) = PStr "numberdate" ->
  raw_value self = PStr raw ->
  contains "Missing" raw = false ->
  split ";" raw = [number; date] ->
  date <> "" ->
  strptime date "%d-%m-%Y" = Some dt ->
  (number = "" ->
   __interpret self study
   = Ok (VObj (PList [np_nan;
                      PStr (period_strftime (Period_of dt FreqD)
                              (cfg_date (configuration study)))])))
  /\ (forall f, number <> "" -> float_of_str number = Some f ->
      __interpret self study
      = Ok (VObj (PList [PFloat f;
                         PStr (period_strftime (Period_of dt FreqD)
                                 (cfg_date (configuration study)))]))).
Proof.
  intros Hft Hraw Hm Hsplit Hdate Hdt.
  assert (Hne : raw <> "") by (intros ->; discriminate Hsplit).
  rewrite (method_numberdate_real self study raw) by assumption.
  rewrite Hsplit. apply eqb_empty_false in Hdate. rewrite Hdate.
  split.
  - intros ->. cbn. rewrite Hdt. reflexivity.
  - intros f Hn Hf. apply eqb_empty_false in Hn. rewrite Hn.
    cbn. rewrite Hf. cbn. rewrite Hdt. reflexivity.
Qed.

(** C6, at the failing inputs.  For a numberdate field and a raw value
    without "Missing" whose part after the ";" is empty, interpretation
    does not put NaN in the date slot: it raises, [TypeError] from
    [strptime] when the number part is empty or parses, and [ValueError]
    from [float] otherwise. *)
Theorem numberdate_empty_date_raises (self : CastorDataPoint) (study : CastorStudy)
    (raw number : string) :
  field_type (instance_of self) = PStr "numberdate" ->
  raw_value self = PStr raw ->
  contains "Missing" raw = false ->
  split ";" raw = [number; ""] ->
  __interpret self study
  = Raise (if String.eqb number "" then TypeError
           else match float_of_str number with
                | Some _ => TypeError
                | None => ValueError
                end).
Proof.
  intros Hft Hraw Hm Hsplit.
  assert (Hne : raw <> "") by (intros ->; discriminate Hsplit).
  rewrite (method_numberdate_real self study raw) by assumption.
  rewrite Hsplit. cbn.
  destruct (String.eqb number ""); [reflexivity|].
  cbn. destruct (float_of_str number); reflexivity.
Qed.

End NumberDate.

(** ** Worked examples *)

Section Worked.
Import Examples.

(** Both "not done" and "measurement failed" occur: the first reason of the
    fixed order decides. *)
Lemma missing_first_reason_wins_witness :
  __interpret (point "date" "Missing (not done, measurement failed)") (study false)
  = Ok (VObj (PStr "2995-01-01")).
Proof.
  refine (proj1 (missing_first_reason_wins (study false)
                   (point "date" "Missing (not done, measurement failed)")
                   "date" "Missing (not done, measurement failed)"
                   _ eq_refl eq_refl eq_refl)).
  simpl; tauto.
Defined.

Example empty_numberdate :
  __interpret (point "numberdate" "") (study false) = Ok (VObj (PList [np_nan; np_nan])).
Proof. reflexivity. Qed.

(** "3.14" is the double 7070651414971679 * 2^-51, the one nearest to
    3.14; "Missing (not done)" is -99. *)
Lemma numeric_and_year_values_witness :
  __interpret (point "numeric" "3.14") (study false)
  = Ok (VObj (PFloat (S754_finite false 7070651414971679 (-51))))
  /\ __interpret (point "numeric" "Missing (not done)") (study false)
     = Ok (VObj (PInt (-99)))
  /\ __interpret (point "year" "2020") (study false) = Ok (VObj (PInt 2020)).
Proof.
  split; [|split].
  - destruct (numeric_and_year_values (study false) (point "numeric" "3.14")
                "numeric" "3.14" eq_refl eq_refl) as [H _].
    destruct H as [H _]; [simpl; tauto|].
    apply H; [discriminate | reflexivity].
  - destruct (numeric_and_year_values (study false) (point "numeric" "Missing (not done)")
                "numeric" "Missing (not done)" eq_refl eq_refl) as [H _].
    destruct H as [_ H]; [simpl; tauto|].
    apply (H not_done); reflexivity.
  - destruct (numeric_and_year_values (study false) (point "year" "2020")
                "year" "2020" eq_refl eq_refl) as [_ H].
    destruct H as [H _]; [reflexivity|].
    apply H; [discriminate | reflexivity].
Defined.

(** Options 1 = Yes and 2 = No: "1;2" is "Yes|No". *)
Lemma optiongroup_display_names_witness :
  __interpret (point "radio" "1;2") (study false) = Ok (VObj (PStr "Yes|No")).
Proof.
  apply (optiongroup_display_names (study false) (point "radio" "1;2") "radio" "1;2"
           yes_no ["Yes"; "No"]).
  - simpl; tauto.
  - reflexivity.
  - reflexivity.
  - discriminate.
  - reflexivity.
  - reflexivity.
  - repeat constructor.
Defined.

Lemma optiongroup_failures_witness :
  __interpret (mk_data_point "F1" (PStr "1;2") (field "radio" (PStr "og2"))) (study false)
  = Raise (CastorException
             "Optiongroup not found. Is id correct and are optiongroups loaded?")
  /\ __interpret (point "checkbox" "1;3") (study false)
     = Raise (CastorException
                ("Optional value mapping failed for optiongroup: "
                 +:+ "{'options': [{'value': '1', 'name': 'Yes'}, {'value': '2', 'name': 'No'}]}"
                 +:+ "Key `1;3` not present in the keys of the optiongroup"
                 +:+ "of field: F1 (answer)"))
  /\ __interpret (point "checkbox" "1;3") (study true) = Ok (VObj (PStr "Yes|3")).
Proof.
  split; [|split].
  - refine (proj1 (optiongroup_failures (study false)
                     (mk_data_point "F1" (PStr "1;2") (field "radio" (PStr "og2")))
                     "radio" "1;2" _ eq_refl eq_refl _ eq_refl) eq_refl).
    + simpl; tauto.
    + discriminate.
  - refine (proj1 (proj2 (optiongroup_failures (study false) (point "checkbox" "1;3")
                            "checkbox" "1;3" _ eq_refl eq_refl _ eq_refl))
              yes_no eq_refl _ eq_refl).
    + simpl; tauto.
    + discriminate.
    + exists "3". split; [simpl; tauto | reflexivity].
  - refine (proj2 (proj2 (optiongroup_failures (study true) (point "checkbox" "1;3")
                            "checkbox" "1;3" _ eq_refl eq_refl _ eq_refl))
              yes_no eq_refl eq_refl).
    + simpl; tauto.
    + discriminate.
Defined.

(** The example of the specification holds. *)
Example numberdate_example :
  __interpret (point "numberdate" "5;01-02-2020") (study false)
  = Ok (VObj (PList [PFloat (S754_finite false 5629499534213120 (-50));
                     PStr "2020-02-01"])).
Proof. reflexivity. Qed.

Example numberdate_empty_number :
  __interpret (point "numberdate" ";01-02-2020") (study false)
  = Ok (VObj (PList [np_nan; PStr "2020-02-01"])).
Proof. reflexivity. Qed.

(** An empty date part raises instead of giving NaN. *)
Lemma numberdate_empty_date_raises_witness :
  __interpret (point "numberdate" "5;") (study false) = Raise TypeError
  /\ __interpret (point "numberdate" ";") (study false) = Raise TypeError.
Proof.
  split.
  - exact (numberdate_empty_date_raises (point "numberdate" "5;") (study false)
             "5;" "5" eq_refl eq_refl eq_refl eq_refl).
  - exact (numberdate_empty_date_raises (point "numberdate" ";") (study false)
             ";" "" eq_refl eq_refl eq_refl eq_refl).
Defined.

(** A numeric cell that is not a number, and a raw value that is not JSON:
    both grids are "Error". *)
Lemma grid_nan_or_error_witness :
  __interpret broken_cell_grid (study false) = Ok (VObj (PStr "Error"))
  /\ grid_failure broken_cell_grid (study false)
  /\ __interpret broken_json_grid (study false) = Ok (VObj (PStr "Error"))
  /\ __interpret empty_grid (study false) = Ok (VObj np_nan).
Proof.
  split; [reflexivity|]. split; [|split; [reflexivity|]].
  - destruct (grid_nan_or_error broken_cell_grid (study false) eq_refl) as [_ [H _]].
    destruct H as [H _]; [discriminate | discriminate |].
    apply H. reflexivity.
  - destruct (grid_nan_or_error empty_grid (study false) eq_refl) as [H _].
    apply H. left. reflexivity.
Defined.

(** The first token of a name is what precedes its first space: it is
    empty for a name that starts with a space, and the whole name for one
    without a space. *)
Example first_token_examples :
  first_token (PStr "Visit 1") = Ok "Visit"
  /\ first_token (PStr " Visit 1") = Ok ""
  /\ first_token (PStr "Visit") = Ok "Visit"
  /\ all_same ["Visit"; "Visit"] = true
  /\ all_same ["Visit"; "Week"] = false
  /\ all_same [] = true.
Proof. repeat split. Qed.

(** A later option replaces an earlier one with the same value. *)
Example option_link_last_wins :
  option_link [("1", "Yes"); ("2", "No"); ("1", "Ja")] !! "1" = Some "Ja".
Proof. reflexivity. Qed.

Example wide_grid_table :
  __interpret wide_grid (study false)
  = Ok (VTable {| tbl_columns := ["note"; "answer"; "remark"];
                  tbl_index := ["first"; "second"];
                  tbl_rows := [[PStr "a"; PStr "Yes"; PStr "x"];
                               [PStr "b"; PStr "not asked"; PStr "y"]] |}).
Proof. reflexivity. Qed.

(** Three rows of two cells for three field types: the table is transposed
    and comes out as the table of [wide_grid]. *)
Example tall_grid_table :
  __interpret tall_grid (study false) = __interpret wide_grid (study false).
Proof. reflexivity. Qed.

(** Three rows of two cells for three field types are transposed.  Of the
    two square tables, the one whose column names start with the same word
    is transposed, and the one whose row names do, and whose column names
    do not, is kept; the cells of its second column are interpreted as the
    radio buttons the template declares at that position. *)
Lemma grid_orientation_witness :
  (orient (parsed tall_template) (frame_of tall_raw)
   = Ok (T (frame_of tall_raw),
         Some (PList [PStr " first"; PStr "second "]),
         Some (PList [PStr "note"; PStr "answer"; PStr "remark"]))
   /\ width_matches 3 (orient (parsed tall_template) (frame_of tall_raw)))
  /\ (share_first_token ["Visit 1"; "Visit 2"]
      /\ orient (parsed SquareExamples.visit_columns_template)
           (frame_of SquareExamples.by_visit_raw)
         = Ok (T (frame_of SquareExamples.by_visit_raw),
               Some (PList [PStr "Visit 1"; PStr "Visit 2"]),
               Some (PList [PStr "note"; PStr "answer"]))
      /\ width_matches 2
           (orient (parsed SquareExamples.visit_columns_template)
              (frame_of SquareExamples.by_visit_raw)))
  /\ (~ share_first_token ["note"; "answer"]
      /\ orient (parsed SquareExamples.visit_rows_template)
           (frame_of SquareExamples.by_question_raw)
         = Ok (frame_of SquareExamples.by_question_raw,
               Some (PList [PStr "Visit 1"; PStr "Visit 2"]),
               Some (PList [PStr "note"; PStr "answer"])))
  /\ (exists option_lists ft og col,
        py_index (PList [PStr "string"; PStr "radio"]) 1 = Ok ft
        /\ py_getitem (parsed SquareExamples.visit_rows_template) "optionLists"
           = Ok option_lists
        /\ py_index option_lists 1 = Ok og
        /\ [[PStr "a"; PStr "b"]; [PStr "Yes"; PStr "No"]] !! 1%nat = Some col
        /\ map_result (interpret (study false) (grid_object "grid" ft og))
             (column (frame_of SquareExamples.by_question_raw) 1)
           = Ok col).
Proof.
  assert (Hvisits : share_first_token ["Visit 1"; "Visit 2"]).
  { exists "Visit".
    apply List.Forall_cons; [|apply List.Forall_cons; [|apply List.Forall_nil]];
      (split; [simpl; intuition discriminate | right; eexists; reflexivity]). }
  assert (Hnames : ~ share_first_token ["note"; "answer"]).
  { intros H.
    apply (all_same_first_tokens ["note"; "answer"] ["note"; "answer"] eq_refl) in H.
    discriminate H. }
  split; [|split; [|split]].
  - destruct (grid_orientation (parsed tall_template)
                (PList [PStr "string"; PStr "radio"; PStr "string"])
                (PList [PStr "note"; PStr "answer"; PStr "remark"])
                (PList [PStr " first"; PStr "second "])
                3 (frame_of tall_raw) eq_refl eq_refl eq_refl eq_refl) as [H _].
    destruct H as [_ [Hturn Hwidth]]; [discriminate|].
    split; [apply Hturn; discriminate | apply Hwidth; left; reflexivity].
  - destruct (grid_orientation (parsed SquareExamples.visit_columns_template)
                (PList [PStr "string"; PStr "radio"])
                (PList [PStr "note"; PStr "answer"])
                (PList [PStr "Visit 1"; PStr "Visit 2"])
                2 (frame_of SquareExamples.by_visit_raw)
                eq_refl eq_refl eq_refl eq_refl) as [_ [H _]].
    destruct (H eq_refl ["Visit 1"; "Visit 2"] ["note"; "answer"] eq_refl eq_refl)
      as [Hturn [_ Hwidth]].
    split; [exact Hvisits | split; [exact (Hturn Hvisits) | exact (Hwidth eq_refl)]].
  - destruct (grid_orientation (parsed SquareExamples.visit_rows_template)
                (PList [PStr "string"; PStr "radio"])
                (PList [PStr "Visit 1"; PStr "Visit 2"])
                (PList [PStr "note"; PStr "answer"])
                2 (frame_of SquareExamples.by_question_raw)
                eq_refl eq_refl eq_refl eq_refl) as [_ [H _]].
    destruct (H eq_refl ["note"; "answer"] ["Visit 1"; "Visit 2"] eq_refl eq_refl)
      as [_ [Hkeep _]].
    split; [exact Hnames | exact (Hkeep Hnames Hvisits)].
  - destruct (grid_orientation (parsed SquareExamples.visit_rows_template)
                (PList [PStr "string"; PStr "radio"])
                (PList [PStr "Visit 1"; PStr "Visit 2"])
                (PList [PStr "note"; PStr "answer"])
                2 (frame_of SquareExamples.by_question_raw)
                eq_refl eq_refl eq_refl eq_refl) as [_ [_ H]].
    destruct (H SquareExamples.visit_rows_grid (study false)
                [[PStr "a"; PStr "b"]; [PStr "Yes"; PStr "No"]] eq_refl) as [_ Hcells].
    apply (Hcells 1%nat). simpl. lia.
Defined.

(** C8 fails as stated, in three ways.  One row of two cells and three
    field types: the table is transposed to a single column, no orientation
    has three, and the reconstruction succeeds with that one-column table.
    A square table whose column names start with the same word followed by
    a tab: the names share their first whitespace-delimited token, yet the
    table is not transposed and the result is "Error", the names being
    split at spaces only.  A square table whose row names share their first
    token and whose column names do not: the table is kept as it is, not
    transposed. *)
Lemma grid_orientation_counterexample :
  ((fts <- py_getitem (parsed narrow_template) "fieldTypes" ;; py_len fts) = Ok 3%nat
   /\ shape0 (frame_of narrow_raw) = 1%nat
   /\ shape1 (frame_of narrow_raw) = 2%nat
   /\ orient (parsed narrow_template) (frame_of narrow_raw)
      = Ok (T (frame_of narrow_raw),
            Some (PList [PStr "c1"; PStr "c2"]), Some (PList [PStr "r1"]))
   /\ ~ width_matches 3 (orient (parsed narrow_template) (frame_of narrow_raw))
   /\ __interpret narrow_grid bare_study
      = Ok (VTable {| tbl_columns := ["r1"];
                      tbl_index := ["c1"; "c2"];
                      tbl_rows := [[PStr "a"]; [PStr "b"]] |}))
  /\ (shape0 (frame_of SquareExamples.by_visit_raw)
      = shape1 (frame_of SquareExamples.by_visit_raw)
      /\ py_getitem (parsed SquareExamples.tabbed_columns_template) "columnNames"
         = Ok (PList (map PStr SquareExamples.tabbed_names))
      /\ share_first_whitespace_token SquareExamples.tabbed_names
      /\ orient (parsed SquareExamples.tabbed_columns_template)
           (frame_of SquareExamples.by_visit_raw)
         = Ok (frame_of SquareExamples.by_visit_raw, None, None)
      /\ ~ transposed (frame_of SquareExamples.by_visit_raw)
             (orient (parsed SquareExamples.tabbed_columns_template)
                (frame_of SquareExamples.by_visit_raw))
      /\ __interpret SquareExamples.tabbed_columns_grid (study false)
         = Ok (VObj (PStr "Error")))
  /\ (shape0 (frame_of SquareExamples.by_question_raw)
      = shape1 (frame_of SquareExamples.by_question_raw)
      /\ py_getitem (parsed SquareExamples.visit_rows_template) "rowNames"
         = Ok (PList (map PStr ["Visit 1"; "Visit 2"]))
      /\ share_first_whitespace_token ["Visit 1"; "Visit 2"]
      /\ ~ share_first_whitespace_token ["note"; "answer"]
      /\ share_first_token ["Visit 1"; "Visit 2"]
      /\ orient (parsed SquareExamples.visit_rows_template)
           (frame_of SquareExamples.by_question_raw)
         = Ok (frame_of SquareExamples.by_question_raw,
               Some (PList [PStr "Visit 1"; PStr "Visit 2"]),
               Some (PList [PStr "note"; PStr "answer"]))
      /\ ~ transposed (frame_of SquareExamples.by_question_raw)
             (orient (parsed SquareExamples.visit_rows_template)
                (frame_of SquareExamples.by_question_raw))
      /\ __interpret SquareExamples.visit_rows_grid (study false)
         = Ok (VTable {| tbl_columns := ["note"; "answer"];
                         tbl_index := ["Visit 1"; "Visit 2"];
                         tbl_rows := [[PStr "a"; PStr "Yes"];
                                      [PStr "b"; PStr "No"]] |})).
Proof.
  assert (Hnarrow : orient (parsed narrow_template) (frame_of narrow_raw)
                    = Ok (T (frame_of narrow_raw),
                          Some (PList [PStr "c1"; PStr "c2"]), Some (PList [PStr "r1"])))
    by reflexivity.
  assert (Htabbed : orient (parsed SquareExamples.tabbed_columns_template)
                      (frame_of SquareExamples.by_visit_raw)
                    = Ok (frame_of SquareExamples.by_visit_raw, None, None))
    by reflexivity.
  assert (Hrows : orient (parsed SquareExamples.visit_rows_template)
                    (frame_of SquareExamples.by_question_raw)
                  = Ok (frame_of SquareExamples.by_question_raw,
                        Some (PList [PStr "Visit 1"; PStr "Visit 2"]),
                        Some (PList [PStr "note"; PStr "answer"])))
    by reflexivity.
  split; [|split].
  - repeat split; try reflexivity.
    intros [df [rn [cn [H Hw]]]]. rewrite Hnarrow in H. injection H as <- _ _.
    discriminate Hw.
  - split; [reflexivity|]. split; [reflexivity|].
    split; [exists "Visit"; repeat constructor|].
    split; [exact Htabbed|]. split; [|reflexivity].
    intros [rn [cn H]]. rewrite Htabbed in H.
    apply (f_equal (fun oriented => match oriented with
                                    | Ok (df, _, _) => iloc df 0 1
                                    | Raise _ => PNone
                                    end)) in H.
    discriminate H.
  - split; [reflexivity|]. split; [reflexivity|].
    split; [exists "Visit"; repeat constructor|].
    split.
    { intros [token H]. pose proof (Forall_inv H) as H1.
      pose proof (Forall_inv (Forall_inv_tail H)) as H2.
      vm_compute in H1, H2. rewrite <- H1 in H2. discriminate H2. }
    split.
    { exists "Visit".
      apply List.Forall_cons; [|apply List.Forall_cons; [|apply List.Forall_nil]];
        (split; [simpl; intuition discriminate | right; eexists; reflexivity]). }
    split; [exact Hrows|]. split; [|reflexivity].
    intros [rn [cn H]]. rewrite Hrows in H.
    apply (f_equal (fun oriented => match oriented with
                                    | Ok (df, _, _) => iloc df 0 1
                                    | Raise _ => PNone
                                    end)) in H.
    discriminate H.
Qed.

(** A token that is no option: both dispatches raise, and the method's
    message is the function's followed by the name of the field. *)
Lemma method_matches_function_witness :
  same_outcome (point "checkbox" "1;3")
    (__interpret (point "checkbox" "1;3") (study false))
    (interpret (study false) (instance_of (point "checkbox" "1;3"))
       (raw_value (point "checkbox" "1;3"))).
Proof.
  apply (method_matches_function (point "checkbox" "1;3") (study false)). discriminate.
Defined.

(** C9 fails as stated: for a grid field the method returns NaN or a table
    where the module-level function returns "Error". *)
Lemma grid_dispatch_counterexample :
  __interpret empty_grid (study false) = Ok (VObj np_nan)
  /\ interpret (study false) (instance_of empty_grid) (raw_value empty_grid)
     = Ok (PStr "Error")
  /\ ~ same_outcome empty_grid (__interpret empty_grid (study false))
         (interpret (study false) (instance_of empty_grid) (raw_value empty_grid))
  /\ interpret (study false) (instance_of wide_grid) (raw_value wide_grid)
     = Ok (PStr "Error")
  /\ ~ same_outcome wide_grid (__interpret wide_grid (study false))
         (interpret (study false) (instance_of wide_grid) (raw_value wide_grid)).
Proof.
  repeat split; try reflexivity.
  - intros H. discriminate H.
  - intros H. discriminate H.
Qed.

Lemma empty_optiongroup_skips_resolver_witness :
  __interpret (point "checkbox" "") (mk_study cfg (fun _ => None) false)
  = Ok (VObj (PStr "")).
Proof.
  exact (proj1 (empty_optiongroup_skips_resolver (study false) (point "checkbox" "")
                  "checkbox" (or_introl eq_refl) eq_refl eq_refl (fun _ => None))).
Defined.

End Worked.

(** * Further properties of the module *)

(** ** Dispatch *)

Lemma py_in_strs_false (v : pyobj) (l : list string) :
  (forall tag, In tag l -> v <> PStr tag) -> py_in_strs v l = false.
Proof.
  intros H. unfold py_in_strs. apply not_true_is_false. intros Hex.
  apply existsb_exists in Hex as [tag [Hin Heq]].
  apply py_eq_str_true in Heq. exact (H tag Hin Heq).
Qed.

Section Dispatch.
Context {rt : PyRuntime}.

(** A string, textarea, upload or calculation field returns its raw value
    as it is, whatever it is: there is no missing handling, and nothing is
    parsed. *)
Theorem text_fields_unchanged (study : CastorStudy) (self : CastorDataPoint) (tag : string) :
  In tag text_tags ->
  field_type (instance_of self) = PStr tag ->
  __interpret self study = Ok (VObj (raw_value self))
  /\ interpret study (instance_of self) (raw_value self) = Ok (raw_value self).
Proof.
  intros Htag Hft. unfold text_tags in Htag. simpl in Htag.
  split; tag_cases Htag; unfold __interpret, interpret; rewrite Hft; reflexivity.
Qed.

Lemma function_unknown_type (study : CastorStudy) (fld : CastorField) (raw : pyobj) :
  (forall tag, In tag known_tags -> tag <> "grid" -> field_type fld <> PStr tag) ->
  interpret study fld raw = Ok (PStr "Error").
Proof.
  intros H. unfold interpret.
  assert (H' : forall tag, In tag known_tags /\ tag <> "grid" ->
                 field_type fld <> PStr tag)
    by (intros tag [? ?]; auto).
  clear H. unfold known_tags in H'.
  repeat match goal with
         | |- context [py_in_strs ?v ?l] =>
             rewrite (py_in_strs_false v l)
               by (let t := fresh in let Ht := fresh in
                   intros t Ht; apply H'; split;
                   [simpl in Ht |- *; intuition congruence
                   | simpl in Ht; intuition (subst; discriminate)])
         end.
  reflexivity.
Qed.

Lemma function_scalar_raises (study : CastorStudy) (fld : CastorField) (tag : string)
    (raw : pyobj) :
  In tag missing_tags -> field_type fld = PStr tag -> scalar raw ->
  interpret study fld raw = Raise TypeError.
Proof.
  intros Htag Hft Hsc. unfold missing_tags in Htag. simpl in Htag.
  tag_cases Htag; unfold interpret; rewrite Hft;
    destruct raw; try contradiction; reflexivity.
Qed.

(** A field type that is none of the sixteen tags of the dispatch, be it
    another string or not a string at all, gives the string "Error" for
    every raw value, without raising; the module-level dispatch does the
    same and has no branch for "grid" either. *)
Theorem unknown_type_is_error (study : CastorStudy) (self : CastorDataPoint) :
  (forall tag, In tag known_tags -> tag <> "grid" ->
     field_type (instance_of self) <> PStr tag) ->
  interpret study (instance_of self) (raw_value self) = Ok (PStr "Error")
  /\ (field_type (instance_of self) <> PStr "grid" ->
      __interpret self study = Ok (VObj (PStr "Error"))).
Proof.
  intros H. split; [now apply function_unknown_type|].
  intros Hgrid. unfold __interpret.
  assert (H' : forall tag, In tag known_tags ->
                 field_type (instance_of self) <> PStr tag).
  { intros tag Hin. destruct (String.eqb_spec tag "grid") as [->|Hne]; auto. }
  unfold known_tags in H'.
  repeat match goal with
         | |- context [py_in_strs ?v ?l] =>
             rewrite (py_in_strs_false v l)
               by (let t := fresh in let Ht := fresh in
                   intros t Ht; apply H'; simpl in Ht |- *; intuition congruence)
         end.
  reflexivity.
Qed.

(** A raw value that is a number, a boolean or [None] makes every field
    type that handles user missings raise [TypeError], in the method and in
    the module-level function: the test for "Missing" needs a string. *)
Theorem scalar_raw_value_raises (study : CastorStudy) (self : CastorDataPoint)
    (tag : string) :
  In tag missing_tags ->
  field_type (instance_of self) = PStr tag ->
  scalar (raw_value self) ->
  __interpret self study = Raise TypeError
  /\ interpret study (instance_of self) (raw_value self) = Raise TypeError.
Proof.
  intros Htag Hft Hsc. unfold missing_tags in Htag. simpl in Htag.
  destruct self as [fid raw fld]. simpl in *.
  split; tag_cases Htag; unfold __interpret, interpret; simpl; rewrite Hft;
    destruct raw; try contradiction; reflexivity.
Qed.

End Dispatch.

(** ** Dates and times *)

Section RealValues.
Context {rt : PyRuntime}.

Lemma method_date_real (study : CastorStudy) (self : CastorDataPoint) (raw : string) :
  field_type (instance_of self) = PStr "date" ->
  raw_value self = PStr raw ->
  raw <> "" -> contains "Missing" raw = false ->
  __interpret self study
  = obj (match py_strptime (PStr raw) "%d-%m-%Y" with
         | Ok dt => Ok (PStr (period_strftime (Period_of dt FreqD)
                                (cfg_date (configuration study))))
         | Raise ValueError =>
             dt <- py_strptime (PStr raw) "%d-%m-%Y;%H:%M" ;;
             Ok (PStr (period_strftime (Period_of dt FreqS) "%d-%m-%Y;%H:%M"))
         | Raise e => Raise e
         end).
Proof.
  intros Hft Hraw Hne Hm. apply eqb_empty_false in Hne.
  unfold __interpret. rewrite Hft. cbn -[contains].
  unfold __interpret_date. rewrite Hraw. cbn -[contains]. rewrite Hne, Hm. reflexivity.
Qed.

(** A date field with a real value: a value in the format %d-%m-%Y is
    reformatted with the date format of the study; a value that is not, but
    is in the format %d-%m-%Y;%H:%M, is written back in that very format,
    whatever the date format of the study; any other value raises
    [ValueError]. *)
Theorem date_real_value (study : CastorStudy) (self : CastorDataPoint) (raw : string) :
  field_type (instance_of self) = PStr "date" ->
  raw_value self = PStr raw ->
  raw <> "" -> contains "Missing" raw = false ->
  (forall dt, strptime raw "%d-%m-%Y" = Some dt ->
     __interpret self study
     = Ok (VObj (PStr (period_strftime (Period_of dt FreqD)
                         (cfg_date (configuration study))))))
  /\ (strptime raw "%d-%m-%Y" = None ->
      (forall dt, strptime raw "%d-%m-%Y;%H:%M" = Some dt ->
         __interpret self study
         = Ok (VObj (PStr (period_strftime (Period_of dt FreqS) "%d-%m-%Y;%H:%M"))))
      /\ (strptime raw "%d-%m-%Y;%H:%M" = None ->
          __interpret self study = Raise ValueError)).
Proof.
  intros Hft Hraw Hne Hm.
  rewrite (method_date_real study self raw) by assumption. cbn.
  split; [|intros Hfirst; split].
  - intros dt ->. reflexivity.
  - intros dt Hdt. rewrite Hfirst, Hdt. reflexivity.
  - intros Hn. rewrite Hfirst, Hn. reflexivity.
Qed.

Lemma method_datetime_real (study : CastorStudy) (self : CastorDataPoint) (raw : string) :
  field_type (instance_of self) = PStr "datetime" ->
  raw_value self = PStr raw ->
  raw <> "" -> contains "Missing" raw = false ->
  __interpret self study
  = obj (match py_strptime (PStr raw) "%d-%m-%Y;%H:%M" with
         | Ok dt => Ok (PStr (period_strftime (Period_of dt FreqS)
                                (cfg_datetime (configuration study))))
         | Raise ValueError =>
             dt <- py_strptime (PStr raw) "%d-%m-%Y" ;;
             Ok (PStr (period_strftime (Period_of dt FreqS)
                         (cfg_datetime (configuration study))))
         | Raise e => Raise e
         end).
Proof.
  intros Hft Hraw Hne Hm. apply eqb_empty_false in Hne.
  unfold __interpret. rewrite Hft. cbn -[contains].
  unfold __interpret_datetime. rewrite Hraw. cbn -[contains]. rewrite Hne, Hm. reflexivity.
Qed.

(** A datetime field with a real value: the value is read in the format
    %d-%m-%Y;%H:%M or else in the format %d-%m-%Y, and in both cases
    written, to the second, with the datetime format of the study; a value
    in neither format raises [ValueError]. *)
Theorem datetime_real_value (study : CastorStudy) (self : CastorDataPoint) (raw : string) :
  field_type (instance_of self) = PStr "datetime" ->
  raw_value self = PStr raw ->
  raw <> "" -> contains "Missing" raw = false ->
  (forall dt, strptime raw "%d-%m-%Y;%H:%M" = Some dt ->
     __interpret self study
     = Ok (VObj (PStr (period_strftime (Period_of dt FreqS)
                         (cfg_datetime (configuration study))))))
  /\ (strptime raw "%d-%m-%Y;%H:%M" = None ->
      (forall dt, strptime raw "%d-%m-%Y" = Some dt ->
         __interpret self study
         = Ok (VObj (PStr (period_strftime (Period_of dt FreqS)
                             (cfg_datetime (configuration study))))))
      /\ (strptime raw "%d-%m-%Y" = None ->
          __interpret self study = Raise ValueError)).
Proof.
  intros Hft Hraw Hne Hm.
  rewrite (method_datetime_real study self raw) by assumption. cbn.
  split; [|intros Hfirst; split].
  - intros dt ->. reflexivity.
  - intros dt Hdt. rewrite Hfirst, Hdt. reflexivity.
  - intros Hn. rewrite Hfirst, Hn. reflexivity.
Qed.

(** A time field with a real value: the value is read in the format %H:%M
    and written with the time format of the study; no other format is
    tried, and a value that is not in that format raises [ValueError]. *)
Theorem time_real_value (study : CastorStudy) (self : CastorDataPoint) (raw : string) :
  field_type (instance_of self) = PStr "time" ->
  raw_value self = PStr raw ->
  raw <> "" -> contains "Missing" raw = false ->
  (forall dt, strptime raw "%H:%M" = Some dt ->
     __interpret self study
     = Ok (VObj (PStr (time_strftime (time_of dt) (cfg_time (configuration study))))))
  /\ (strptime raw "%H:%M" = None -> __interpret self study = Raise ValueError).
Proof.
  intros Hft Hraw Hne Hm. apply eqb_empty_false in Hne.
  unfold __interpret. rewrite Hft. cbn -[contains].
  unfold __interpret_time. rewrite Hraw. cbn -[contains]. rewrite Hne, Hm. cbn.
  split.
  - intros dt ->. reflexivity.
  - intros ->. reflexivity.
Qed.

End RealValues.

(** ** Number-date values *)

Lemma length_split (sep : ascii) (s : string) :
  length (split sep s) = S (count_char sep s).
Proof.
  induction s as [|c s IH]; [reflexivity|].
  cbn [split count_char]. pose proof (split_not_nil sep s) as Hnil.
  destruct (Ascii.eqb c sep); cbn [length]; [now rewrite IH|].
  destruct (split sep s) as [|tok rest]; [contradiction|].
  cbn [length] in *. exact IH.
Qed.

Section NumberDateMore.
Context {rt : PyRuntime}.

(** A numberdate value that is not a missing one must hold exactly one ";":
    with none, or with more than one, interpretation raises [ValueError],
    even when the value is a number or a date. *)
Theorem numberdate_needs_one_separator (study : CastorStudy) (self : CastorDataPoint)
    (raw : string) :
  field_type (instance_of self) = PStr "numberdate" ->
  raw_value self = PStr raw ->
  raw <> "" -> contains "Missing" raw = false ->
  count_char ";" raw <> 1%nat ->
  __interpret self study = Raise ValueError
  /\ interpret study (instance_of self) (raw_value self) = Raise ValueError.
Proof.
  intros Hft Hraw Hne Hm Hcount.
  assert (Hlen : length (split ";" raw) <> 2%nat) by (rewrite length_split; lia).
  split.
  - rewrite (method_numberdate_real self study raw) by assumption.
    destruct (split ";" raw) as [|a [|b [|c l]]]; try reflexivity.
    now contradiction Hlen.
  - apply eqb_empty_false in Hne.
    unfold interpret. rewrite Hft, Hraw. cbn -[contains split].
    unfold interpret_numberdate. cbn -[contains split]. rewrite Hne, Hm.
    cbn -[split].
    destruct (split ";" raw) as [|a [|b [|c l]]]; try reflexivity.
    now contradiction Hlen.
Qed.

(** For the empty raw value and for a raw value with "Missing", what a
    numberdate field shows is the pair of what a numeric field and a date
    field show for the same raw value. *)
Theorem numberdate_pairs_numeric_and_date (study : CastorStudy) (fid name raw : string)
    (option_group template : pyobj) :
  raw = "" \/ contains "Missing" raw = true ->
  exists number date : pyobj,
    __interpret (mk_data_point fid (PStr raw)
                   (mk_field name (PStr "numeric") option_group template)) study
    = Ok (VObj number)
    /\ __interpret (mk_data_point fid (PStr raw)
                      (mk_field name (PStr "date") option_group template)) study
       = Ok (VObj date)
    /\ __interpret (mk_data_point fid (PStr raw)
                      (mk_field name (PStr "numberdate") option_group template)) study
       = Ok (VObj (PList [number; date])).
Proof.
  intros [-> | Hm].
  - exists np_nan, np_nan. repeat split.
  - rewrite (method_missing study _ "numeric" raw); [|simpl; tauto|reflexivity..|assumption].
    rewrite (method_missing study _ "date" raw); [|simpl; tauto|reflexivity..|assumption].
    rewrite (method_missing study _ "numberdate" raw);
      [|simpl; tauto|reflexivity..|assumption].
    destruct (first_reason raw) as [r|]; eexists; eexists; repeat split.
Qed.

End NumberDateMore.

(** ** Options with the same value *)

Section LastOption.
Context {rt : PyRuntime}.

(** When several options of a group carry the same value, the display name
    of the last of them is the one used: with pass_keyerrors set every
    token is replaced by the name of the last option whose value it is, or
    kept when there is none; without it the result joins those names when
    every token has one. *)
Theorem optiongroup_last_option_wins (study : CastorStudy) (self : CastorDataPoint)
    (tag raw : string) (og : optiongroup) :
  In tag optiongroup_tags ->
  field_type (instance_of self) = PStr tag ->
  raw_value self = PStr raw ->
  raw <> "" -> contains "Missing" raw = false ->
  get_single_optiongroup study (field_option_group (instance_of self)) = Some og ->
  (pass_keyerrors study = true ->
   __interpret self study
   = Ok (VObj (PStr (join "|"
          (map (fun token => default token (last_name (og_options og) token))
             (split ";" raw))))))
  /\ (pass_keyerrors study = false ->
      forall names,
        Forall2 (fun token name => last_name (og_options og) token = Some name)
          (split ";" raw) names ->
        __interpret self study = Ok (VObj (PStr (join "|" names)))).
Proof.
  intros Htag Hft Hraw Hne Hm Hog.
  rewrite (method_optiongroup_real study self tag raw) by assumption.
  unfold __interpret_optiongroup_helper. rewrite Hog, Hraw. cbn -[split join].
  destruct (decide (split ";" raw = [""])) as [He|_].
  { now apply split_single_empty in He. }
  split.
  - intros ->. cbn -[split join]. do 4 f_equal.
    apply map_ext. intros token. now rewrite option_link_lookup.
  - intros -> names Hnames.
    rewrite (map_result_all _ _ names); [reflexivity|].
    eapply Forall2_impl; [exact Hnames|]. intros token name Hl.
    rewrite option_link_lookup. unfold last_name in Hl. now rewrite Hl.
Qed.

End LastOption.

(** ** More on grids *)

Lemma lstrip_head (s : string) :
  lstrip s = "" \/ exists c t, lstrip s = String c t /\ is_space c = false.
Proof.
  induction s as [|c s IH]; [now left|].
  cbn [lstrip]. destruct (is_space c) eqn:Hc; [exact IH|].
  right. eauto.
Qed.

Lemma rstrip_cons (c : ascii) (t : string) :
  is_space c = false -> rstrip (String c t) = String c (rstrip t).
Proof. intros Hc. cbn [rstrip]. rewrite Hc. now destruct (rstrip t). Qed.

Lemma rstrip_idempotent (s : string) : rstrip (rstrip s) = rstrip s.
Proof.
  induction s as [|c s IH]; [reflexivity|].
  cbn [rstrip]. destruct (rstrip s) as [|d t] eqn:Hs.
  - destruct (is_space c) eqn:Hc; [reflexivity|].
    cbn [rstrip]. now rewrite Hc.
  - cbn [rstrip]. cbn [rstrip] in IH. now rewrite IH.
Qed.

(** Stripping removes all there is to strip. *)
Lemma strip_idempotent (s : string) : strip (strip s) = strip s.
Proof.
  unfold strip. destruct (lstrip_head s) as [-> | [c [t [-> Hc]]]]; [reflexivity|].
  rewrite (rstrip_cons c t Hc). cbn [lstrip]. rewrite Hc.
  rewrite <- (rstrip_cons c t Hc). apply rstrip_idempotent.
Qed.

Lemma T_involutive (df : frame) : T (T df) = df.
Proof. now destruct df. Qed.

Lemma column_length (df : frame) (j : nat) : length (column df j) = shape0 df.
Proof. unfold column. now rewrite length_map, length_seq. Qed.

Lemma map_result_const {A B} (f : A -> result B) (c : B) (l : list A) :
  (forall x, In x l -> f x = Ok c) -> map_result f l = Ok (repeat c (length l)).
Proof.
  induction l as [|x l IH]; intros H; [reflexivity|].
  simpl. rewrite (H x) by now left. cbn [bind].
  rewrite IH by (intros y Hy; apply H; now right). reflexivity.
Qed.

Section GridMore.
Context {rt : PyRuntime}.

(** The method returns what the function returns, for a field that is not
    a grid. *)
Lemma method_of_function_ok (study : CastorStudy) (self : CastorDataPoint) (o : pyobj) :
  field_type (instance_of self) <> PStr "grid" ->
  interpret study (instance_of self) (raw_value self) = Ok o ->
  __interpret self study = Ok (VObj o).
Proof.
  intros Hgrid. unfold __interpret, interpret.
  destruct (py_in_strs (field_type (instance_of self)) ["checkbox"; "dropdown"; "radio"]).
  { intros H. pose proof (optiongroup_same_outcome self study) as Hs.
    rewrite H in Hs. unfold same_outcome in Hs.
    destruct (obj (__interpret_optiongroup self study)); [now subst | contradiction]. }
  destruct (py_in_strs (field_type (instance_of self)) ["numeric"; "slider"; "randomization"]).
  { intros H. change (obj (interpret_numeric (raw_value self)) = Ok (VObj o)).
    now rewrite H. }
  destruct (py_in_strs (field_type (instance_of self)) ["year"]).
  { intros H. change (obj (interpret_year (raw_value self)) = Ok (VObj o)).
    now rewrite H. }
  destruct (py_in_strs (field_type (instance_of self))
              ["string"; "textarea"; "upload"; "calculation"]).
  { intros H. now injection H as <-. }
  destruct (py_in_strs (field_type (instance_of self)) ["datetime"]).
  { intros H.
    change (obj (interpret_datetime (cfg_datetime (configuration study)) (raw_value self))
            = Ok (VObj o)).
    now rewrite H. }
  destruct (py_in_strs (field_type (instance_of self)) ["date"]).
  { intros H.
    change (obj (interpret_date (cfg_date (configuration study)) (raw_value self))
            = Ok (VObj o)).
    now rewrite H. }
  destruct (py_in_strs (field_type (instance_of self)) ["time"]).
  { intros H.
    change (obj (interpret_time (cfg_time (configuration study)) (raw_value self))
            = Ok (VObj o)).
    now rewrite H. }
  destruct (py_in_strs (field_type (instance_of self)) ["numberdate"]).
  { intros H.
    change (obj (interpret_numberdate (cfg_date (configuration study)) (raw_value self))
            = Ok (VObj o)).
    now rewrite H. }
  destruct (py_in_strs (field_type (instance_of self)) ["grid"]) eqn:Hg.
  { exfalso. apply Hgrid. unfold py_in_strs in Hg. simpl in Hg.
    rewrite orb_false_r in Hg. now apply py_eq_str_true. }
  intros H. now injection H as <-.
Qed.

Lemma interpret_column_lookups (self : CastorDataPoint) (study : CastorStudy)
    (tmpl : pyobj) (df : frame) (j : nat) (col : list pyobj) :
  interpret_column self study tmpl df j = Ok col ->
  exists field_types option_lists ft og,
    py_getitem tmpl "fieldTypes" = Ok field_types
    /\ py_index field_types j = Ok ft
    /\ py_getitem tmpl "optionLists" = Ok option_lists
    /\ py_index option_lists j = Ok og
    /\ map_result (interpret study (grid_object (field_name (instance_of self)) ft og))
         (column df j) = Ok col.
Proof.
  unfold interpret_column. intros H.
  apply bind_ok in H as [field_types [H1 H]]. apply bind_ok in H as [ft [H2 H]].
  apply bind_ok in H as [option_lists [H3 H]]. apply bind_ok in H as [og [H4 H]].
  exists field_types, option_lists, ft, og. auto.
Qed.

(** A grid column whose declared type is not one the module-level dispatch
    knows ("grid" included, or a JSON null) does not make the
    reconstruction fail: each of its cells becomes the string "Error". *)
Theorem unknown_column_type_cells (self : CastorDataPoint) (study : CastorStudy)
    (tmpl field_types option_lists ft og : pyobj) (df : frame) (j : nat) :
  py_getitem tmpl "fieldTypes" = Ok field_types -> py_index field_types j = Ok ft ->
  py_getitem tmpl "optionLists" = Ok option_lists -> py_index option_lists j = Ok og ->
  (forall tag, In tag known_tags -> tag <> "grid" -> ft <> PStr tag) ->
  interpret_column self study tmpl df j = Ok (repeat (PStr "Error") (shape0 df)).
Proof.
  intros Hfts Hft Hols Hog Hunknown. unfold interpret_column.
  rewrite Hfts; cbn [bind]. rewrite Hft; cbn [bind].
  rewrite Hols; cbn [bind]. rewrite Hog; cbn [bind].
  rewrite <- (column_length df j). apply map_result_const.
  intros cell _. now apply function_unknown_type.
Qed.

(** The cells of a grid column of a type other than "grid" are interpreted
    as data points of that type with the same raw value would be: what the
    column holds for a cell is what the method dispatch returns for the
    data point of the synthetic field and that cell. *)
Theorem grid_cells_as_data_points (self : CastorDataPoint) (study : CastorStudy)
    (tmpl : pyobj) (df : frame) (j : nat) (col : list pyobj) (fid : string) :
  interpret_column self study tmpl df j = Ok col ->
  exists field_types option_lists ft og,
    py_getitem tmpl "fieldTypes" = Ok field_types
    /\ py_index field_types j = Ok ft
    /\ py_getitem tmpl "optionLists" = Ok option_lists
    /\ py_index option_lists j = Ok og
    /\ (ft <> PStr "grid" ->
        Forall2 (fun cell v =>
                   __interpret
                     (mk_data_point fid cell
                        (grid_object (field_name (instance_of self)) ft og)) study
                   = Ok (VObj v))
          (column df j) col).
Proof.
  intros H. apply interpret_column_lookups in H
    as [field_types [option_lists [ft [og [H1 [H2 [H3 [H4 H]]]]]]]].
  exists field_types, option_lists, ft, og. repeat split; try assumption.
  intros Hgrid. apply map_result_ok in H.
  eapply Forall2_impl; [exact H|]. intros cell v Hv.
  now apply method_of_function_ok.
Qed.

(** A cell that is a JSON number, boolean or null, in a column of a type
    that handles user missings, makes the loop over the columns raise. *)
Theorem scalar_cell_fails_columns (self : CastorDataPoint) (study : CastorStudy)
    (tmpl field_types option_lists og : pyobj) (tag : string) (df : frame) (i j : nat) :
  (j < shape1 df)%nat -> (i < shape0 df)%nat ->
  py_getitem tmpl "fieldTypes" = Ok field_types ->
  py_index field_types j = Ok (PStr tag) ->
  py_getitem tmpl "optionLists" = Ok option_lists -> py_index option_lists j = Ok og ->
  In tag missing_tags ->
  scalar (iloc df i j) ->
  exists e, interpret_columns self study tmpl df = Raise e.
Proof.
  intros Hj Hi Hfts Hft Hols Hog Htag Hsc.
  eapply (failing_cell_fails_columns self study tmpl df i j); eauto.
  now apply (function_scalar_raises study _ tag).
Qed.

Lemma columns_raise_grid_error (self : CastorDataPoint) (study : CastorStudy)
    (tmpl : pyobj) (rows : list pyobj) (df df' : frame) (rn cn : option pyobj) (e : exn) :
  field_type (instance_of self) = PStr "grid" ->
  raw_value self <> PStr "" ->
  field_summary_template (instance_of self) <> PStr "" ->
  py_json_loads (field_summary_template (instance_of self)) = Ok tmpl ->
  grid_rows_of (raw_value self) = Ok rows ->
  pd_DataFrame rows = Ok df ->
  orient tmpl df = Ok (df', rn, cn) ->
  interpret_columns self study tmpl df' = Raise e ->
  __interpret self study = Ok (VObj (PStr "Error")).
Proof.
  intros Hft Hraw Htmpl H1 H2 H3 H4 H5.
  rewrite (method_grid self study Hft). unfold __interpret_grid.
  apply py_eq_str_false in Hraw, Htmpl. rewrite Hraw, Htmpl. cbn [orb].
  destruct (grid_failure_raises self study
              (cells_fail self study tmpl rows df df' rn cn e H1 H2 H3 H4 H5)) as [e' ->].
  reflexivity.
Qed.

(** When the template holds fewer field types, or fewer option lists, than
    the oriented table has columns, the grid is "Error". *)
Theorem too_few_template_entries (self : CastorDataPoint) (study : CastorStudy)
    (tmpl : pyobj) (rows : list pyobj) (df df' : frame) (rn cn : option pyobj)
    (key : string) (entries : list pyobj) :
  field_type (instance_of self) = PStr "grid" ->
  raw_value self <> PStr "" ->
  field_summary_template (instance_of self) <> PStr "" ->
  py_json_loads (field_summary_template (instance_of self)) = Ok tmpl ->
  grid_rows_of (raw_value self) = Ok rows ->
  pd_DataFrame rows = Ok df ->
  orient tmpl df = Ok (df', rn, cn) ->
  key = "fieldTypes" \/ key = "optionLists" ->
  py_getitem tmpl key = Ok (PList entries) ->
  (length entries < shape1 df')%nat ->
  __interpret self study = Ok (VObj (PStr "Error")).
Proof.
  intros Hft Hraw Htmpl H1 H2 H3 H4 Hkey Hentries Hlen.
  assert (Hcol : exists e, interpret_column self study tmpl df' (length entries) = Raise e).
  { assert (Hidx : py_index (PList entries) (length entries) = Raise IndexError).
    { cbn. now rewrite (proj2 (nth_error_None entries (length entries))) by lia. }
    unfold interpret_column. destruct Hkey as [-> | ->].
    - rewrite Hentries; cbn [bind]. rewrite Hidx. cbn. eauto.
    - destruct (py_getitem tmpl "fieldTypes") as [fts|e]; cbn [bind]; [|eauto].
      destruct (py_index fts (length entries)) as [ft|e]; cbn [bind]; [|eauto].
      rewrite Hentries; cbn [bind]. rewrite Hidx. cbn. eauto. }
  destruct Hcol as [e Hcol].
  destruct (map_result_raises (interpret_column self study tmpl df')
              (seq 0 (shape1 df')) (length entries) e) as [e' He'];
    [apply in_seq; lia | exact Hcol |].
  now apply (columns_raise_grid_error self study tmpl rows df df' rn cn e').
Qed.

(** A table that is not square and its transpose, under templates that
    differ only in that the row names and the column names are exchanged,
    are oriented to the same table with the same names: whether the raw
    value lists the grid by rows or by columns makes no difference. *)
Theorem orientation_independent_of_storage (tmpl tmpl' field_types rn cn : pyobj)
    (n : nat) (df : frame) :
  py_getitem tmpl "fieldTypes" = Ok field_types ->
  py_getitem tmpl' "fieldTypes" = Ok field_types ->
  py_len field_types = Ok n ->
  py_getitem tmpl "rowNames" = Ok rn -> py_getitem tmpl "columnNames" = Ok cn ->
  py_getitem tmpl' "rowNames" = Ok cn -> py_getitem tmpl' "columnNames" = Ok rn ->
  shape0 df <> shape1 df ->
  n = shape1 df ->
  orient tmpl df = Ok (df, Some rn, Some cn)
  /\ orient tmpl' (T df) = orient tmpl df.
Proof.
  intros Hfts Hfts' Hlen Hrn Hcn Hrn' Hcn' Hne Hn.
  assert (Ho : orient tmpl df = Ok (df, Some rn, Some cn)).
  { unfold orient. apply Nat.eqb_neq in Hne. rewrite Hne, Hfts; cbn [negb bind].
    rewrite Hlen; cbn [bind]. apply Nat.eqb_eq in Hn. now rewrite Hn, Hrn, Hcn. }
  split; [exact Ho|]. rewrite Ho. unfold orient. cbn [shape0 shape1 T].
  assert (Hne' : (shape1 df =? shape0 df)%nat = false) by (apply Nat.eqb_neq; congruence).
  rewrite Hne', Hfts'; cbn [negb bind]. rewrite Hlen; cbn [bind].
  assert (Hn' : (n =? shape0 df)%nat = false) by (apply Nat.eqb_neq; congruence).
  rewrite Hn', Hrn', Hcn'. cbn [bind].
  change (mk_frame (shape0 df) (shape1 df) (fun i j => iloc df i j)) with (T (T df)).
  now rewrite T_involutive.
Qed.

(** A table returned for a grid is rectangular and fully labelled: it has
    one row label per row and one column label per cell of each row, and no
    label starts or ends with whitespace. *)
Theorem grid_table_well_formed (self : CastorDataPoint) (study : CastorStudy) (t : table) :
  field_type (instance_of self) = PStr "grid" ->
  __interpret self study = Ok (VTable t) ->
  length (tbl_rows t) = length (tbl_index t)
  /\ Forall (fun r => length r = length (tbl_columns t)) (tbl_rows t)
  /\ Forall (fun label => strip label = label) (tbl_columns t ++ tbl_index t).
Proof.
  intros Hft. rewrite (method_grid self study Hft). unfold __interpret_grid.
  destruct (py_eq_str (raw_value self) ""
            || py_eq_str (field_summary_template (instance_of self)) "");
    [discriminate|].
  destruct (grid_try self study) as [t'|e] eqn:Htry; [|discriminate].
  intros H. injection H as ->. unfold grid_try in Htry.
  apply bind_ok in Htry as [tmpl [_ Htry]]. apply bind_ok in Htry as [rows [_ Htry]].
  apply bind_ok in Htry as [df [_ Htry]].
  apply bind_ok in Htry as [[[df' rn] cn] [_ Htry]].
  apply bind_ok in Htry as [cols [_ Htry]]. unfold assemble in Htry.
  apply bind_ok in Htry as [gdf [_ Htry]].
  apply bind_ok in Htry as [clabels [Hc Htry]].
  destruct (length clabels =? shape1 (T gdf))%nat eqn:Hcl; [|discriminate].
  cbn [negb] in Htry. apply bind_ok in Htry as [rlabels [Hr Htry]].
  destruct (length rlabels =? shape0 (T gdf))%nat eqn:Hrl; [|discriminate].
  cbn [negb] in Htry. injection Htry as <-. cbn [tbl_rows tbl_index tbl_columns].
  apply Nat.eqb_eq in Hcl, Hrl.
  assert (Hstripped : forall names labels,
            stripped_names names = Ok labels ->
            Forall (fun label => strip label = label) labels).
  { intros names labels Hs. unfold stripped_names in Hs.
    apply bind_ok in Hs as [v [_ Hs]]. apply bind_ok in Hs as [l [_ Hs]].
    apply map_result_ok in Hs. clear - Hs.
    induction Hs as [|x y l l' Hxy _ IH]; constructor; [|exact IH].
    destruct x; try discriminate Hxy. injection Hxy as <-. apply strip_idempotent. }
  split; [|split].
  - now rewrite length_map, length_seq.
  - apply List.Forall_forall. intros r Hr'. apply in_map_iff in Hr' as [i [<- _]].
    unfold row. now rewrite length_map, length_seq.
  - apply Forall_app. split; eauto.
Qed.

End GridMore.

(** ** The constructor and the standard operators *)

Section Constructor.
Context {rt : PyRuntime}.

Lemma grid_method_returns (self : CastorDataPoint) (study : CastorStudy) :
  field_type (instance_of self) = PStr "grid" ->
  exists v, __interpret self study = Ok v.
Proof.
  intros Hft. rewrite (method_grid self study Hft). unfold __interpret_grid.
  destruct (py_eq_str (raw_value self) ""
            || py_eq_str (field_summary_template (instance_of self)) ""); [eauto|].
  destruct (grid_try self study); eauto.
Qed.

Lemma init_ok (fid : string) (raw : pyobj) (study : StudyWithFields) (filled : pyobj)
    (o : DataPointObject) :
  __init__ fid raw study filled = Ok o ->
  exists fld,
    get_single_field study fid = Some fld
    /\ attrs o = mk_data_point fid raw fld
    /\ form_instance o = None
    /\ __interpret (attrs o) (study_of study) = Ok (value_of o).
Proof.
  unfold __init__, find_field.
  destruct (get_single_field study fid) as [fld|]; [|discriminate].
  intros H. apply bind_ok in H as [f [_ H]]. apply bind_ok in H as [v [Hv H]].
  injection H as <-. exists fld. auto.
Qed.

(** The constructor checks the field first and the fill-in time second: a
    field id the study does not know raises the "does not exist in the
    study" failure whatever the raw value and the fill-in time are; and for
    a known field a fill-in time that is neither empty nor in the format
    %Y-%m-%d %H:%M:%S raises [ValueError] before the raw value is looked
    at. *)
Theorem constructor_failure_order (fid : string) (raw : pyobj) (study : StudyWithFields)
    (filled : pyobj) :
  (get_single_field study fid = None ->
   __init__ fid raw study filled
   = Raise (CastorException
              "The field that this is an instance of does not exist in the study!"))
  /\ (forall fld s,
        get_single_field study fid = Some fld ->
        filled = PStr s -> s <> "" ->
        strptime s "%Y-%m-%d %H:%M:%S" = None ->
        __init__ fid raw study filled = Raise ValueError).
Proof.
  unfold __init__, find_field. split.
  - intros ->. reflexivity.
  - intros fld s -> -> Hne Hnone. apply eqb_empty_false in Hne.
    cbn. rewrite Hne, Hnone. reflexivity.
Qed.

(** Constructing a data point of a grid field never fails on the grid: with
    a known field and a fill-in time that is empty or well formed, the
    constructor returns an object, not yet linked to a form instance,
    whose value is what the interpretation of the raw value gives. *)
Theorem grid_constructor_succeeds (fid : string) (raw : pyobj) (study : StudyWithFields)
    (filled : pyobj) (fld : CastorField) :
  get_single_field study fid = Some fld ->
  field_type fld = PStr "grid" ->
  (filled = PStr ""
   \/ exists s dt, filled = PStr s /\ strptime s "%Y-%m-%d %H:%M:%S" = Some dt) ->
  exists o,
    __init__ fid raw study filled = Ok o
    /\ attrs o = mk_data_point fid raw fld
    /\ form_instance o = None
    /\ __interpret (attrs o) (study_of study) = Ok (value_of o).
Proof.
  intros Hfld Hft Hfilled. unfold __init__, find_field. rewrite Hfld.
  destruct (grid_method_returns (mk_data_point fid raw fld) (study_of study) Hft)
    as [v Hv].
  destruct Hfilled as [-> | [s [dt [-> Hdt]]]].
  - cbn [py_eq_str String.eqb bind]. rewrite Hv. cbn [bind]. eexists. eauto.
  - cbn [py_eq_str]. destruct (String.eqb s "").
    + cbn [bind]. rewrite Hv. cbn [bind]. eexists. eauto.
    + cbn [py_strptime of_option bind]. rewrite Hdt. cbn [of_option bind].
      rewrite Hv. cbn [bind]. eexists. eauto.
Qed.

End Constructor.

Section Operators.
Context {rt : PyRuntime}.
Variable form_instance_eq : CastorFormInstance -> CastorFormInstance -> bool.
Variable form_instance_eq_none : CastorFormInstance -> bool.
Variable record_eq : CastorRecord -> CastorRecord -> bool.

(** The data point the constructor returns is not linked to a form
    instance, and until it is neither its representation nor its
    comparison with itself can be computed: both raise [AttributeError]. *)
Theorem fresh_data_point_unlinked (fid : string) (raw : pyobj) (study : StudyWithFields)
    (filled : pyobj) (o : DataPointObject) :
  __init__ fid raw study filled = Ok o ->
  form_instance o = None
  /\ __repr__ o = Raise AttributeError
  /\ __eq__ form_instance_eq form_instance_eq_none record_eq o (AnyDataPoint o)
     = Raise AttributeError.
Proof.
  intros H. apply init_ok in H as [fld [_ [_ [Hfi _]]]].
  split; [exact Hfi|]. unfold __repr__, __eq__, record_of. rewrite Hfi.
  rewrite String.eqb_refl. split; reflexivity.
Qed.

(** Equality of data points: it holds only between two data points of the
    same field id that are both linked, to form instances of equal records;
    and it is symmetric, in what it returns and in whether it raises,
    whenever the equality of form instances and that of records are. *)
Theorem equality_of_data_points (self other : DataPointObject) :
  (forall x y, form_instance_eq x y = form_instance_eq y x) ->
  (forall r r', record_eq r r' = record_eq r' r) ->
  __eq__ form_instance_eq form_instance_eq_none record_eq self (AnyDataPoint other)
  = __eq__ form_instance_eq form_instance_eq_none record_eq other (AnyDataPoint self)
  /\ (__eq__ form_instance_eq form_instance_eq_none record_eq self (AnyDataPoint other)
      = Ok (EqBool true) ->
      field_id (attrs self) = field_id (attrs other)
      /\ exists fi fi',
           form_instance self = Some fi /\ form_instance other = Some fi'
           /\ record_eq (record fi) (record fi') = true).
Proof.
  intros Hform Hrecord. unfold __eq__, record_of. split.
  - rewrite (String.eqb_sym (field_id (attrs other))).
    destruct (String.eqb (field_id (attrs self)) (field_id (attrs other)));
      [|reflexivity]. cbn [negb].
    destruct (form_instance self) as [fi|], (form_instance other) as [fi'|];
      cbn [form_instances_equal]; try reflexivity.
    rewrite (Hform fi' fi). destruct (form_instance_eq fi fi'); [|reflexivity].
    cbn. now rewrite Hrecord.
  - destruct (String.eqb_spec (field_id (attrs self)) (field_id (attrs other)))
      as [Hid|Hid]; [|discriminate]. cbn [negb].
    destruct (form_instance self) as [fi|], (form_instance other) as [fi'|];
      cbn [form_instances_equal].
    + destruct (form_instance_eq fi fi'); [|discriminate]. cbn.
      intros H. injection H as H. eauto 6.
    + destruct (form_instance_eq_none fi); discriminate.
    + destruct (form_instance_eq_none fi'); discriminate.
    + discriminate.
Qed.

End Operators.

(** ** Further worked examples *)

Section MoreWorked.
Import Examples MoreExamples.

(** A text field keeps a value that a numeric field would read as missing. *)
Lemma text_fields_unchanged_witness :
  __interpret (point "string" "Missing (not done)") (study false)
  = Ok (VObj (PStr "Missing (not done)")).
Proof.
  refine (proj1 (text_fields_unchanged (study false) (point "string" "Missing (not done)")
                   "string" _ eq_refl)).
  simpl; tauto.
Defined.

(** The tags are case sensitive. *)
Lemma unknown_type_is_error_witness :
  __interpret (point "Numeric" "3.14") (study false) = Ok (VObj (PStr "Error")).
Proof.
  refine (proj2 (unknown_type_is_error (study false) (point "Numeric" "3.14") _) _).
  - intros tag Hin _ Heq. injection Heq as <-. simpl in Hin. intuition discriminate.
  - discriminate.
Defined.

Lemma scalar_raw_value_raises_witness :
  __interpret (mk_data_point "F1" (PInt 5) (field "numeric" PNone)) (study false)
  = Raise TypeError.
Proof.
  refine (proj1 (scalar_raw_value_raises (study false)
                   (mk_data_point "F1" (PInt 5) (field "numeric" PNone))
                   "numeric" _ eq_refl I)).
  simpl; tauto.
Defined.

(** A date with a time in a date field comes back in the format it was
    read in, not in the date format %Y-%m-%d of the study. *)
Lemma date_real_value_witness :
  __interpret (point "date" "01-02-2020") (study false) = Ok (VObj (PStr "2020-02-01"))
  /\ __interpret (point "date" "01-02-2020;13:45") (study false)
     = Ok (VObj (PStr "01-02-2020;13:45")).
Proof.
  split.
  - refine (proj1 (date_real_value (study false) (point "date" "01-02-2020") "01-02-2020"
                     eq_refl eq_refl _ eq_refl) (mk_datetime 2020 2 1 0 0 0) eq_refl).
    discriminate.
  - refine (proj1 (proj2 (date_real_value (study false) (point "date" "01-02-2020;13:45")
                            "01-02-2020;13:45" eq_refl eq_refl _ eq_refl) eq_refl)
              (mk_datetime 2020 2 1 13 45 0) eq_refl).
    discriminate.
Defined.

(** A date without a time in a datetime field is midnight. *)
Lemma datetime_real_value_witness :
  __interpret (point "datetime" "01-02-2020") (study false)
  = Ok (VObj (PStr "2020-02-01 00:00:00")).
Proof.
  refine (proj1 (proj2 (datetime_real_value (study false) (point "datetime" "01-02-2020")
                          "01-02-2020" eq_refl eq_refl _ eq_refl) eq_refl)
            (mk_datetime 2020 2 1 0 0 0) eq_refl).
  discriminate.
Defined.

Lemma time_real_value_witness :
  __interpret (point "time" "7:05") (study false) = Ok (VObj (PStr "07:05"))
  /\ __interpret (point "time" "7:05:30") (study false) = Raise ValueError.
Proof.
  split.
  - refine (proj1 (time_real_value (study false) (point "time" "7:05") "7:05"
                     eq_refl eq_refl _ eq_refl) (mk_datetime 1900 1 1 7 5 0) eq_refl).
    discriminate.
  - refine (proj2 (time_real_value (study false) (point "time" "7:05:30") "7:05:30"
                     eq_refl eq_refl _ eq_refl) eq_refl).
    discriminate.
Defined.

(** A number alone is no numberdate value. *)
Lemma numberdate_needs_one_separator_witness :
  __interpret (point "numberdate" "5") (study false) = Raise ValueError
  /\ __interpret (point "numberdate" "5;01-02-2020;") (study false) = Raise ValueError.
Proof.
  split.
  - refine (proj1 (numberdate_needs_one_separator (study false) (point "numberdate" "5")
                     "5" eq_refl eq_refl _ eq_refl _)); discriminate.
  - refine (proj1 (numberdate_needs_one_separator (study false)
                     (point "numberdate" "5;01-02-2020;") "5;01-02-2020;"
                     eq_refl eq_refl _ eq_refl _)); discriminate.
Defined.

Lemma numberdate_pairs_numeric_and_date_witness :
  exists number date : pyobj,
    __interpret (mk_data_point "F1" (PStr "Missing (not asked)")
                   (mk_field "answer" (PStr "numeric") PNone PNone)) (study false)
    = Ok (VObj number)
    /\ __interpret (mk_data_point "F1" (PStr "Missing (not asked)")
                      (mk_field "answer" (PStr "date") PNone PNone)) (study false)
       = Ok (VObj date)
    /\ __interpret (mk_data_point "F1" (PStr "Missing (not asked)")
                      (mk_field "answer" (PStr "numberdate") PNone PNone)) (study false)
       = Ok (VObj (PList [number; date])).
Proof.
  exact (numberdate_pairs_numeric_and_date (study false) "F1" "answer" "Missing (not asked)"
           PNone PNone (or_intror eq_refl)).
Defined.

(** Of the options Yes and Ja for the value 1, the later one names it. *)
Lemma optiongroup_last_option_wins_witness :
  __interpret (point "checkbox" "1;2;3") (twice_study true) = Ok (VObj (PStr "Ja|No|3"))
  /\ __interpret (point "checkbox" "1;2") (twice_study false) = Ok (VObj (PStr "Ja|No")).
Proof.
  split.
  - refine (proj1 (optiongroup_last_option_wins (twice_study true)
                     (point "checkbox" "1;2;3") "checkbox" "1;2;3" twice
                     _ eq_refl eq_refl _ eq_refl eq_refl) eq_refl).
    + simpl; tauto.
    + discriminate.
  - refine (proj2 (optiongroup_last_option_wins (twice_study false)
                     (point "checkbox" "1;2") "checkbox" "1;2" twice
                     _ eq_refl eq_refl _ eq_refl eq_refl) eq_refl ["Ja"; "No"] _).
    + simpl; tauto.
    + discriminate.
    + repeat constructor.
Defined.

(** The second column of the template is of the type "grid". *)
Lemma unknown_column_type_cells_witness :
  interpret_column wide_grid (study false) mixed_template text_cells 1
  = Ok [PStr "Error"; PStr "Error"].
Proof.
  refine (unknown_column_type_cells wide_grid (study false) mixed_template
            (PList [PStr "numeric"; PStr "grid"]) (PList [PNone; PNone])
            (PStr "grid") PNone text_cells 1 eq_refl eq_refl eq_refl eq_refl _).
  intros tag Hin Hne Heq. injection Heq as <-. now apply Hne.
Defined.

Lemma grid_cells_as_data_points_witness :
  Forall2 (fun cell v =>
             __interpret
               (mk_data_point "cell" cell (grid_object "grid" (PStr "numeric") PNone))
               (study false)
             = Ok (VObj v))
    [PStr "1.5"; PStr "Missing (not done)"]
    [PFloat (S754_finite false 6755399441055744 (-52)); PInt (-99)].
Proof.
  assert (Hcol : interpret_column wide_grid (study false) mixed_template text_cells 0
                 = Ok [PFloat (S754_finite false 6755399441055744 (-52)); PInt (-99)])
    by reflexivity.
  destruct (grid_cells_as_data_points wide_grid (study false) mixed_template text_cells 0
              _ "cell" Hcol)
    as [field_types [option_lists [ft [og [H1 [H2 [H3 [H4 H]]]]]]]].
  cbn in H1. injection H1 as <-. cbn in H2. injection H2 as <-.
  cbn in H3. injection H3 as <-. cbn in H4. injection H4 as <-.
  apply H. discriminate.
Defined.

(** The number 2 in the numeric column. *)
Lemma scalar_cell_fails_columns_witness :
  exists e, interpret_columns wide_grid (study false) mixed_template number_cells = Raise e.
Proof.
  refine (scalar_cell_fails_columns wide_grid (study false) mixed_template
            (PList [PStr "numeric"; PStr "grid"]) (PList [PNone; PNone]) PNone
            "numeric" number_cells 1 0 _ _ eq_refl eq_refl eq_refl eq_refl _ I).
  - simpl; lia.
  - simpl; lia.
  - simpl; tauto.
Defined.

(** Two rows of three cells and one field type: the table is transposed to
    two columns, and the second has no field type. *)
Lemma too_few_template_entries_witness :
  __interpret short_grid (study false) = Ok (VObj (PStr "Error")).
Proof.
  refine (too_few_template_entries short_grid (study false) (parsed short_template)
            (map snd match parsed wide_raw with PDict kvs => kvs | _ => [] end)
            (frame_of wide_raw) (T (frame_of wide_raw))
            (Some (PList [PStr "c1"; PStr "c2"; PStr "c3"]))
            (Some (PList [PStr "r1"; PStr "r2"]))
            "fieldTypes" [PStr "string"]
            eq_refl _ _ eq_refl eq_refl eq_refl eq_refl (or_introl eq_refl) eq_refl _).
  - discriminate.
  - discriminate.
  - simpl; lia.
Defined.

(** The rows of [wide_raw] and its transpose, under the templates of
    [wide_grid] and [tall_grid]. *)
Lemma orientation_independent_of_storage_witness :
  orient (parsed tall_template) (T (frame_of wide_raw))
  = orient (parsed wide_template) (frame_of wide_raw).
Proof.
  refine (proj2 (orientation_independent_of_storage
                   (parsed wide_template) (parsed tall_template)
                   (PList [PStr "string"; PStr "radio"; PStr "string"])
                   (PList [PStr " first"; PStr "second "])
                   (PList [PStr "note"; PStr "answer"; PStr "remark"])
                   3 (frame_of wide_raw)
                   eq_refl eq_refl eq_refl eq_refl eq_refl eq_refl eq_refl _ eq_refl)).
  discriminate.
Defined.

Lemma grid_table_well_formed_witness :
  length (tbl_rows wide_table) = length (tbl_index wide_table)
  /\ Forall (fun r => length r = length (tbl_columns wide_table)) (tbl_rows wide_table)
  /\ Forall (fun label => strip label = label)
       (tbl_columns wide_table ++ tbl_index wide_table).
Proof.
  exact (grid_table_well_formed wide_grid (study false) wide_table eq_refl eq_refl).
Defined.

(** An unknown field id fails before a malformed fill-in time does. *)
Lemma constructor_failure_order_witness :
  __init__ "F9" (PStr "1") (fields false) (PStr "yesterday")
  = Raise (CastorException
             "The field that this is an instance of does not exist in the study!")
  /\ __init__ "F1" (PStr "7") (fields false) (PStr "yesterday") = Raise ValueError.
Proof.
  split.
  - exact (proj1 (constructor_failure_order "F9" (PStr "1") (fields false)
                    (PStr "yesterday")) eq_refl).
  - refine (proj2 (constructor_failure_order "F1" (PStr "7") (fields false)
                     (PStr "yesterday"))
              (field "radio" (PStr "og1")) "yesterday" eq_refl eq_refl _ eq_refl).
    discriminate.
Defined.

(** A grid whose raw value is not JSON still gives a data point; its value
    is "Error". *)
Lemma grid_constructor_succeeds_witness :
  exists o,
    __init__ "G2" (PStr "{0: [") (fields false) (PStr "") = Ok o
    /\ attrs o = mk_data_point "G2" (PStr "{0: [") (instance_of wide_grid)
    /\ form_instance o = None
    /\ __interpret (attrs o) (study_of (fields false)) = Ok (value_of o).
Proof.
  exact (grid_constructor_succeeds "G2" (PStr "{0: [") (fields false)
           (PStr "") (instance_of wide_grid) eq_refl eq_refl (or_introl eq_refl)).
Defined.

Lemma fresh_data_point_unlinked_witness :
  __init__ "F1" (PStr "1") (fields false) (PStr "") = Ok (fresh "F1")
  /\ __repr__ (fresh "F1") = Raise AttributeError
  /\ __eq__ (fun _ _ => true) (fun _ => false) (fun _ _ => true)
       (fresh "F1") (AnyDataPoint (fresh "F1"))
     = Raise AttributeError.
Proof.
  split; [reflexivity|].
  exact (proj2 (fresh_data_point_unlinked (fun _ _ => true) (fun _ => false)
                  (fun _ _ => true) "F1" (PStr "1") (fields false) (PStr "")
                  (fresh "F1") eq_refl)).
Defined.

(** Two data points of the same field in form instances of the same
    record. *)
Lemma equality_of_data_points_witness :
  __eq__ (fun _ _ => true) (fun _ => false)
    (fun r r' => String.eqb (record_id r) (record_id r'))
    (linked "F1" "R1" "Intake") (AnyDataPoint (linked "F1" "R1" "Visit"))
  = __eq__ (fun _ _ => true) (fun _ => false)
      (fun r r' => String.eqb (record_id r) (record_id r'))
      (linked "F1" "R1" "Visit") (AnyDataPoint (linked "F1" "R1" "Intake")).
Proof.
  refine (proj1 (equality_of_data_points (fun _ _ => true) (fun _ => false)
                   (fun r r' => String.eqb (record_id r) (record_id r'))
                   (linked "F1" "R1" "Intake") (linked "F1" "R1" "Visit") _ _)).
  - reflexivity.
  - intros r r'. apply String.eqb_sym.
Defined.

End MoreWorked.

(** ** What a grid needs *)

Section GridNeeds.
Context {rt : PyRuntime}.

Lemma grid_raise_is_error (self : CastorDataPoint) (study : CastorStudy) :
  field_type (instance_of self) = PStr "grid" ->
  raw_value self <> PStr "" ->
  field_summary_template (instance_of self) <> PStr "" ->
  (exists e, grid_try self study = Raise e) ->
  __interpret self study = Ok (VObj (PStr "Error")).
Proof.
  intros Hft Hraw Htmpl [e He].
  rewrite (method_grid self study Hft). unfold __interpret_grid.
  apply py_eq_str_false in Hraw, Htmpl. now rewrite Hraw, Htmpl, He.
Qed.

Lemma orient_needs_object (tmpl : pyobj) (df : frame) :
  (forall kvs, tmpl <> PDict kvs) -> exists e, orient tmpl df = Raise e.
Proof.
  intros Hno. unfold orient.
  assert (Hget : forall key, py_getitem tmpl key = Raise TypeError).
  { intros key. destruct tmpl; try reflexivity. now contradiction (Hno d). }
  destruct (negb (shape0 df =? shape1 df)%nat); rewrite Hget; cbn; eauto.
Qed.

Lemma orient_needs_names (kvs : list (string * pyobj)) (df : frame) (key : string) :
  key = "rowNames" \/ key = "columnNames" ->
  find (fun kv => String.eqb (fst kv) key) kvs = None ->
  exists e, orient (PDict kvs) df = Raise e.
Proof.
  intros Hkey Hfind.
  assert (Hget : py_getitem (PDict kvs) key = Raise KeyError).
  { cbn. now rewrite Hfind. }
  unfold orient. destruct Hkey as [-> | ->]; raise_cases;
    try (rewrite Hget in *; discriminate);
    try (eexists; reflexivity).
Qed.

(** Both the raw value and the summary template of a grid must be the text
    of a JSON object: when either is not JSON at all, or is JSON of another
    kind (an array, a string, a number), the result is "Error". *)
Theorem grid_needs_json_objects (self : CastorDataPoint) (study : CastorStudy)
    (raw tmpl : string) :
  field_type (instance_of self) = PStr "grid" ->
  raw_value self = PStr raw ->
  field_summary_template (instance_of self) = PStr tmpl ->
  raw <> "" -> tmpl <> "" ->
  ~ json_object raw \/ ~ json_object tmpl ->
  __interpret self study = Ok (VObj (PStr "Error")).
Proof.
  intros Hft Hraw Htmpl Hr Ht Hno.
  apply grid_raise_is_error; [assumption | rewrite Hraw; congruence
                             | rewrite Htmpl; congruence |].
  unfold grid_try, grid_rows_of. rewrite Hraw, Htmpl. cbn [py_json_loads].
  unfold json_object in Hno.
  destruct (json_loads tmpl) as [t|] eqn:Hjt; cbn [of_option bind]; [|eauto].
  destruct (json_loads raw) as [v|] eqn:Hjr; cbn [of_option bind]; [|eauto].
  destruct Hno as [Hno | Hno].
  - destruct v; cbn; eauto. exfalso. apply Hno. eauto.
  - destruct (py_values v) as [rows|]; cbn [bind]; [|eauto].
    destruct (pd_DataFrame rows) as [df|]; cbn [bind]; [|eauto].
    destruct (orient_needs_object t df) as [e ->]; [|cbn; eauto].
    intros kvs ->. apply Hno. eauto.
Qed.

(** A grid whose template has no "rowNames", or no "columnNames", is
    "Error", whether or not the table is square. *)
Theorem grid_needs_names (self : CastorDataPoint) (study : CastorStudy)
    (kvs : list (string * pyobj)) (key : string) :
  field_type (instance_of self) = PStr "grid" ->
  raw_value self <> PStr "" ->
  field_summary_template (instance_of self) <> PStr "" ->
  py_json_loads (field_summary_template (instance_of self)) = Ok (PDict kvs) ->
  key = "rowNames" \/ key = "columnNames" ->
  find (fun kv => String.eqb (fst kv) key) kvs = None ->
  __interpret self study = Ok (VObj (PStr "Error")).
Proof.
  intros Hft Hraw Htmpl Hparse Hkey Hfind.
  apply grid_raise_is_error; try assumption.
  unfold grid_try. rewrite Hparse. cbn [bind].
  destruct (grid_rows_of (raw_value self)) as [rows|]; cbn [bind]; [|eauto].
  destruct (pd_DataFrame rows) as [df|]; cbn [bind]; [|eauto].
  destruct (orient_needs_names kvs df key Hkey Hfind) as [e ->]. cbn. eauto.
Qed.

End GridNeeds.

(** ** Telling the reasons apart *)

Section Reasons.
Context {rt : PyRuntime}.

(** For the field types whose missing values do not depend on a date
    format, the value shown tells the reason: two raw values with
    "Missing" that are shown alike have the same first reason, or both
    none. *)
Theorem sentinels_tell_reasons_apart (study : CastorStudy) (self self' : CastorDataPoint)
    (tag raw raw' : string) :
  In tag plain_missing_tags ->
  field_type (instance_of self) = PStr tag ->
  field_type (instance_of self') = PStr tag ->
  raw_value self = PStr raw -> raw_value self' = PStr raw' ->
  contains "Missing" raw = true -> contains "Missing" raw' = true ->
  __interpret self study = __interpret self' study ->
  first_reason raw = first_reason raw'.
Proof.
  intros Htag Hft Hft' Hraw Hraw' Hm Hm'.
  assert (Hin : In tag missing_tags).
  { unfold plain_missing_tags in Htag. simpl in Htag. tag_cases Htag; simpl; tauto. }
  rewrite (method_missing study self tag raw) by assumption.
  rewrite (method_missing study self' tag raw') by assumption.
  unfold plain_missing_tags in Htag. simpl in Htag.
  destruct (first_reason raw) as [[]|], (first_reason raw') as [[]|];
    tag_cases Htag; intros H; try reflexivity; discriminate H.
Qed.

End Reasons.

Section MoreWorked2.
Import Examples MoreExamples.

(** A raw value that is a JSON array. *)
Lemma grid_needs_json_objects_witness :
  __interpret (mk_data_point "G7" (PStr (json_text "[['a', 'b']]"))
                 (instance_of wide_grid)) (study false)
  = Ok (VObj (PStr "Error")).
Proof.
  refine (grid_needs_json_objects
            (mk_data_point "G7" (PStr (json_text "[['a', 'b']]")) (instance_of wide_grid))
            (study false) (json_text "[['a', 'b']]") wide_template
            eq_refl eq_refl eq_refl _ _ (or_introl _)).
  - discriminate.
  - discriminate.
  - intros [kvs H]. discriminate H.
Defined.

Lemma grid_needs_names_witness :
  __interpret (mk_data_point "G8" (PStr wide_raw)
                 (mk_field "grid" (PStr "grid") PNone (PStr nameless_template)))
    (study false)
  = Ok (VObj (PStr "Error")).
Proof.
  refine (grid_needs_names
            (mk_data_point "G8" (PStr wide_raw)
               (mk_field "grid" (PStr "grid") PNone (PStr nameless_template)))
            (study false)
            [("fieldTypes", PList [PStr "string"; PStr "string"; PStr "string"]);
             ("optionLists", PList [PNone; PNone; PNone]);
             ("columnNames", PList [PStr "c1"; PStr "c2"; PStr "c3"])]
            "rowNames" eq_refl _ _ eq_refl (or_introl eq_refl) eq_refl).
  - discriminate.
  - discriminate.
Defined.

(** Two raw values that a time field shows alike, as "-99": the first
    reason of both is "not done". *)
Lemma sentinels_tell_reasons_apart_witness :
  __interpret (point "time" "Missing (not done)") (study false)
  = __interpret (point "time" "Missing, not done at visit") (study false)
  /\ first_reason "Missing (not done)" = first_reason "Missing, not done at visit".
Proof.
  split; [reflexivity|].
  refine (sentinels_tell_reasons_apart (study false)
            (point "time" "Missing (not done)") (point "time" "Missing, not done at visit")
            "time" "Missing (not done)" "Missing, not done at visit"
            _ eq_refl eq_refl eq_refl eq_refl eq_refl eq_refl eq_refl).
  simpl; tauto.
Defined.

End MoreWorked2.
